(** * Worker database of the experiment master: shallow embedding and proofs

    This development embeds [artiq/master/worker_db.py] in Rocq: the run
    identifier counter ([RIDCounter]), the device manager
    ([DeviceManager]), the output file of a run ([get_hdf5_output]), the
    HDF5 result writer ([result_dict_to_hdf5]) and the dataset manager
    ([DatasetManager]).  Python objects that are
    mutated in place live in an explicit heap, exceptions are values of
    [pyexn], and every method is a function in a state-and-exception
    monad over the part of the world it touches. *)

From Stdlib Require Import ZArith String Ascii List Lia Bool.
From Stdlib Require Import DecimalString DecimalZ DecimalPos DecimalN.
From Stdlib.Strings Require Import Byte.
From stdpp Require Import base option gmap strings list fin_maps.

Local Open Scope string_scope.
Local Open Scope list_scope.
Local Open Scope Z_scope.

(** ** Python exceptions and the execution monad *)

(** The exception classes the module raises or lets through.  All of them
    derive from Python's [Exception]. *)
Inductive pyexn : Type :=
  | KeyError (msg : string)
  | TypeError (msg : string)
  | ValueError (msg : string)
  | IndexError
  | AttributeError
  | OverflowError
  | UnicodeEncodeError
  | FileNotFoundError
  | OSError
  | RuntimeError (msg : string).

(** Outcome of a call: a returned value or a raised exception. *)
Inductive outcome (A : Type) : Type :=
  | Return (a : A)
  | Raise (e : pyexn).
Arguments Return {A} a.
Arguments Raise {A} e.

(** A computation over a state [S]: the state is threaded through, and
    survives a raised exception as Python's heap does. *)
Definition M (S A : Type) : Type := S -> outcome A * S.

Definition ret {S A} (a : A) : M S A := fun s => (Return a, s).
Definition raise {S A} (e : pyexn) : M S A := fun s => (Raise e, s).
Definition bind {S A B} (c : M S A) (k : A -> M S B) : M S B :=
  fun s => match c s with
           | (Return a, s') => k a s'
           | (Raise e, s') => (Raise e, s')
           end.
Definition get_state {S} : M S S := fun s => (Return s, s).
Definition put_state {S} (s : S) : M S unit := fun _ => (Return tt, s).
Definition modify {S} (f : S -> S) : M S unit := fun s => (Return tt, f s).

(** [try c except Exception as e: h e] *)
Definition try_except {S A} (c : M S A) (h : pyexn -> M S A) : M S A :=
  fun s => match c s with
           | (Return a, s') => (Return a, s')
           | (Raise e, s') => h e s'
           end.

(** The monad is registered with stdpp's [MRet] and [MBind], which gives
    the notations [x ← c; k] and [c;; k]. *)
#[global] Instance M_ret {S} : MRet (M S) := fun A a => ret a.
#[global] Instance M_bind {S} : MBind (M S) := fun A B k c => bind c k.

(** Unfolding of the monad on a given state. *)
Ltac run_monad :=
  unfold mbind, mret, M_bind, M_ret, bind, ret, raise, get_state,
    put_state, modify, try_except; simpl.


(** Computations that only read: [outcome] itself is a monad. *)
#[global] Instance outcome_ret : MRet outcome := fun A a => Return a.
#[global] Instance outcome_bind : MBind outcome := fun A B k c =>
  match c with
  | Return a => k a
  | Raise e => Raise e
  end.

(** A read-only computation run inside [M]. *)
Definition lift {S A} (f : S -> outcome A) : M S A := fun s => (f s, s).

(** ** Text: [re.fullmatch], [int()] and [str()] *)

Module Text.

(** *** Regular expressions

    The fragment of Python's [re] syntax that the module uses: character
    classes, concatenation and the star.  [Void] and [Alt] only arise as
    derivatives. *)
Inductive regex : Type :=
  | Void
  | Eps
  | Cls (p : ascii -> bool)
  | Cat (r1 r2 : regex)
  | Alt (r1 r2 : regex)
  | Star (r : regex).

Fixpoint nullable (r : regex) : bool :=
  match r with
  | Void => false
  | Eps => true
  | Cls _ => false
  | Cat r1 r2 => nullable r1 && nullable r2
  | Alt r1 r2 => nullable r1 || nullable r2
  | Star _ => true
  end.

(** Brzozowski derivative: the words [w] such that [c :: w] matches. *)
Fixpoint deriv (c : ascii) (r : regex) : regex :=
  match r with
  | Void => Void
  | Eps => Void
  | Cls p => if p c then Eps else Void
  | Cat r1 r2 =>
      if nullable r1 then Alt (Cat (deriv c r1) r2) (deriv c r2)
      else Cat (deriv c r1) r2
  | Alt r1 r2 => Alt (deriv c r1) (deriv c r2)
  | Star r1 => Cat (deriv c r1) (Star r1)
  end.

Fixpoint accepts (r : regex) (w : list ascii) : bool :=
  match w with
  | [] => nullable r
  | c :: w' => accepts (deriv c r) w'
  end.

(** [re.fullmatch(pattern, x) is not None] *)
Definition fullmatch (r : regex) (x : string) : bool :=
  accepts r (list_ascii_of_string x).

Definition is_digit (c : ascii) : bool :=
  let n := N_of_ascii c in ((48 <=? n) && (n <=? 57))%N.

(** [\d]: on the code points below 256 the decimal digits are [0-9]. *)
Definition digit : regex := Cls is_digit.
(** A literal character. *)
Definition chr (c : ascii) : regex := Cls (Ascii.eqb c).
(** [.] without DOTALL: any character but the line feed. *)
Definition dot : regex := Cls (fun c => negb (Ascii.eqb c "010")).

Definition seq_re (rs : list regex) : regex := foldr Cat Eps rs.

(** *** [int(s)] and [str(n)] *)

(** Whitespace that [int()] strips, on the code points below 256: the
    ASCII whitespace (tab to carriage return, and the space), and the
    whitespace above 127 (U+0085 and U+00A0), which [int()] first turns
    into spaces.  The separators U+001C to U+001F are whitespace for
    [str.isspace] but are not stripped. *)
Definition is_space (c : ascii) : bool :=
  let n := N_of_ascii c in
  (((9 <=? n) && (n <=? 13)) || (n =? 32) || (n =? 133) || (n =? 160))%N.

Fixpoint lstrip (w : list ascii) : list ascii :=
  match w with
  | c :: w' => if is_space c then lstrip w' else w
  | [] => []
  end.

Definition strip (w : list ascii) : list ascii :=
  rev (lstrip (rev (lstrip w))).

Definition digit_val (c : ascii) : Z := Z.of_N (N_of_ascii c) - 48.

(** Decimal digits, where single underscores may separate digits;
    [after_digit] tells whether the previous character was a digit. *)
Fixpoint parse_digits (acc : Z) (after_digit : bool) (w : list ascii)
    : option Z :=
  match w with
  | [] => if after_digit then Some acc else None
  | c :: w' =>
      if is_digit c then parse_digits (10 * acc + digit_val c) true w'
      else if Ascii.eqb c "_" && after_digit then parse_digits acc false w'
      else None
  end.

(** An optional sign, then the digits. *)
Definition signed_digits (w : list ascii) : option Z :=
  match w with
  | "-"%char :: ds => Z.opp <$> parse_digits 0 false ds
  | "+"%char :: ds => parse_digits 0 false ds
  | ds => parse_digits 0 false ds
  end.

(** [repr(s)] for a [str] of code points below 256: single quotes, unless
    the string holds a single quote and no double quote; the backslash
    and the quote in use are escaped; tab, line feed and carriage return
    are written [\t], [\n], [\r]; any other character that is not
    printable is written [\xhh]. *)
Definition is_printable (c : ascii) : bool :=
  let n := N_of_ascii c in
  (((32 <=? n) && (n <? 127)) || ((161 <=? n) && negb (n =? 173)))%N.

Definition hex_digit (n : N) : ascii :=
  (if n <? 10 then ascii_of_N (48 + n) else ascii_of_N (87 + n))%N.

Definition repr_char (quote c : ascii) : list ascii :=
  if Ascii.eqb c quote || Ascii.eqb c "092" then ["092"; c]%char
  else if Ascii.eqb c "009" then ["092"; "t"]%char
  else if Ascii.eqb c "010" then ["092"; "n"]%char
  else if Ascii.eqb c "013" then ["092"; "r"]%char
  else if is_printable c then [c]
  else
    let n := N_of_ascii c in
    ["092"%char; "x"%char; hex_digit (n / 16); hex_digit (n mod 16)].

Definition python_repr (s : string) : string :=
  let w := list_ascii_of_string s in
  let quote :=
    if existsb (Ascii.eqb "039") w && negb (existsb (Ascii.eqb "034") w)
    then "034"%char else "039"%char in
  string_of_list_ascii (quote :: flat_map (repr_char quote) w ++ [quote]).

(** The exception of [int(s)] for a string that is no number: the message
    is made with ["%.200R"], which keeps 200 characters of [repr(s)]. *)
Definition invalid_literal (s : string) : pyexn :=
  ValueError
    ("invalid literal for int() with base 10: " +:+
     string_of_list_ascii (take 200 (list_ascii_of_string (python_repr s)))).

(** [int(s)] in base 10: surrounding whitespace, an optional sign, digits. *)
Definition python_int (s : string) : outcome Z :=
  match signed_digits (strip (list_ascii_of_string s)) with
  | Some z => Return z
  | None => Raise (invalid_literal s)
  end.

(** [str(n)] for an [int]: decimal digits, ["-"] in front of a negative. *)
Definition python_str (z : Z) : string :=
  NilZero.string_of_int (Z.to_int z).

End Text.

(** ** RIDCounter *)

Module RID.
Import Text.

(** *** The file system

    A results tree: plain files, directories with their entries, and
    directories that cannot be listed. *)
#[local] Unset Elimination Schemes.
Inductive node : Type :=
  | File
  | Dir (entries : list (string * node))
  | Denied.
#[local] Set Elimination Schemes.

(** [files] is the directory of the cache file (name to contents), [dirs]
    maps the name of a results directory to its tree. *)
Record filesys : Type := mkFs {
  files : gmap string string;
  dirs : gmap string node
}.

Definition lookup_entry (name : string) (es : list (string * node))
    : option node :=
  snd <$> List.find (fun e => String.eqb (fst e) name) es.

(** The node a relative path ([os.path.join] of its components) names. *)
Fixpoint walk (n : node) (p : list string) : option node :=
  match p with
  | [] => Some n
  | name :: p' =>
      match n with
      | Dir es =>
          match lookup_entry name es with
          | Some n' => walk n' p'
          | None => None
          end
      | _ => None
      end
  end.

(** [os.listdir(os.path.join(root, *p))]: the entry names, or [OSError]
    (nothing there, not a directory, permission denied). *)
Definition listdir (fs : filesys) (root : string) (p : list string)
    : outcome (list string) :=
  match dirs fs !! root with
  | None => Raise FileNotFoundError
  | Some n =>
      match walk n p with
      | Some (Dir es) => Return (fst <$> es)
      | Some File => Raise OSError
      | Some Denied => Raise OSError
      | None => Raise FileNotFoundError
      end
  end.

(** *** The patterns of [_last_rid_from_results] *)

(** ['\d\d\d\d-\d\d-\d\d'] *)
Definition day_re : regex :=
  seq_re [digit; digit; digit; digit; chr "-"; digit; digit; chr "-";
          digit; digit].

(** ['\d\d-\d\d'] *)
Definition minute_re : regex :=
  seq_re [digit; digit; chr "-"; digit; digit].

(** ['(\d\d\d\d\d\d\d\d\d)-.*\.h5'] *)
Definition h5_re : regex :=
  seq_re [digit; digit; digit; digit; digit; digit; digit; digit; digit;
          chr "-"; Star dot; chr "."; chr "h"; chr "5"].

(** [m.group(1)] for a match of [h5_re]: the group is the pattern's first
    nine characters. *)
Definition group1 (x : string) : string := substring 0 9 x.

(** *** The counter *)

Record RIDCounter : Type := mkRIDCounter {
  cache_filename : string;
  results_dir : string;
  _next_rid : Z
}.

Section Counter.

(** [tempfile.NamedTemporaryFile(dir=directory, delete=False)] picks the
    name of the temporary file; the choice is left open. *)
Variable mktemp : gmap string string -> string.

(** [os.replace(src, dst)] within the cache directory. *)
Definition os_replace (src dst : string) : M filesys unit :=
  fs ← get_state;
  match files fs !! src with
  | Some contents =>
      put_state (mkFs (<[dst := contents]> (delete src (files fs))) (dirs fs))
  | None => raise FileNotFoundError
  end.

Definition _update_cache (self : RIDCounter) (rid : Z) : M filesys unit :=
  let contents := python_str rid +:+ String "010" EmptyString in
  fs ← get_state;
  let tmpname := mktemp (files fs) in
  put_state (mkFs (<[tmpname := contents]> (files fs)) (dirs fs));;
  os_replace tmpname (cache_filename self).

Definition _last_rid_from_cache (self : RIDCounter) : M filesys Z :=
  lift (fun fs =>
    match files fs !! cache_filename self with
    | Some contents => python_int contents
    | None => Raise FileNotFoundError
    end).

(** The innermost loop, over the entries of one minute folder. *)
Fixpoint scan_h5files (h5files : list string) (r : Z) : outcome Z :=
  match h5files with
  | [] => Return r
  | x :: rest =>
      if fullmatch h5_re x then
        rid ← python_int (group1 x);
        scan_h5files rest (if r <? rid then rid else r)
      else scan_h5files rest r                       (* continue *)
  end.

(** The loop over the (filtered) minute folders of one day folder. *)
Fixpoint scan_minute_folders (fs : filesys) (root df : string)
    (minute_folders : list string) (r : Z) : outcome Z :=
  match minute_folders with
  | [] => Return r
  | mf :: rest =>
      match listdir fs root [df; mf] with
      | Raise _ => scan_minute_folders fs root df rest r     (* continue *)
      | Return h5files =>
          r' ← scan_h5files h5files r;
          scan_minute_folders fs root df rest r'
      end
  end.

(** The loop over the (filtered) day folders. *)
Fixpoint scan_day_folders (fs : filesys) (root : string)
    (day_folders : list string) (r : Z) : outcome Z :=
  match day_folders with
  | [] => Return r
  | df :: rest =>
      match listdir fs root [df] with
      | Raise _ => scan_day_folders fs root rest r           (* continue *)
      | Return minute_folders =>
          let minute_folders :=
            List.filter (fullmatch minute_re) minute_folders in
          r' ← scan_minute_folders fs root df minute_folders r;
          scan_day_folders fs root rest r'
      end
  end.

Definition _last_rid_from_results (self : RIDCounter) : M filesys Z :=
  lift (fun fs =>
    let r := -1 in
    match listdir fs (results_dir self) [] with
    | Raise _ => Return r
    | Return day_folders =>
        let day_folders := List.filter (fullmatch day_re) day_folders in
        scan_day_folders fs (results_dir self) day_folders r
    end).

Definition _last_rid (self : RIDCounter) : M filesys Z :=
  try_except (_last_rid_from_cache self)
    (fun e =>
       match e with
       | FileNotFoundError =>
           rid ← _last_rid_from_results self;
           _update_cache self rid;;
           mret rid
       | _ => raise e
       end).

(** [RIDCounter(cache_filename="last_rid.pyon", results_dir="results")] *)
Definition init (cache_filename results_dir : string)
    : M filesys RIDCounter :=
  let self := mkRIDCounter cache_filename results_dir 0 in
  last ← _last_rid self;
  mret (mkRIDCounter cache_filename results_dir (last + 1)).

(** [get()]: the allocated id and the counter after the call. *)
Definition get (self : RIDCounter) : M filesys (Z * RIDCounter) :=
  let rid := _next_rid self in
  let self := mkRIDCounter (cache_filename self) (results_dir self)
                           (_next_rid self + 1) in
  _update_cache self rid;;
  mret (rid, self).

(** [n] successive calls of [get()], with the ids in the order returned. *)
Fixpoint gets (n : nat) (self : RIDCounter) : M filesys (list Z * RIDCounter) :=
  match n with
  | O => mret ([], self)
  | S n' =>
      '(rid, self) ← get self;
      '(rids, self) ← gets n' self;
      mret (rid :: rids, self)
  end.

End Counter.

End RID.

(** ** DeviceManager *)

Module Devices.

(** A device database entry: an alias (a plain name) or a description. *)
Record desc : Type := mkDesc {
  ty : string;                              (* desc["type"] *)
  desc_module : string;                     (* desc["module"] *)
  desc_class : string;                      (* desc["class"] *)
  arguments : list (string * string);       (* desc.get("arguments", {}) *)
  host : string;                            (* desc["host"] *)
  port : Z;                                 (* desc["port"] *)
  target_name : option string;              (* desc.get("target_name", None) *)
  best_effort : bool                        (* desc.get("best_effort", False) *)
}.

Inductive ddb_entry : Type :=
  | Alias (name : string)
  | Desc (d : desc).

Section Manager.

(** The hardware and the remote controllers: whatever the drivers and
    RPC clients act on. *)
Variable world : Type.

(** A device handle, by what [close_devices] can tell about it: an RPC
    client ([Client] or [BestEffortClient]) with its [close_rpc], or a
    local driver, which may or may not have a [close] attribute.  A close
    operation acts on the world and may raise. *)
Inductive device : Type :=
  | RpcClient (is_best_effort : bool) (close_rpc : M world unit)
  | Driver (close : option (M world unit)).

(** What the manager did, in order: handles created by [get], close
    operations invoked, warnings logged. *)
Inductive event : Type :=
  | Created (name : string)
  | Closed (name : string)
  | Warned (name : string) (e : pyexn).

(** [active_devices] is the [OrderedDict]: the pairs in insertion order. *)
Record state : Type := mkState {
  hw : world;
  active_devices : list (string * device);
  trace : list event
}.

(** The collaborators: the device database, the dynamic import and
    instantiation of a driver class, the connection of an RPC client
    (which yields the client's [close_rpc]), and the virtual devices.
    A driver class is instantiated on the world: a constructor that
    calls back into the manager it is handed ([device_mgr.get]) is not
    described. *)
Variable ddb_get : string -> outcome ddb_entry.
Variable import_class :
  string -> string -> list (string * string) -> M world device.
Variable rpc_connect :
  bool -> string -> Z -> option string -> M world (M world unit).
Variable virtual_devices : gmap string device.

Definition lookup_device (name : string) (ds : list (string * device))
    : option device :=
  snd <$> List.find (fun d => String.eqb (fst d) name) ds.

(** A computation on the world, run on the manager's state. *)
Definition on_world {A} (c : M world A) : M state A :=
  fun st =>
    match c (hw st) with
    | (r, w) => (r, mkState w (active_devices st) (trace st))
    end.

Definition log (ev : event) : M state unit :=
  modify (fun st => mkState (hw st) (active_devices st) (trace st ++ [ev])).

(** [_create_device(desc, device_mgr)] *)
Definition _create_device (d : desc) : M world device :=
  if String.eqb (ty d) "local" then
    import_class (desc_module d) (desc_class d) (arguments d)
  else if String.eqb (ty d) "controller" then
    (* a missing or None target_name stands for AutoTarget *)
    close_rpc ← rpc_connect (best_effort d) (host d) (port d) (target_name d);
    mret (RpcClient (best_effort d) close_rpc)
  else
    raise (ValueError ("Unsupported type in device DB: " +:+ ty d)).

(** [while isinstance(desc, str): desc = self.ddb.get(desc)], run for at
    most [fuel] iterations; [None] when the chain of aliases is longer. *)
Fixpoint resolve (fuel : nat) (e : ddb_entry) : option (outcome desc) :=
  match e with
  | Desc d => Some (Return d)
  | Alias name =>
      match fuel with
      | O => None
      | S fuel' =>
          match ddb_get name with
          | Return e' => resolve fuel' e'
          | Raise x => Some (Raise x)
          end
      end
  end.

(** [get(name)]; [None] when the alias loop needs more than [fuel] steps. *)
Definition get (fuel : nat) (name : string) (st : state)
    : option (outcome device * state) :=
  match virtual_devices !! name with
  | Some dev => Some (Return dev, st)
  | None =>
      match lookup_device name (active_devices st) with
      | Some dev => Some (Return dev, st)
      | None =>
          match ddb_get name with
          | Raise x => Some (Raise x, st)
          | Return e =>
              match resolve fuel e with
              | None => None
              | Some (Raise x) => Some (Raise x, st)
              | Some (Return d) =>
                  Some ((dev ← on_world (_create_device d);
                         modify (fun st =>
                           mkState (hw st)
                                   (active_devices st ++ [(name, dev)])
                                   (trace st ++ [Created name]));;
                         mret dev) st)
              end
          end
      end
  end.

(** The body of the loop of [close_devices], for one handle. *)
Definition close_device (name : string) (dev : device) : M state unit :=
  try_except
    match dev with
    | RpcClient _ close_rpc => log (Closed name);; on_world close_rpc
    | Driver (Some close) => log (Closed name);; on_world close
    | Driver None => mret tt
    end
    (fun e => log (Warned name e)).

Fixpoint close_each (devs : list (string * device)) : M state unit :=
  match devs with
  | [] => mret tt
  | (name, dev) :: rest => close_device name dev;; close_each rest
  end.

(** [close_devices()] *)
Definition close_devices : M state unit :=
  st ← get_state;
  close_each (rev (active_devices st));;
  modify (fun st => mkState (hw st) [] (trace st)).

(** [DeviceManager(ddb, virtual_devices)] over a world [w]. *)
Definition init (w : world) : state := mkState w [] [].

(** The names of the handles created, and of those whose close operation
    was invoked, in the order of the trace. *)
Definition created (t : list event) : list string :=
  omap (fun ev => match ev with Created n => Some n | _ => None end) t.
Definition closed (t : list event) : list string :=
  omap (fun ev => match ev with Closed n => Some n | _ => None end) t.

(** Whether [close_devices] finds a close operation on the handle. *)
Definition closable (dev : device) : bool :=
  match dev with
  | RpcClient _ _ => true
  | Driver (Some _) => true
  | Driver None => false
  end.

(** The states of a manager on which only [get] has been called. *)
Inductive reachable : state -> Prop :=
  | reach_init w : reachable (init w)
  | reach_get st fuel name r st' :
      reachable st -> get fuel name st = Some (r, st') -> reachable st'.

End Manager.

Arguments RpcClient {world}.
Arguments Driver {world}.
Arguments mkState {world}.
Arguments hw {world}.
Arguments active_devices {world}.
Arguments trace {world}.
Arguments init {world}.
Arguments closable {world}.
Arguments close_devices {world}.
Arguments close_each {world}.
Arguments close_device {world}.
Arguments lookup_device {world}.
Arguments get {world}.
Arguments reachable {world}.

End Devices.

(** ** result_dict_to_hdf5 *)

Module Hdf5.

(** The fixed-width numpy scalar types of [_type_to_hdf5]. *)
Inductive np_type : Type :=
  | np_int8 | np_int16 | np_int32 | np_int64
  | np_uint8 | np_uint16 | np_uint32 | np_uint64
  | np_float16 | np_float32 | np_float64.

#[global] Instance np_type_eq_dec : EqDecision np_type.
Proof. solve_decision. Defined.

(** A Python [str]: its Unicode code points. *)
Definition pystr := list N.

(** The values a result dictionary may hold.  Floating-point payloads are
    carried as their bit patterns and never computed on; [NpScalar] holds
    the integer value (or the bit pattern of a float); [PyObject] stands
    for an instance of any other class, named by [type(data)]. *)
Inductive pydata : Type :=
  | PyBool (b : bool)
  | PyInt (z : Z)
  | PyFloat (bits : Z)
  | PyStr (s : pystr)
  | PyBytes (bs : list byte)
  | NpScalar (t : np_type) (v : Z)
  | NpArray (t : np_type) (shape : list nat) (elems : list Z)
  | PyObject (type_name : string).

(** [type(data)] *)
Inductive pytype : Type :=
  | ty_bool | ty_int | ty_float | ty_str | ty_bytes
  | ty_np (t : np_type)
  | ty_ndarray
  | ty_other (type_name : string).

Definition type_of (data : pydata) : pytype :=
  match data with
  | PyBool _ => ty_bool
  | PyInt _ => ty_int
  | PyFloat _ => ty_float
  | PyStr _ => ty_str
  | PyBytes _ => ty_bytes
  | NpScalar t _ => ty_np t
  | NpArray _ _ _ => ty_ndarray
  | PyObject n => ty_other n
  end.

(** [isinstance(data, bool)] *)
Definition isinstance_bool (data : pydata) : bool :=
  match data with PyBool _ => true | _ => false end.

(** [isinstance(data, int)]: [bool] is a subclass of [int]. *)
Definition isinstance_int (data : pydata) : bool :=
  match data with PyBool _ | PyInt _ => true | _ => false end.

(** [isinstance(data, np.ndarray)] *)
Definition isinstance_ndarray (data : pydata) : bool :=
  match data with NpArray _ _ _ => true | _ => false end.

(** The integer a [bool] or an [int] stands for. *)
Definition int_value (data : pydata) : Z :=
  match data with
  | PyBool b => if b then 1 else 0
  | PyInt z => z
  | _ => 0
  end.

(** [np.int8(x)] and [np.int64(x)] for a Python integer [x]: numpy
    refuses a value outside the type's range. *)
Definition np_int8_of (z : Z) : outcome pydata :=
  if (- 2 ^ 7 <=? z) && (z <? 2 ^ 7) then Return (NpScalar np_int8 z)
  else Raise OverflowError.

Definition np_int64_of (z : Z) : outcome pydata :=
  if (- 2 ^ 63 <=? z) && (z <? 2 ^ 63) then Return (NpScalar np_int64 z)
  else Raise OverflowError.

(** The type codes of [h5py.h5t] that the module uses. *)
Inductive h5type : Type :=
  | STD_I8BE | STD_I16BE | STD_I32BE | STD_I64BE
  | STD_U8BE | STD_U16BE | STD_U32BE | STD_U64BE
  | IEEE_F16BE | IEEE_F32BE | IEEE_F64BE.

(** The type of a dataset: a type code, the dtype string ["S<n>"] (byte
    strings of fixed length [n]), or the dtype h5py takes from an array. *)
Inductive dtype : Type :=
  | H5 (t : h5type)
  | FixedString (n : nat)
  | OfArray (t : np_type).

(** The dictionary [_type_to_hdf5]. *)
Definition _type_to_hdf5 (ty : pytype) : option h5type :=
  match ty with
  | ty_int => Some STD_I64BE
  | ty_float => Some IEEE_F64BE
  | ty_np np_int8 => Some STD_I8BE
  | ty_np np_int16 => Some STD_I16BE
  | ty_np np_int32 => Some STD_I32BE
  | ty_np np_int64 => Some STD_I64BE
  | ty_np np_uint8 => Some STD_U8BE
  | ty_np np_uint16 => Some STD_U16BE
  | ty_np np_uint32 => Some STD_U32BE
  | ty_np np_uint64 => Some STD_U64BE
  | ty_np np_float16 => Some IEEE_F16BE
  | ty_np np_float32 => Some IEEE_F32BE
  | ty_np np_float64 => Some IEEE_F64BE
  | _ => None
  end.

(** *** [str.encode()]: UTF-8 *)

Definition byte_of_N (n : N) : byte :=
  match Byte.of_N n with Some b => b | None => Byte.x00 end.

(** The bytes of one code point; [None] for a surrogate (and for a number
    that is no code point), which UTF-8 cannot encode. *)
Definition utf8_encode_char (c : N) : option (list byte) :=
  (if c <? 0x80 then Some [byte_of_N c]
   else if c <? 0x800 then
     Some [byte_of_N (N.lor 0xC0 (N.shiftr c 6));
           byte_of_N (N.lor 0x80 (N.land c 0x3F))]
   else if c <? 0x10000 then
     if (0xD800 <=? c) && (c <=? 0xDFFF) then None
     else
       Some [byte_of_N (N.lor 0xE0 (N.shiftr c 12));
             byte_of_N (N.lor 0x80 (N.land (N.shiftr c 6) 0x3F));
             byte_of_N (N.lor 0x80 (N.land c 0x3F))]
   else if c <? 0x110000 then
     Some [byte_of_N (N.lor 0xF0 (N.shiftr c 18));
           byte_of_N (N.lor 0x80 (N.land (N.shiftr c 12) 0x3F));
           byte_of_N (N.lor 0x80 (N.land (N.shiftr c 6) 0x3F));
           byte_of_N (N.lor 0x80 (N.land c 0x3F))]
   else None)%N.

Fixpoint encode (s : pystr) : outcome (list byte) :=
  match s with
  | [] => Return []
  | c :: s' =>
      match utf8_encode_char c with
      | Some bs => rest ← encode s'; mret (bs ++ rest)
      | None => Raise UnicodeEncodeError
      end
  end.

(** *** The output file *)

Record dataset : Type := mkDataset {
  ds_shape : list nat;                 (* [] is the scalar shape () *)
  ds_dtype : dtype;
  ds_data : option pydata;             (* the value held, if any *)
  ds_attrs : gmap string pydata        (* dataset.attrs *)
}.

(** An open [h5py.File] whose root group holds datasets only: its
    datasets by name. *)
Abbreviation h5file := (gmap string dataset).

(** A plain dataset name: not empty, not ["."], without ["/"] and without
    the character NUL.  h5py reads a name with ["/"] as a path through
    groups, which these files do not have; the writer is only described
    for plain names. *)
Definition is_plain (name : string) : bool :=
  negb (String.eqb name "") && negb (String.eqb name ".") &&
  forallb (fun c => negb (Ascii.eqb c "/") && negb (Ascii.eqb c "000"))
          (list_ascii_of_string name).

(** A file in which every dataset has a plain name. *)
Definition plain_file (f : h5file) : Prop :=
  forall name, is_Some (f !! name) -> is_plain name = true.

(** What h5py raises for a string type of length 0: HDF5 has no type of
    size 0.  The text is the library's. *)
Definition size_not_positive : pyexn :=
  ValueError "Size must be positive (size must be positive)".

(** [f.create_dataset(name, shape, dtype)]: h5py makes the type first,
    and refuses ["S0"]; it then refuses a name that is already there,
    with a [ValueError] as well (its text, too, is the library's). *)
Definition create_dataset (name : string) (shape : list nat) (ty : dtype)
    (data : option pydata) : M h5file unit :=
  match ty with
  | FixedString O => raise size_not_positive
  | _ =>
      f ← get_state;
      match f !! name with
      | Some _ => raise (ValueError "name already exists")
      | None => put_state (<[name := mkDataset shape ty data ∅]> f)
      end
  end.

(** The value a dataset of type [ty] holds after [data] is assigned to
    it: a byte string is cut to the fixed length of the type, or filled
    up to it with NUL bytes. *)
Definition fit (ty : dtype) (data : pydata) : pydata :=
  match ty, data with
  | FixedString n, PyBytes bs =>
      PyBytes (take n (bs ++ replicate (n - length bs) x00))
  | _, _ => data
  end.

(** [dataset[()] = data] *)
Definition write_scalar (name : string) (data : pydata) : M h5file unit :=
  modify (alter (fun ds =>
    mkDataset (ds_shape ds) (ds_dtype ds) (Some (fit (ds_dtype ds) data))
              (ds_attrs ds)) name).

(** [dataset.attrs[flag] = value] *)
Definition set_attr (name flag : string) (value : pydata) : M h5file unit :=
  modify (alter (fun ds =>
    mkDataset (ds_shape ds) (ds_dtype ds) (ds_data ds)
              (<[flag := value]> (ds_attrs ds))) name).

(** The name of a type, as [format] prints it. *)
Definition type_repr (ty : pytype) : string :=
  match ty with
  | ty_bool => "<class 'bool'>"
  | ty_int => "<class 'int'>"
  | ty_float => "<class 'float'>"
  | ty_str => "<class 'str'>"
  | ty_bytes => "<class 'bytes'>"
  | ty_np t =>
      "<class 'numpy." +:+
      match t with
      | np_int8 => "int8" | np_int16 => "int16"
      | np_int32 => "int32" | np_int64 => "int64"
      | np_uint8 => "uint8" | np_uint16 => "uint16"
      | np_uint32 => "uint32" | np_uint64 => "uint64"
      | np_float16 => "float16" | np_float32 => "float32"
      | np_float64 => "float64"
      end +:+ "'>"
  | ty_ndarray => "<class 'numpy.ndarray'>"
  | ty_other n => "<class '" +:+ n +:+ "'>"
  end.

Definition unsupported (ty : pytype) : pyexn :=
  TypeError ("Type " +:+ type_repr ty +:+ " is not supported for HDF5 output").

(** The body of the loop of [result_dict_to_hdf5], for one item. *)
Definition write_item (name : string) (data : pydata) : M h5file unit :=
  (* beware: isinstance(True/False, int) == True *)
  '(data, flag) ←
    (if isinstance_bool data then
       data ← lift (fun _ => np_int8_of (int_value data));
       mret (data, Some "py_bool")
     else if isinstance_int data then
       data ← lift (fun _ => np_int64_of (int_value data));
       mret (data, Some "py_int")
     else mret (data, None));
  (if isinstance_ndarray data then
     match data with
     | NpArray t shape _ => create_dataset name shape (OfArray t) (Some data)
     | _ => mret tt
     end
   else
     let ty := type_of data in
     '(ty_h5, data) ←
       match data with
       | PyStr s =>
           let ty_h5 := FixedString (length s) in
           data ← lift (fun _ => encode s);
           mret (ty_h5, PyBytes data)
       | _ =>
           match _type_to_hdf5 ty with
           | Some t => mret (H5 t, data)
           | None => raise (unsupported ty)
           end
       end;
     create_dataset name [] ty_h5 None;;
     write_scalar name data);;
  match flag with
  | Some flag => set_attr name flag (NpScalar np_int8 1)
  | None => mret tt
  end.

(** [result_dict_to_hdf5(f, rd)]; [rd] is the dictionary's items, in
    iteration order. *)
Fixpoint result_dict_to_hdf5 (rd : list (string * pydata)) : M h5file unit :=
  match rd with
  | [] => mret tt
  | (name, data) :: rest => write_item name data;; result_dict_to_hdf5 rest
  end.

End Hdf5.
(** ** DatasetManager *)

Module Datasets.

(** A heap address of a mutable Python object. *)
Definition loc := positive.
Bind Scope positive_scope with loc.

(** Values stored under a dataset key: [None], immutable scalars, or a
    reference to a mutable container (a list or an array) on the heap.
    Two mappings holding the same reference share the container. *)
Inductive pyval : Type :=
  | VNone
  | VBool (b : bool)
  | VInt (z : Z)
  | VStr (s : string)
  | VRef (l : loc).

#[global] Instance pyval_eq_dec : EqDecision pyval.
Proof. solve_decision. Defined.

Section Manager.

(** [target[index] = value] dispatches to the [__setitem__] of the
    container's own class; [DatasetManager] fixes neither the class nor
    the kind of index (an integer, a slice, a tuple).  The container
    protocol is therefore a parameter: [obj_setitem o i v] is the content
    of [o] after [o[i] = v], or the exception the container raises. *)
Variable container : Type.
Variable index : Type.
Variable obj_setitem : container -> index -> pyval -> outcome container.

(** Modelled from the spec: [Notifier] (artiq.protocols.sync_struct) is
    not among the sources.  The spec describes the broadcast mapping as
    a mapping whose changes are forwarded to an external publish
    collaborator ([ddb.update]); the model keeps the backing mapping
    ([Notifier.read]) and appends one notification per write made through
    the notifier to [published]. *)
Inductive notification : Type :=
  | PubSet (key : string) (entry : bool * pyval)
  | PubMutate (key : string) (i : index) (value : pyval).

Record state : Type := mkState {
  broadcast : gmap string (bool * pyval);   (* self.broadcast.read *)
  local : gmap string pyval;                (* self.local *)
  heap : gmap loc container;                (* the mutable objects *)
  published : list notification             (* calls of self.broadcast.publish *)
}.

Definition with_heap (st : state) (h : gmap loc container) : state :=
  mkState (broadcast st) (local st) h (published st).

(** [__init__]: both mappings start empty. *)
Definition init (h : gmap loc container) : state := mkState ∅ ∅ h [].

(** [set(key, value, broadcast=False, persist=False, save=True)] *)
Definition set (key : string) (value : pyval)
    (broadcast_arg persist save : bool) : M state unit :=
  let broadcast_arg := if persist then true else broadcast_arg in
  (if broadcast_arg then
     modify (fun st =>
       mkState (<[key := (persist, value)]> (broadcast st)) (local st)
               (heap st) (published st ++ [PubSet key (persist, value)]))
   else mret tt);;
  (if save then
     modify (fun st =>
       mkState (broadcast st) (<[key := value]> (local st))
               (heap st) (published st))
   else mret tt).

(** What the variable [target] of [mutate] holds before the write: a
    plain object taken from the local mapping ([None] initially), or the
    notifier [self.broadcast[key][1]] wrapping the broadcast value. *)
Inductive target : Type :=
  | Plain (v : pyval)
  | Notified (key : string) (v : pyval).

(** [o[index] = value] on the heap object referenced by [v];
    [no_item_assignment] is what Python raises when [v] is not a
    container. *)
Definition store_item (no_item_assignment : pyexn) (v : pyval)
    (i : index) (value : pyval) : M state unit :=
  match v with
  | VRef l =>
      st ← get_state;
      match heap st !! l with
      | Some o =>
          match obj_setitem o i value with
          | Return o' => put_state (with_heap st (<[l := o']> (heap st)))
          | Raise e => raise e
          end
      | None => raise (RuntimeError "dangling reference")
      end
  | _ => raise no_item_assignment
  end.

(** [target[index] = value] *)
Definition target_setitem (t : target) (i : index) (value : pyval)
    : M state unit :=
  match t with
  | Plain v =>
      store_item (TypeError "object does not support item assignment")
                 v i value
  | Notified key v =>
      (* Notifier.__setitem__: write to the backing object, then publish *)
      store_item AttributeError v i value;;
      modify (fun st =>
        mkState (broadcast st) (local st) (heap st)
                (published st ++ [PubMutate key i value]))
  end.

(** [mutate(key, index, value)] *)
Definition mutate (key : string) (i : index) (value : pyval)
    : M state unit :=
  st ← get_state;
  let target := Plain VNone in
  let target :=
    match local st !! key with
    | Some v => Plain v                       (* key in self.local *)
    | None => target
    end in
  let target :=
    match broadcast st !! key with
    | Some (_, v) => Notified key v           (* key in self.broadcast.read *)
    | None => target
    end in
  match target with
  | Plain VNone => raise (KeyError "Cannot mutate non-existing dataset")
  | _ => target_setitem target i value
  end.

(** [get(key)]; [ddb_get] is the dataset database's lookup. *)
Variable ddb_get : string -> outcome pyval.

Definition get (key : string) : M state pyval :=
  st ← get_state;
  match local st !! key with
  | Some v => mret v
  | None => match ddb_get key with
            | Return v => mret v
            | Raise e => raise e
            end
  end.

End Manager.

Arguments mkState {container index}.
Arguments broadcast {container index}.
Arguments local {container index}.
Arguments heap {container index}.
Arguments published {container index}.
Arguments with_heap {container index}.
Arguments init {container index}.
Arguments set {container index}.
Arguments mutate {container index}.
Arguments get {container index}.
Arguments PubSet {index}.
Arguments PubMutate {index}.

(** *** A concrete container: Python lists indexed by integers *)

(** [l[i] = v] for a Python list: a negative index counts from the end,
    an index outside [-len, len) raises [IndexError]. *)
Definition list_setitem (l : list pyval) (i : Z) (v : pyval)
    : outcome (list pyval) :=
  let n := Z.of_nat (length l) in
  if (0 <=? i) && (i <? n) then Return (<[Z.to_nat i := v]> l)
  else if (- n <=? i) && (i <? 0) then Return (<[Z.to_nat (i + n) := v]> l)
  else Raise IndexError.

End Datasets.

(** ** get_hdf5_output *)

Module Output.
Import Text RID.

(** The fields of a [time.struct_time] that the two formats read. *)
Record struct_time : Type := mkTime {
  tm_year : Z;
  tm_mon : Z;
  tm_mday : Z;
  tm_hour : Z;
  tm_min : Z
}.

(** The character of a decimal digit. *)
Definition digit_char (d : Z) : ascii := ascii_of_N (Z.to_N (48 + d)).

(** A number below 100 on two digits ([%m], [%d], [%H], [%M]). *)
Definition two_digits (n : Z) : string :=
  String (digit_char (n / 10)) (String (digit_char (n mod 10)) EmptyString).

(** Whether a field fits a C [int]. *)
Definition fits_int (z : Z) : bool := (- 2 ^ 31 <=? z) && (z <? 2 ^ 31).

(** [time.strftime] first converts the fields it is given to C integers,
    the year also less 1900: a field that does not fit is an
    [OverflowError].  It then checks them, in this order: a month in
    0..12 and a day in 0..31 (0 stands for 1), an hour in 0..23, a minute
    in 0..59; anything else is a [ValueError].  The other fields of the
    time are taken as valid. *)
Definition checked (t : struct_time) : outcome struct_time :=
  if negb (fits_int (tm_year t) && fits_int (tm_year t - 1900)
           && fits_int (tm_mon t) && fits_int (tm_mday t)
           && fits_int (tm_hour t) && fits_int (tm_min t)) then
    Raise OverflowError
  else if negb ((0 <=? tm_mon t) && (tm_mon t <=? 12)) then
    Raise (ValueError "month out of range")
  else if negb ((0 <=? tm_mday t) && (tm_mday t <=? 31)) then
    Raise (ValueError "day of month out of range")
  else if negb ((0 <=? tm_hour t) && (tm_hour t <=? 23)) then
    Raise (ValueError "hour out of range")
  else if negb ((0 <=? tm_min t) && (tm_min t <=? 59)) then
    Raise (ValueError "minute out of range")
  else
    Return (mkTime (tm_year t)
                   (if tm_mon t =? 0 then 1 else tm_mon t)
                   (if tm_mday t =? 0 then 1 else tm_mday t)
                   (tm_hour t) (tm_min t)).

(** [time.strftime("%Y-%m-%d", t)]; the year is printed as it is, without
    padding, as the C library of Linux does. *)
Definition strftime_day (t : struct_time) : outcome string :=
  t ← checked t;
  mret (python_str (tm_year t) +:+ "-" +:+ two_digits (tm_mon t) +:+ "-"
        +:+ two_digits (tm_mday t)).

(** [time.strftime("%H-%M", t)] *)
Definition strftime_minute (t : struct_time) : outcome string :=
  t ← checked t;
  mret (two_digits (tm_hour t) +:+ "-" +:+ two_digits (tm_min t)).

Fixpoint zeros (n : nat) : string :=
  match n with
  | O => EmptyString
  | S n' => String "0" (zeros n')
  end.

(** [format(z, "09")]: the sign, then zeros up to a width of 9, then the
    digits; a number that needs more room gets it. *)
Definition format_09 (z : Z) : string :=
  let digits := python_str (Z.abs z) in
  let sign := if z <? 0 then "-" else "" in
  sign +:+ zeros (9 - String.length sign - String.length digits) +:+ digits.

(** ["{:09}-{}.h5".format(rid, name)] for a string [name]. *)
Definition h5_filename (rid : Z) (name : string) : string :=
  format_09 rid +:+ "-" +:+ name +:+ ".h5".

(** *** Writing to the results tree *)





End Output.

(** * Properties *)

(** ** Running the monad *)

Module MonadTheory.

Lemma run_bind {S A B} (c : M S A) (k : A -> M S B) (s s' : S) (a : A) :
  c s = (Return a, s') -> (c ≫= k) s = k a s'.
Proof. intros H. unfold mbind, M_bind, bind. rewrite H. reflexivity. Qed.

Lemma run_bind_raise {S A B} (c : M S A) (k : A -> M S B) (s s' : S)
    (e : pyexn) :
  c s = (Raise e, s') -> (c ≫= k) s = (Raise e, s').
Proof. intros H. unfold mbind, M_bind, bind. rewrite H. reflexivity. Qed.

Lemma run_try_return {S A} (c : M S A) (h : pyexn -> M S A) (s s' : S)
    (a : A) :
  c s = (Return a, s') -> try_except c h s = (Return a, s').
Proof. intros H. unfold try_except. rewrite H. reflexivity. Qed.

Lemma run_try_raise {S A} (c : M S A) (h : pyexn -> M S A) (s s' : S)
    (e : pyexn) :
  c s = (Raise e, s') -> try_except c h s = h e s'.
Proof. intros H. unfold try_except. rewrite H. reflexivity. Qed.

End MonadTheory.

(** ** DatasetManager: [set] and [mutate] *)

Module DatasetsTheory.
Import Datasets.

Section Manager.

Variable container : Type.
Variable index : Type.
Variable obj_setitem : container -> index -> pyval -> outcome container.

#[local] Abbreviation state := (state container index).
#[local] Abbreviation mutate := (mutate obj_setitem).

Definition not_found : pyexn := KeyError "Cannot mutate non-existing dataset".

(** The variable [target] of [mutate] after its two tests, as a function
    of the two lookups. *)
Lemma mutate_unfold (key : string) (i : index) (value : pyval) (st : state) :
  mutate key i value st =
  match broadcast st !! key, local st !! key with
  | Some (_, v), _ => target_setitem _ _ obj_setitem (Notified key v) i value st
  | None, Some VNone => (Raise not_found, st)
  | None, Some v => target_setitem _ _ obj_setitem (Plain v) i value st
  | None, None => (Raise not_found, st)
  end.
Proof.
  unfold Datasets.mutate. run_monad.
  destruct (broadcast st !! key) as [[p v]|]; [reflexivity|].
  destruct (local st !! key) as [[]|]; reflexivity.
Qed.

Lemma store_item_ref (exn : pyexn) (l : loc) (i : index) (value : pyval)
    (o o' : container) (st : state) :
  heap st !! l = Some o ->
  obj_setitem o i value = Return o' ->
  store_item _ _ obj_setitem exn (VRef l) i value st =
  (Return tt, with_heap st (<[l := o']> (heap st))).
Proof.
  intros Hl Hset. unfold store_item. run_monad. rewrite Hl, Hset. reflexivity.
Qed.

(** C1 (as amended): a key held by the local mapping only is mutated in
    the local mapping's container; a key held by the broadcast mapping is
    mutated in the broadcast mapping's container, whether or not the local
    mapping holds the key too.  In both cases the write is in place: the
    two mappings are unchanged and the container's content is replaced by
    what its item assignment yields. *)
Theorem mutate_target_container (st : state) (key : string) (i : index)
    (value : pyval) (l : loc) (o o' : container) :
  heap st !! l = Some o ->
  obj_setitem o i value = Return o' ->
  (broadcast st !! key = None ->
   local st !! key = Some (VRef l) ->
   mutate key i value st =
   (Return tt, with_heap st (<[l := o']> (heap st))))
  /\
  (forall persist,
   broadcast st !! key = Some (persist, VRef l) ->
   mutate key i value st =
   (Return tt,
    mkState (broadcast st) (local st) (<[l := o']> (heap st))
            (published st ++ [PubMutate key i value]))).
Proof.
  intros Hl Hset. split.
  - intros Hb Hloc. rewrite mutate_unfold, Hb, Hloc.
    unfold target_setitem. apply (store_item_ref _ l i value o o' st Hl Hset).
  - intros persist Hb. rewrite mutate_unfold, Hb.
    unfold target_setitem, mbind, M_bind, bind.
    rewrite (store_item_ref AttributeError l i value o o' st Hl Hset).
    reflexivity.
Qed.

(** C6: [set] with [persist=True] writes [(True, value)] under the key in
    the broadcast mapping and publishes it, whatever [broadcast] and
    [save] are. *)
Theorem set_persist_forces_broadcast (st : state) (key : string)
    (value : pyval) (broadcast_arg save : bool) :
  exists st' : state,
    set key value broadcast_arg true save st = (Return tt, st') /\
    broadcast st' !! key = Some (true, value) /\
    published st' = published st ++ [PubSet key (true, value)].
Proof.
  unfold set. run_monad. destruct save; simpl.
  - eexists; split; [reflexivity|]. simpl. split; [|reflexivity].
    apply lookup_insert_eq.
  - eexists; split; [reflexivity|]. simpl. split; [|reflexivity].
    apply lookup_insert_eq.
Qed.

(** C7: [mutate] on a key that neither mapping holds raises the not-found
    [KeyError] and leaves the whole state as it was: no key is created,
    no mapping and no container changes. *)
Theorem mutate_absent_key (st : state) (key : string) (i : index)
    (value : pyval) :
  local st !! key = None ->
  broadcast st !! key = None ->
  mutate key i value st = (Raise not_found, st).
Proof.
  intros Hloc Hb. rewrite mutate_unfold, Hb, Hloc. reflexivity.
Qed.

(** C10: a key whose local value is [None], and which the broadcast
    mapping does not hold, is reported as not found although the local
    mapping holds it. *)
Theorem mutate_local_none (st : state) (key : string) (i : index)
    (value : pyval) :
  local st !! key = Some VNone ->
  broadcast st !! key = None ->
  is_Some (local st !! key) /\
  mutate key i value st = (Raise not_found, st).
Proof.
  intros Hloc Hb. split; [rewrite Hloc; eauto|].
  rewrite mutate_unfold, Hb, Hloc. reflexivity.
Qed.

(** When one [set] call stored the same container in both mappings
    ([broadcast=True] with [save=True]), the write made through the
    broadcast mapping is the write the local mapping sees: there is one
    container, and it is updated once. *)
Lemma mutate_shared_container (st : state) (key : string) (i : index)
    (value : pyval) (l : loc) (o o' : container) (persist : bool) :
  local st !! key = Some (VRef l) ->
  broadcast st !! key = Some (persist, VRef l) ->
  heap st !! l = Some o ->
  obj_setitem o i value = Return o' ->
  exists st' : state,
    mutate key i value st = (Return tt, st') /\
    local st' !! key = Some (VRef l) /\
    broadcast st' !! key = Some (persist, VRef l) /\
    heap st' !! l = Some o'.
Proof.
  intros Hloc Hb Hl Hset. rewrite mutate_unfold, Hb.
  unfold target_setitem, mbind, M_bind, bind.
  rewrite (store_item_ref AttributeError l i value o o' st Hl Hset).
  eexists. split; [reflexivity|]. simpl.
  split; [exact Hloc|]. split; [exact Hb|]. apply lookup_insert_eq.
Qed.

(** *** What [set] and [mutate] leave alone *)

(** The two ways an item assignment ends: the container at the reference
    is replaced by its updated content, or an exception leaves the state
    as it was. *)
Lemma store_item_cases (exn : pyexn) (v : pyval) (i : index) (value : pyval)
    (st : state) :
  (exists l o o',
     v = VRef l /\ heap st !! l = Some o /\
     obj_setitem o i value = Return o' /\
     store_item _ _ obj_setitem exn v i value st =
     (Return tt, with_heap st (<[l := o']> (heap st))))
  \/
  (exists e, store_item _ _ obj_setitem exn v i value st = (Raise e, st)).
Proof.
  destruct v as [|b|z|s|l]; try (right; eexists; reflexivity).
  unfold store_item. run_monad.
  destruct (heap st !! l) as [o|] eqn:Hl; [|right; eexists; reflexivity].
  destruct (obj_setitem o i value) as [o'|e] eqn:Hset.
  - left. exists l, o, o'. auto.
  - right. eexists. reflexivity.
Qed.

Lemma target_setitem_cases (t : target) (i : index) (value : pyval)
    (st : state) :
  (exists st', target_setitem _ _ obj_setitem t i value st = (Return tt, st') /\
               local st' = local st /\ broadcast st' = broadcast st)
  \/
  (exists e, target_setitem _ _ obj_setitem t i value st = (Raise e, st)).
Proof.
  destruct t as [v|key v]; unfold target_setitem.
  - destruct (store_item_cases
                (TypeError "object does not support item assignment")
                v i value st)
      as [(l & o & o' & _ & _ & _ & Hrun)|[e Hrun]].
    + left. eexists. split; [exact Hrun|]. split; reflexivity.
    + right. exists e. exact Hrun.
  - destruct (store_item_cases AttributeError v i value st)
      as [(l & o & o' & _ & _ & _ & Hrun)|[e Hrun]].
    + left. eexists. unfold mbind, M_bind, bind. rewrite Hrun.
      split; [reflexivity|]. split; reflexivity.
    + right. exists e. unfold mbind, M_bind, bind. rewrite Hrun. reflexivity.
Qed.

(** Every run of [mutate] ends in one of two ways: it returns, and both
    mappings are what they were (no key added, removed or rebound; only
    a container and the publish log can have changed); or it raises, and
    the whole state is what it was: no container is half-written and
    nothing is published. *)
Theorem mutate_keeps_mappings (key : string) (i : index) (value : pyval)
    (st : state) :
  (exists st', mutate key i value st = (Return tt, st') /\
               local st' = local st /\ broadcast st' = broadcast st)
  \/
  (exists e, mutate key i value st = (Raise e, st)).
Proof.
  rewrite mutate_unfold.
  destruct (broadcast st !! key) as [[p v]|].
  - apply target_setitem_cases.
  - destruct (local st !! key) as [v|]; [|right; eexists; reflexivity].
    destruct v; try apply target_setitem_cases.
    right. eexists. reflexivity.
Qed.

Variable ddb_get : string -> outcome pyval.
#[local] Abbreviation get := (get ddb_get).


(** [set] never raises and touches only what its flags name: the
    containers are never touched; the local mapping changes at the key,
    and only with [save]; the broadcast mapping changes at the key and one
    notification is published, only with [broadcast] or [persist]. *)
Theorem set_frame (st : state) (key : string) (value : pyval)
    (broadcast_arg persist save : bool) :
  exists st',
    set key value broadcast_arg persist save st = (Return tt, st') /\
    heap st' = heap st /\
    local st' = (if save then <[key := value]> (local st) else local st) /\
    (if broadcast_arg || persist
     then broadcast st' = <[key := (persist, value)]> (broadcast st) /\
          published st' = published st ++ [PubSet key (persist, value)]
     else broadcast st' = broadcast st /\ published st' = published st).
Proof.
  unfold set. run_monad.
  destruct persist, broadcast_arg, save; simpl;
    eexists; (split; [reflexivity|]); simpl; auto.
Qed.

End Manager.

(** *** Instances on Python lists *)

Definition heap0 : gmap loc (list pyval) :=
  {[ 1%positive := [VInt 0; VInt 0]; 2%positive := [VInt 5; VInt 5] ]}.

(** [set("x", a)] then [set("x", b, broadcast=True, save=False)], for two
    distinct lists [a] (at address 1) and [b] (at address 2). *)
Definition both_mappings : state (list pyval) Z :=
  snd ((set "x" (VRef 1) false false true;;
        set "x" (VRef 2) true false false) (init heap0)).

(** [set("x", a)] alone. *)
Definition local_only : state (list pyval) Z :=
  snd (set "x" (VRef 1) false false true (init heap0)).

(** [set("n", None)]. *)
Definition local_none : state (list pyval) Z :=
  snd (set "n" VNone false false true (init heap0)).

(** C1 as stated (a key of the local mapping is always mutated in the
    local mapping's container) fails when the broadcast mapping holds the
    key with another container: the write goes there, and the local
    container keeps its content. *)
Lemma mutate_prefers_broadcast :
  ~ (forall (st : state (list pyval) Z) key i value l o o',
       local st !! key = Some (VRef l) ->
       heap st !! l = Some o ->
       list_setitem o i value = Return o' ->
       exists st', mutate list_setitem key i value st = (Return tt, st') /\
                   heap st' !! l = Some o').
Proof.
  intros H.
  destruct (H both_mappings "x" 0 (VInt 9) 1%positive
              [VInt 0; VInt 0] [VInt 9; VInt 0])
    as (st' & Hrun & Hheap); try reflexivity.
  vm_compute in Hrun. injection Hrun as <-.
  vm_compute in Hheap. discriminate Hheap.
Qed.

(** [mutate] on the key of [local_only] writes the list at address 1, on
    the key of [both_mappings] the list at address 2. *)
Lemma mutate_target_container_witness :
  mutate list_setitem "x" (-1) (VInt 9) local_only =
    (Return tt,
     with_heap local_only (<[1%positive := [VInt 0; VInt 9]]> heap0))
  /\
  mutate list_setitem "x" 0 (VInt 9) both_mappings =
    (Return tt,
     mkState (broadcast both_mappings) (local both_mappings)
             (<[2%positive := [VInt 9; VInt 5]]> heap0)
             (published both_mappings ++ [PubMutate "x" 0 (VInt 9)])).
Proof.
  split.
  - apply (proj1 (mutate_target_container _ _ list_setitem local_only "x"
                    (-1) (VInt 9) 1%positive [VInt 0; VInt 0]
                    [VInt 0; VInt 9] eq_refl eq_refl));
      reflexivity.
  - apply (proj2 (mutate_target_container _ _ list_setitem both_mappings "x"
                    0 (VInt 9) 2%positive [VInt 5; VInt 5]
                    [VInt 9; VInt 5] eq_refl eq_refl) false);
      reflexivity.
Defined.

(** [mutate] on a key that [both_mappings] does not hold. *)
Lemma mutate_absent_key_witness :
  mutate list_setitem "y" 0 (VInt 9) both_mappings =
  (Raise (not_found), both_mappings).
Proof.
  apply (mutate_absent_key _ _ list_setitem both_mappings "y" 0 (VInt 9));
    reflexivity.
Defined.

(** [mutate] after [set("n", None)]. *)
Lemma mutate_local_none_witness :
  is_Some (local local_none !! "n") /\
  mutate list_setitem "n" 0 (VInt 9) local_none =
  (Raise (not_found), local_none).
Proof.
  apply (mutate_local_none _ _ list_setitem local_none "n" 0 (VInt 9));
    reflexivity.
Defined.

(** [set("x", a, broadcast=True)] with the default [save=True]. *)
Definition shared : state (list pyval) Z :=
  snd (set "x" (VRef 1) true false true (init heap0)).

(** [mutate] on the key of [shared]. *)
Lemma mutate_shared_container_witness :
  exists st' : state (list pyval) Z,
    mutate list_setitem "x" 1 (VInt 9) shared = (Return tt, st') /\
    local st' !! "x" = Some (VRef 1) /\
    broadcast st' !! "x" = Some (false, VRef 1) /\
    heap st' !! 1%positive = Some [VInt 0; VInt 9].
Proof.
  apply (mutate_shared_container _ _ list_setitem shared "x" 1 (VInt 9)
           1%positive [VInt 0; VInt 0] [VInt 0; VInt 9] false);
    reflexivity.
Defined.

End DatasetsTheory.

(** ** result_dict_to_hdf5: the type mapping *)

Module Hdf5Theory.
Import Hdf5.

(** The dataset written for a value, or the exception that the
    conversions of the loop body and the making of the dataset's type
    raise: the loop body without the file. *)
Definition convert (data : pydata) : outcome dataset :=
  match data with
  | PyBool b =>
      d ← np_int8_of (if b then 1 else 0);
      mret (mkDataset [] (H5 STD_I8BE) (Some d)
                      {["py_bool" := NpScalar np_int8 1]})
  | PyInt z =>
      d ← np_int64_of z;
      mret (mkDataset [] (H5 STD_I64BE) (Some d)
                      {["py_int" := NpScalar np_int8 1]})
  | NpArray t shape _ => mret (mkDataset shape (OfArray t) (Some data) ∅)
  | PyStr s =>
      bs ← encode s;
      match s with
      | [] => Raise size_not_positive
      | _ :: _ =>
          mret (mkDataset [] (FixedString (length s))
                          (Some (fit (FixedString (length s)) (PyBytes bs))) ∅)
      end
  | _ =>
      match _type_to_hdf5 (type_of data) with
      | Some t => mret (mkDataset [] (H5 t) (Some data) ∅)
      | None => Raise (unsupported (type_of data))
      end
  end.

(** What is stored for a boolean and for a native integer. *)
Definition bool_dataset (b : bool) : dataset :=
  mkDataset [] (H5 STD_I8BE) (Some (NpScalar np_int8 (if b then 1 else 0)))
            {["py_bool" := NpScalar np_int8 1]}.

Definition int_dataset (z : Z) : dataset :=
  mkDataset [] (H5 STD_I64BE) (Some (NpScalar np_int64 z))
            {["py_int" := NpScalar np_int8 1]}.

Definition in_int64 (z : Z) : Prop := - 2 ^ 63 <= z < 2 ^ 63.

(** The values that the loop body converts without an exception. *)
Definition writable (data : pydata) : Prop :=
  exists ds, convert data = Return ds.

Lemma np_int64_of_in_range (z : Z) :
  in_int64 z -> np_int64_of z = Return (NpScalar np_int64 z).
Proof.
  unfold in_int64, np_int64_of. intros [Hlo Hhi].
  apply Z.leb_le in Hlo. apply Z.ltb_lt in Hhi.
  rewrite Hlo, Hhi. reflexivity.
Qed.



Lemma convert_int (z : Z) :
  in_int64 z -> convert (PyInt z) = Return (int_dataset z).
Proof.
  intros Hz. unfold convert. rewrite (np_int64_of_in_range z Hz). reflexivity.
Qed.

Lemma alter_insert_fresh (name : string) (ds : dataset) (g : dataset -> dataset)
    (f : h5file) :
  alter g name (<[name := ds]> f) = <[name := g ds]> f.
Proof.
  apply map_eq. intros k. destruct (decide (name = k)) as [->|Hne].
  - rewrite lookup_alter_eq, !lookup_insert_eq. reflexivity.
  - rewrite lookup_alter_ne, !lookup_insert_ne by assumption. reflexivity.
Qed.

(** One iteration of the loop: the conversions first, then the dataset
    is created under a name that must be free. *)
Lemma write_item_convert (name : string) (data : pydata) (f : h5file) :
  f !! name = None ->
  write_item name data f =
  match convert data with
  | Return ds => (Return tt, <[name := ds]> f)
  | Raise e => (Raise e, f)
  end.
Proof.
  intros Hfree. unfold write_item, convert.
  destruct data as [b|z|bits|s|bs|t v|t shape elems|n]; simpl.
  - destruct b; unfold create_dataset, write_scalar, set_attr; run_monad;
      rewrite Hfree; rewrite !alter_insert_fresh; reflexivity.
  - unfold lift, np_int64_of. run_monad.
    destruct ((- 2 ^ 63 <=? z) && (z <? 2 ^ 63)); simpl; [|reflexivity].
    unfold create_dataset, write_scalar, set_attr; run_monad.
    rewrite Hfree. rewrite !alter_insert_fresh. reflexivity.
  - unfold create_dataset, write_scalar; run_monad.
    rewrite Hfree, alter_insert_fresh. reflexivity.
  - unfold lift. run_monad. destruct (encode s) as [bs|e]; simpl; [|reflexivity].
    destruct s as [|c s]; [reflexivity|].
    unfold create_dataset, write_scalar; run_monad.
    rewrite Hfree, alter_insert_fresh. reflexivity.
  - reflexivity.
  - destruct t; unfold create_dataset, write_scalar; run_monad;
      rewrite Hfree, alter_insert_fresh; reflexivity.
  - unfold create_dataset; run_monad. rewrite Hfree. reflexivity.
  - reflexivity.
Qed.

(** The loop, when every value converts and every name is free: each item
    is stored under its name as [convert] says, other names are left
    alone. *)
Lemma result_dict_written (rd : list (string * pydata)) :
  forall f : h5file,
  NoDup rd.*1 ->
  (forall name, name ∈ rd.*1 -> f !! name = None) ->
  Forall (fun item => writable item.2) rd ->
  exists f' : h5file,
    result_dict_to_hdf5 rd f = (Return tt, f') /\
    (forall name, name ∉ rd.*1 -> f' !! name = f !! name) /\
    (forall name data, (name, data) ∈ rd ->
       exists ds, convert data = Return ds /\ f' !! name = Some ds).
Proof.
  induction rd as [|[name data] rd IH]; intros f Hnodup Hfree Hall.
  - exists f. split; [reflexivity|]. split; [reflexivity|].
    intros name data Hin. inversion Hin.
  - simpl in Hnodup. apply NoDup_cons in Hnodup as [Hname Hnodup].
    apply Forall_cons in Hall as [[ds Hds] Hall]. simpl in Hds.
    assert (Hfree_name : f !! name = None).
    { apply Hfree. simpl. left. }
    destruct (IH (<[name := ds]> f) Hnodup) as (f' & Hrun & Hother & Hitems).
    { intros k Hk. rewrite lookup_insert_ne; [apply Hfree; simpl; right; exact Hk|].
      intros ->. contradiction. }
    { exact Hall. }
    exists f'. split; [|split].
    + simpl. unfold mbind, M_bind, bind.
      rewrite (write_item_convert name data f Hfree_name), Hds. exact Hrun.
    + intros k Hk. simpl in Hk. apply not_elem_of_cons in Hk as [Hne Hk].
      rewrite (Hother k Hk). apply lookup_insert_ne. congruence.
    + intros k d Hin. apply elem_of_cons in Hin as [Heq|Hin].
      * injection Heq as -> ->. exists ds. split; [exact Hds|].
        rewrite (Hother name Hname). apply lookup_insert_eq.
      * apply Hitems. exact Hin.
Qed.




(** *** Strings *)

Lemma utf8_encode_char_length (c : N) :
  match utf8_encode_char c with
  | Some bs =>
      (1 <= length bs <= 4)%nat /\ (length bs = 1%nat <-> (c < 128)%N)
  | None => (0xD800 <= c <= 0xDFFF)%N \/ (0x110000 <= c)%N
  end.
Proof.
  unfold utf8_encode_char.
  destruct (N.ltb_spec c 0x80); [simpl; split; [lia|tauto]|].
  destruct (N.ltb_spec c 0x800); [simpl; split; [lia|]; split; [discriminate|lia]|].
  destruct (N.ltb_spec c 0x10000).
  - destruct (N.leb_spec 0xD800 c), (N.leb_spec c 0xDFFF); simpl;
      try (split; [lia|]; split; [discriminate|lia]).
    left. lia.
  - destruct (N.ltb_spec c 0x110000);
      [simpl; split; [lia|]; split; [discriminate|lia]|].
    right. lia.
Qed.

Lemma encode_length (s : pystr) :
  match encode s with
  | Return bs =>
      (length s <= length bs <= 4 * length s)%nat /\
      (length bs = length s <-> Forall (fun c => (c < 128)%N) s)
  | Raise e =>
      e = UnicodeEncodeError /\
      Exists (fun c => (0xD800 <= c <= 0xDFFF)%N \/ (0x110000 <= c)%N) s
  end.
Proof.
  induction s as [|c s IH]; simpl.
  - split; [lia|]. split; [constructor|reflexivity].
  - pose proof (utf8_encode_char_length c) as Hc.
    destruct (utf8_encode_char c) as [bs|].
    + destruct Hc as [Hlen Hone].
      destruct (encode s) as [rest|e]; simpl.
      * destruct IH as [Hrest Hall]. rewrite length_app. split; [lia|].
        rewrite Forall_cons. split.
        { intros Heq. assert (length bs = 1%nat) by lia.
          split; [tauto|]. apply Hall. lia. }
        { intros [Hc1 Hs]. apply Hone in Hc1. apply Hall in Hs. lia. }
      * destruct IH as [-> Hex]. split; [reflexivity|].
        apply Exists_cons. right. exact Hex.
    + split; [reflexivity|]. apply Exists_cons. left. exact Hc.
Qed.

(** The UTF-8 encoding of an ASCII string has one byte per character. *)
Lemma encode_ascii (s : pystr) :
  Forall (fun c => (c < 128)%N) s ->
  exists bs, encode s = Return bs /\ length bs = length s.
Proof.
  intros Hall. pose proof (encode_length s) as Hlen.
  destruct (encode s) as [bs|e].
  - exists bs. split; [reflexivity|]. apply Hlen. exact Hall.
  - destruct Hlen as [_ Hex]. apply Exists_exists in Hex as (c & Hin & Hc).
    pose proof (proj1 (Forall_forall _ _) Hall c Hin) as Hlt. simpl in Hlt. lia.
Qed.

(** A byte string at least as long as the type: the type's length is
    kept of it. *)
Lemma fit_cut (n : nat) (bs : list byte) :
  (n <= length bs)%nat -> fit (FixedString n) (PyBytes bs) = PyBytes (take n bs).
Proof.
  intros Hlen. unfold fit. replace (n - length bs)%nat with 0%nat by lia.
  simpl. rewrite app_nil_r. reflexivity.
Qed.

(** What the loop body stores for a string that is not empty: the
    declared length is the number of characters, taken before the string
    is encoded, and that many bytes of the encoding are kept. *)
Lemma write_item_str (f : h5file) (name : string) (s : pystr) (bs : list byte) :
  f !! name = None ->
  s <> [] ->
  encode s = Return bs ->
  write_item name (PyStr s) f =
  (Return tt,
   <[name := mkDataset [] (FixedString (length s))
                       (Some (PyBytes (take (length s) bs))) ∅]> f).
Proof.
  intros Hfree Hs Hbs. rewrite (write_item_convert name _ f Hfree).
  unfold convert. rewrite Hbs.
  destruct s as [|c s]; [contradiction|].
  pose proof (encode_length (c :: s)) as Hlen. rewrite Hbs in Hlen.
  unfold mbind, outcome_bind, mret, outcome_ret.
  rewrite fit_cut by lia. reflexivity.
Qed.

(** The empty string, under any name and in any file: the type of
    length 0 is refused, and nothing is written. *)
Lemma write_item_empty_str (f : h5file) (name : string) :
  write_item name (PyStr []) f = (Raise size_not_positive, f).
Proof. reflexivity. Qed.

(** For ASCII strings that are not empty the declared length is the
    encoded byte length, and the dataset holds the whole encoded string;
    [{"name": "abc"}] gives a string dataset of fixed length 3.  For the
    empty string h5py refuses the type, and nothing is written. *)
Lemma ascii_string_dataset :
  (forall (f : h5file) name s,
     plain_file f ->
     is_plain name = true ->
     f !! name = None ->
     s <> [] ->
     Forall (fun c => (c < 128)%N) s ->
     exists bs,
       encode s = Return bs /\
       write_item name (PyStr s) f =
       (Return tt,
        <[name := mkDataset [] (FixedString (length bs)) (Some (PyBytes bs)) ∅]> f))
  /\
  (forall (f : h5file) name,
     plain_file f ->
     is_plain name = true ->
     exists msg, write_item name (PyStr []) f = (Raise (ValueError msg), f))
  /\
  result_dict_to_hdf5 [("name", PyStr [97; 98; 99]%N)] ∅ =
  (Return tt,
   {["name" := mkDataset [] (FixedString 3)
                         (Some (PyBytes [x61; x62; x63])) ∅]}).
Proof.
  split; [|split].
  - intros f name s _ _ Hfree Hs Hascii.
    destruct (encode_ascii s Hascii) as (bs & Hbs & Hlen).
    exists bs. split; [exact Hbs|].
    rewrite (write_item_str f name s bs Hfree Hs Hbs), <- Hlen.
    rewrite take_ge by lia. reflexivity.
  - intros f name _ _. eexists. apply write_item_empty_str.
  - vm_compute. reflexivity.
Qed.

(** A value that passes none of the tests of the loop body (no [int],
    so no [bool] either, no array, no [str]) and whose class is no key
    of [_type_to_hdf5] is refused with the [TypeError] that names its
    class, before the file is used: the file is left as it was, whatever
    the name.  A [bytes] object and an instance of any other class are
    such values. *)
Lemma unsupported_type_rejected (f : h5file) (name : string) (data : pydata) :
  isinstance_int data = false ->
  isinstance_ndarray data = false ->
  type_of data <> ty_str ->
  _type_to_hdf5 (type_of data) = None ->
  write_item name data f =
  (Raise (TypeError ("Type " +:+ type_repr (type_of data) +:+
                     " is not supported for HDF5 output")), f).
Proof.
  intros Hint Harr Hstr Hty.
  destruct data as [b|z|bits|s|bs|t v|t shape elems|n];
    try discriminate; try contradiction; try reflexivity.
  destruct t; discriminate Hty.
Qed.

(** A [bytes] object, and an instance of [object]. *)
Lemma unsupported_type_rejected_witness :
  write_item "b" (PyBytes [x61]) ∅ =
    (Raise (TypeError
              "Type <class 'bytes'> is not supported for HDF5 output"), ∅) /\
  write_item "o" (PyObject "object") ∅ =
    (Raise (TypeError
              "Type <class 'object'> is not supported for HDF5 output"), ∅).
Proof.
  split.
  - apply (unsupported_type_rejected ∅ "b" (PyBytes [x61]));
      first [reflexivity | discriminate].
  - apply (unsupported_type_rejected ∅ "o" (PyObject "object"));
      first [reflexivity | discriminate].
Defined.

(** C9 at the dictionary that maps [name] to the one-character string
    U+00E9 (e with acute accent): the encoding has two bytes, and the
    dataset is declared with length 1, so that it holds the first byte
    only. *)
Theorem string_dataset_sized_by_characters :
  encode [233%N] = Return [xc3; xa9] /\
  result_dict_to_hdf5 [("name", PyStr [233%N])] ∅ =
  (Return tt,
   {["name" := mkDataset [] (FixedString 1)
                         (Some (PyBytes [xc3])) ∅]}) /\
  length [xc3; xa9] <> 1%nat.
Proof.
  split; [reflexivity|]. split; [vm_compute; reflexivity|]. discriminate.
Qed.

(** *** Failure and frame behaviour of the writer *)

(** One iteration of the loop in general: the conversions and the type
    come first, then the name must be free. *)
Lemma write_item_cases (name : string) (data : pydata) (f : h5file) :
  write_item name data f =
  match convert data with
  | Raise e => (Raise e, f)
  | Return ds =>
      match f !! name with
      | None => (Return tt, <[name := ds]> f)
      | Some _ => (Raise (ValueError "name already exists"), f)
      end
  end.
Proof.
  destruct (f !! name) as [old|] eqn:Hname.
  - unfold write_item, convert.
    destruct data as [b|z|bits|s|bs|t v|t shape elems|n]; simpl.
    + destruct b; unfold create_dataset; run_monad; rewrite Hname; reflexivity.
    + unfold lift, np_int64_of. run_monad.
      destruct ((- 2 ^ 63 <=? z) && (z <? 2 ^ 63)); simpl; [|reflexivity].
      unfold create_dataset; run_monad. rewrite Hname. reflexivity.
    + unfold create_dataset; run_monad. rewrite Hname. reflexivity.
    + unfold lift. run_monad.
      destruct (encode s) as [bs|e]; simpl; [|reflexivity].
      destruct s as [|c s]; [reflexivity|].
      unfold create_dataset; run_monad. rewrite Hname. reflexivity.
    + reflexivity.
    + destruct t; unfold create_dataset; run_monad; rewrite Hname; reflexivity.
    + unfold create_dataset; run_monad. rewrite Hname. reflexivity.
    + reflexivity.
  - rewrite (write_item_convert name data f Hname).
    destruct (convert data); reflexivity.
Qed.

(** An item under a plain name is written whole or not at all: when the
    loop body raises, for whatever reason (an integer out of range, a
    string that cannot be encoded, an empty string, an unsupported class,
    a name already in the file), the file is what it was before the
    item. *)
Theorem write_item_all_or_nothing (name : string) (data : pydata)
    (f f' : h5file) (e : pyexn) :
  plain_file f ->
  is_plain name = true ->
  write_item name data f = (Raise e, f') -> f' = f.
Proof.
  intros _ _. rewrite write_item_cases.
  destruct (convert data) as [ds|e0]; [destruct (f !! name)|];
    intros H; inversion H; reflexivity.
Qed.

(** The loop does not undo what it wrote: under plain names, when the
    value of an item does not convert, the exception of that item is
    raised, the datasets of the items before it are in the file, and
    neither the failing item nor any item after it has been written. *)
Theorem result_dict_stops_at_first_failure
    (before after : list (string * pydata)) (name : string) (data : pydata)
    (e : pyexn) (f : h5file) :
  plain_file f ->
  Forall (fun item => is_plain item.1 = true) (before ++ [(name, data)]) ->
  NoDup before.*1 ->
  (forall k, k ∈ before.*1 -> f !! k = None) ->
  Forall (fun item => writable item.2) before ->
  convert data = Raise e ->
  exists f' : h5file,
    result_dict_to_hdf5 (before ++ (name, data) :: after) f = (Raise e, f') /\
    (forall k d, (k, d) ∈ before ->
       exists ds, convert d = Return ds /\ f' !! k = Some ds) /\
    (forall k, k ∉ before.*1 -> f' !! k = f !! k).
Proof.
  intros _ _. revert f. induction before as [|[k0 d0] before IH];
    intros f Hnodup Hfree Hall Hbad.
  - exists f. split.
    + simpl. unfold mbind, M_bind, bind. rewrite write_item_cases, Hbad.
      reflexivity.
    + split; [intros k d Hin; inversion Hin|reflexivity].
  - simpl in Hnodup. apply NoDup_cons in Hnodup as [Hk0 Hnodup].
    apply Forall_cons in Hall as [[ds0 Hds0] Hall]. simpl in Hds0.
    assert (Hfree0 : f !! k0 = None) by (apply Hfree; simpl; left).
    destruct (IH (<[k0 := ds0]> f) Hnodup) as (f' & Hrun & Hitems & Hother).
    { intros k Hk. rewrite lookup_insert_ne; [apply Hfree; simpl; right; exact Hk|].
      intros ->. contradiction. }
    { exact Hall. }
    { exact Hbad. }
    exists f'. split; [|split].
    + simpl. unfold mbind, M_bind, bind.
      rewrite (write_item_convert k0 d0 f Hfree0), Hds0. exact Hrun.
    + intros k d Hin. apply elem_of_cons in Hin as [Heq|Hin].
      * injection Heq as -> ->. exists ds0. split; [exact Hds0|].
        rewrite (Hother k0 Hk0). apply lookup_insert_eq.
      * apply Hitems. exact Hin.
    + intros k Hk. simpl in Hk. apply not_elem_of_cons in Hk as [Hne Hk].
      rewrite (Hother k Hk). apply lookup_insert_ne. congruence.
Qed.

(** On success, under plain names, the file holds exactly the datasets
    it held plus one per key of the dictionary: nothing that was there
    is touched. *)
Theorem result_dict_frame (rd : list (string * pydata)) (f : h5file) :
  plain_file f ->
  Forall (fun item => is_plain item.1 = true) rd ->
  NoDup rd.*1 ->
  (forall k, k ∈ rd.*1 -> f !! k = None) ->
  Forall (fun item => writable item.2) rd ->
  exists f' : h5file,
    result_dict_to_hdf5 rd f = (Return tt, f') /\
    dom f' = dom f ∪ list_to_set rd.*1 /\
    (forall k ds, f !! k = Some ds -> f' !! k = Some ds).
Proof.
  intros _ _ Hnodup Hfree Hall.
  destruct (result_dict_written rd f Hnodup Hfree Hall)
    as (f' & Hrun & Hother & Hitems).
  exists f'. split; [exact Hrun|]. split.
  - apply set_eq. intros k.
    rewrite elem_of_union, !elem_of_dom, elem_of_list_to_set.
    destruct (decide (k ∈ rd.*1)) as [Hin|Hout].
    + split; [auto|]. intros _.
      apply list_elem_of_fmap in Hin as ([k' d] & -> & Hin).
      destruct (Hitems _ _ Hin) as (ds & _ & Hlook). simpl.
      rewrite Hlook. eauto.
    + rewrite (Hother k Hout). tauto.
  - intros k ds Hk.
    destruct (decide (k ∈ rd.*1)) as [Hin|Hout].
    + rewrite (Hfree k Hin) in Hk. discriminate Hk.
    + rewrite (Hother k Hout). exact Hk.
Qed.

(** The marker attributes are present exactly where they apply: a
    dataset written for a [bool] carries [py_bool] and nothing else, one
    written for an [int] that is no [bool] carries [py_int] and nothing
    else, and a dataset written for any other value (a float, a numpy
    scalar, an array, a string) carries no attribute. *)
Theorem marker_attributes (name : string) (data : pydata) (f f' : h5file) :
  f !! name = None ->
  write_item name data f = (Return tt, f') ->
  exists ds,
    f' !! name = Some ds /\
    ds_attrs ds =
      (if isinstance_bool data then {["py_bool" := NpScalar np_int8 1]}
       else if isinstance_int data then {["py_int" := NpScalar np_int8 1]}
       else ∅).
Proof.
  intros Hfree. rewrite (write_item_convert name data f Hfree).
  destruct (convert data) as [ds|e] eqn:Hds; [|discriminate].
  intros H. injection H as <-. exists ds. split; [apply lookup_insert_eq|].
  unfold convert in Hds.
  destruct data as [b|z|bits|s|bs|t v|t shape elems|n]; simpl in *.
  - destruct b; injection Hds as <-; reflexivity.
  - destruct (np_int64_of z); [|discriminate]. injection Hds as <-. reflexivity.
  - injection Hds as <-. reflexivity.
  - destruct (encode s); [|discriminate].
    destruct s; [discriminate|]. injection Hds as <-. reflexivity.
  - discriminate.
  - destruct t; injection Hds as <-; reflexivity.
  - injection Hds as <-. reflexivity.
  - discriminate.
Qed.


(** What becomes of a string under a plain name that is free, in full.
    The empty string is refused with a [ValueError] and nothing is
    written.  A string with a surrogate fails with [UnicodeEncodeError]
    and nothing is written.  For any other string the dataset has a
    fixed-length type whose length is the number of characters, and holds
    that many bytes of the UTF-8 encoding: the whole encoding exactly
    when the string is ASCII, and a proper beginning of it otherwise. *)
Theorem string_dataset_length (name : string) (s : pystr) (f : h5file) :
  plain_file f ->
  is_plain name = true ->
  f !! name = None ->
  (s = [] /\
   exists msg, write_item name (PyStr s) f = (Raise (ValueError msg), f))
  \/
  (s <> [] /\
   exists bs,
     encode s = Return bs /\
     write_item name (PyStr s) f =
       (Return tt,
        <[name := mkDataset [] (FixedString (length s))
                            (Some (PyBytes (take (length s) bs))) ∅]> f) /\
     (length s <= length bs <= 4 * length s)%nat /\
     (take (length s) bs = bs <-> Forall (fun c => (c < 128)%N) s))
  \/
  (write_item name (PyStr s) f = (Raise UnicodeEncodeError, f) /\
   Exists (fun c => (0xD800 <= c <= 0xDFFF)%N \/ (0x110000 <= c)%N) s).
Proof.
  intros _ _ Hfree.
  destruct s as [|c s].
  { left. split; [reflexivity|]. eexists. apply write_item_empty_str. }
  pose proof (encode_length (c :: s)) as Hlen.
  destruct (encode (c :: s)) as [bs|e] eqn:Hbs.
  - right. left. split; [discriminate|]. exists bs. split; [reflexivity|].
    split; [apply write_item_str; [exact Hfree|discriminate|exact Hbs]|].
    destruct Hlen as [Hbounds Hascii]. split; [exact Hbounds|].
    rewrite <- Hascii. split.
    + intros Htake. apply (f_equal length) in Htake.
      rewrite length_take in Htake. lia.
    + intros Heq. apply take_ge. lia.
  - right. right. destruct Hlen as [-> Hex]. split; [|exact Hex].
    rewrite (write_item_convert name _ f Hfree). unfold convert.
    rewrite Hbs. reflexivity.
Qed.

(** The files of the examples hold plain names only. *)
Lemma plain_file_empty : plain_file ∅.
Proof. intros k [ds Hk]. rewrite lookup_empty in Hk. discriminate Hk. Qed.

Lemma plain_file_old (ds : dataset) : plain_file {["old" := ds]}.
Proof.
  intros k [ds' Hk]. apply lookup_singleton_Some in Hk as [<- _]. reflexivity.
Qed.

(** The two-character string U+0061 U+00E9 into an empty file: the
    dataset is declared with length 2 and holds the first two of the
    three bytes of the encoding. *)
Lemma string_dataset_length_witness :
  write_item "name" (PyStr [97; 233]%N) ∅ =
    (Return tt,
     <["name" := mkDataset [] (FixedString 2) (Some (PyBytes [x61; xc3])) ∅]> ∅) /\
  encode [97; 233]%N = Return [x61; xc3; xa9].
Proof.
  destruct (string_dataset_length "name" [97; 233]%N ∅ plain_file_empty eq_refl
              (lookup_empty _))
    as [[Hs _]|[(_ & bs & Hbs & Hrun & _)|[_ Hex]]].
  - discriminate Hs.
  - assert (Hbytes : bs = [x61; xc3; xa9]).
    { vm_compute in Hbs. injection Hbs as <-. reflexivity. }
    subst bs. split; [exact Hrun|reflexivity].
  - apply Exists_cons in Hex as [Hex|Hex]; [lia|].
    apply Exists_cons in Hex as [Hex|Hex]; [lia|]. inversion Hex.
Defined.

(** [{"a": 1, "x": object(), "z": 2}] into an empty file. *)
Lemma result_dict_stops_at_first_failure_witness :
  exists f' : h5file,
    result_dict_to_hdf5
      [("a", PyInt 1); ("x", PyObject "object"); ("z", PyInt 2)] ∅ =
      (Raise (unsupported (ty_other "object")), f') /\
    f' !! "a" = Some (int_dataset 1) /\
    f' !! "x" = None /\ f' !! "z" = None.
Proof.
  destruct (result_dict_stops_at_first_failure
              [("a", PyInt 1)] [("z", PyInt 2)] "x" (PyObject "object")
              (unsupported (ty_other "object")) ∅)
    as (f' & Hrun & Hitems & Hother).
  - exact plain_file_empty.
  - repeat constructor.
  - apply (bool_decide_unpack _). vm_compute. exact I.
  - intros k _. apply lookup_empty.
  - repeat constructor. eexists. reflexivity.
  - reflexivity.
  - exists f'. split; [exact Hrun|]. split.
    + destruct (Hitems "a" (PyInt 1)) as (ds & Hds & Hlook); [left|].
      rewrite (convert_int 1) in Hds by (unfold in_int64; lia).
      injection Hds as <-. exact Hlook.
    + split.
      * rewrite (Hother "x"); [apply lookup_empty|].
        apply (bool_decide_unpack _). vm_compute. exact I.
      * rewrite (Hother "z"); [apply lookup_empty|].
        apply (bool_decide_unpack _). vm_compute. exact I.
Defined.

(** [{"t": 1.5, "n": 7}] into a file that holds a dataset ["old"]. *)
Lemma result_dict_frame_witness :
  exists f' : h5file,
    result_dict_to_hdf5 [("t", PyFloat 4609434218613702656); ("n", PyInt 7)]
      {["old" := bool_dataset true]} = (Return tt, f') /\
    dom f' = ({["old"; "t"; "n"]} : gset string) /\
    f' !! "old" = Some (bool_dataset true).
Proof.
  destruct (result_dict_frame
              [("t", PyFloat 4609434218613702656); ("n", PyInt 7)]
              {["old" := bool_dataset true]})
    as (f' & Hrun & Hdom & Hkeep).
  - apply plain_file_old.
  - repeat constructor.
  - apply (bool_decide_unpack _). vm_compute. exact I.
  - intros k Hk. apply lookup_singleton_ne. intros <-.
    revert Hk. apply (bool_decide_unpack _). vm_compute. exact I.
  - repeat constructor; eexists; reflexivity.
  - exists f'. split; [exact Hrun|]. split.
    + rewrite Hdom. rewrite dom_singleton_L. simpl. set_solver.
    + apply Hkeep. apply lookup_singleton_eq.
Defined.

(** A write that fails leaves the file alone: the empty string, offered
    under a free name. *)
Lemma write_item_all_or_nothing_witness :
  snd (write_item "s" (PyStr []) {["old" := bool_dataset true]}) =
  {["old" := bool_dataset true]}.
Proof.
  apply (write_item_all_or_nothing "s" (PyStr [])
           {["old" := bool_dataset true]} _ size_not_positive
           (plain_file_old _) eq_refl).
  reflexivity.
Defined.

(** The marker of [{"flag": False}] and the absence of one for a numpy
    scalar. *)
Lemma marker_attributes_witness :
  (exists ds, (<["flag" := bool_dataset false]> ∅ : h5file) !! "flag" = Some ds /\
              ds_attrs ds = {["py_bool" := NpScalar np_int8 1]}) /\
  (exists ds f', write_item "u" (NpScalar np_uint16 65535) ∅ = (Return tt, f') /\
                 f' !! "u" = Some ds /\ ds_attrs ds = ∅).
Proof.
  split.
  - apply (marker_attributes "flag" (PyBool false) ∅ _ (lookup_empty _)).
    reflexivity.
  - edestruct (marker_attributes "u" (NpScalar np_uint16 65535) ∅)
      as (ds & Hlook & Hattrs); [apply lookup_empty|reflexivity|].
    exists ds. eexists. split; [reflexivity|].
    split; [exact Hlook|exact Hattrs].
Defined.


End Hdf5Theory.

(** ** DeviceManager: teardown *)

Module DevicesTheory.
Import Devices.

Section Manager.

Variable world : Type.
Variable ddb_get : string -> outcome ddb_entry.
Variable import_class :
  string -> string -> list (string * string) -> M world (device world).
Variable rpc_connect :
  bool -> string -> Z -> option string -> M world (M world unit).
Variable virtual_devices : gmap string (device world).

#[local] Abbreviation state := (state world).
#[local] Abbreviation get :=
  (get ddb_get import_class rpc_connect virtual_devices).
#[local] Abbreviation reachable :=
  (reachable ddb_get import_class rpc_connect virtual_devices).

(** The effect on the world of one handle's close operation, whether it
    returns or raises. *)
Definition close_effect (dev : device world) (w : world) : world :=
  match dev with
  | RpcClient _ close_rpc => snd (close_rpc w)
  | Driver (Some close) => snd (close w)
  | Driver None => w
  end.

(** The close operations of [devs] run one after the other. *)
Definition close_effects (devs : list (string * device world)) (w : world)
    : world :=
  foldl (fun w d => close_effect d.2 w) w devs.

(** The names of the handles of [devs] that have a close operation. *)
Definition closable_names (devs : list (string * device world)) : list string :=
  (List.filter (fun d => closable d.2) devs).*1.

Lemma closed_app (t1 t2 : list event) :
  closed (t1 ++ t2) = closed t1 ++ closed t2.
Proof. unfold closed. apply omap_app. Qed.

Lemma created_app (t1 t2 : list event) :
  created (t1 ++ t2) = created t1 ++ created t2.
Proof. unfold created. apply omap_app. Qed.

(** One handle: the close operation is invoked if there is one, acts on
    the world, and an exception it raises ends in the log. *)
Lemma close_device_returns (name : string) (dev : device world) (st : state) :
  exists st' : state,
    close_device name dev st = (Return tt, st') /\
    active_devices st' = active_devices st /\
    hw st' = close_effect dev (hw st) /\
    closed (trace st') =
      closed (trace st) ++ (if closable dev then [name] else []) /\
    created (trace st') = created (trace st).
Proof.
  destruct dev as [be close_rpc|[close|]]; unfold close_device.
  - unfold try_except, log, on_world. run_monad.
    destruct (close_rpc (hw st)) as [[[]|e] w] eqn:Hc; simpl.
    + eexists. split; [reflexivity|]. simpl. rewrite closed_app, created_app.
      simpl. rewrite app_nil_r. auto.
    + eexists. split; [reflexivity|]. simpl.
      rewrite !closed_app, !created_app. simpl. rewrite !app_nil_r. auto.
  - unfold try_except, log, on_world. run_monad.
    destruct (close (hw st)) as [[[]|e] w] eqn:Hc; simpl.
    + eexists. split; [reflexivity|]. simpl. rewrite closed_app, created_app.
      simpl. rewrite app_nil_r. auto.
    + eexists. split; [reflexivity|]. simpl.
      rewrite !closed_app, !created_app. simpl. rewrite !app_nil_r. auto.
  - exists st. unfold try_except. run_monad. rewrite app_nil_r. auto.
Qed.

(** The loop: every handle of the list is visited, in the list's order. *)
Lemma close_each_returns (devs : list (string * device world)) :
  forall st : state,
  exists st' : state,
    close_each devs st = (Return tt, st') /\
    active_devices st' = active_devices st /\
    hw st' = close_effects devs (hw st) /\
    closed (trace st') = closed (trace st) ++ closable_names devs /\
    created (trace st') = created (trace st).
Proof.
  induction devs as [|[name dev] devs IH]; intros st.
  - exists st. unfold closable_names. simpl. rewrite app_nil_r. auto.
  - destruct (close_device_returns name dev st)
      as (st1 & Hrun1 & Hact1 & Hhw1 & Hcl1 & Hcr1).
    destruct (IH st1) as (st2 & Hrun2 & Hact2 & Hhw2 & Hcl2 & Hcr2).
    exists st2. split.
    { simpl. unfold mbind, M_bind, bind. rewrite Hrun1. exact Hrun2. }
    split; [congruence|]. split.
    { rewrite Hhw2, Hhw1. reflexivity. }
    split; [|congruence].
    rewrite Hcl2, Hcl1, <- app_assoc. f_equal.
    unfold closable_names. simpl. destruct (closable dev); reflexivity.
Qed.

(** [close_devices] on any state. *)
Lemma close_devices_returns (st : state) :
  exists st' : state,
    close_devices st = (Return tt, st') /\
    active_devices st' = [] /\
    hw st' = close_effects (rev (active_devices st)) (hw st) /\
    closed (trace st') =
      closed (trace st) ++ closable_names (rev (active_devices st)) /\
    created (trace st') = created (trace st).
Proof.
  destruct (close_each_returns (rev (active_devices st)) st)
    as (st1 & Hrun & Hact & Hhw & Hcl & Hcr).
  exists (mkState (hw st1) [] (trace st1)). split.
  { unfold close_devices. run_monad. unfold mbind, M_bind, bind in Hrun.
    rewrite Hrun. reflexivity. }
  simpl. auto.
Qed.

(** As long as only [get] is called, the registry lists the handles in
    the order of their creation, each name once, and nothing is closed. *)
Lemma reachable_invariant (st : state) :
  reachable st ->
  (active_devices st).*1 = created (trace st) /\
  closed (trace st) = [] /\
  NoDup (active_devices st).*1.
Proof.
  induction 1 as [w|st fuel name r st' Hreach IH Hget].
  - simpl. split; [reflexivity|]. split; [reflexivity|]. constructor.
  - destruct IH as (Hnames & Hclosed & Hnodup).
    unfold Devices.get in Hget.
    destruct (virtual_devices !! name) as [dev|]; [injection Hget as <- <-; auto|].
    destruct (lookup_device name (active_devices st)) as [dev|] eqn:Hlook;
      [injection Hget as <- <-; auto|].
    destruct (ddb_get name) as [e|x]; [|injection Hget as <- <-; auto].
    destruct (resolve ddb_get fuel e) as [[d|x]|]; [|injection Hget as <- <-; auto|discriminate].
    unfold on_world in Hget. run_monad.
    unfold on_world, mbind, M_bind, bind, modify in Hget.
    destruct (_create_device world import_class rpc_connect d (hw st))
      as [[dev|x] w]; simpl in Hget; injection Hget as <- <-; simpl; [|auto].
    rewrite fmap_app, created_app, closed_app, Hnames, Hclosed. simpl.
    split; [reflexivity|]. split; [reflexivity|].
    rewrite <- Hnames. apply NoDup_app. split; [exact Hnodup|].
    split; [|apply NoDup_singleton].
    intros k Hk Hk'. apply list_elem_of_singleton in Hk' as ->.
    apply list_elem_of_fmap in Hk as ([k dev'] & Heq & Hin). simpl in Heq. subst k.
    unfold lookup_device in Hlook.
    destruct (List.find (fun d0 => String.eqb d0.1 name) (active_devices st))
      as [found|] eqn:Hfind; [discriminate|].
    apply list_elem_of_In in Hin.
    pose proof (find_none _ _ Hfind _ Hin) as Hneq. simpl in Hneq.
    rewrite String.eqb_refl in Hneq. discriminate.
Qed.

Lemma closable_names_rev (devs : list (string * device world)) :
  closable_names (rev devs) = rev (closable_names devs).
Proof.
  unfold closable_names. induction devs as [|d devs IH]; [reflexivity|].
  simpl. rewrite List.filter_app, fmap_app, IH. simpl.
  destruct (closable d.2); simpl.
  - reflexivity.
  - apply app_nil_r.
Qed.

(** C5: on a manager on which handles were created by [get], in any
    number and order, [close_devices] returns normally whatever the close
    operations do; it invokes the close operation of every handle that
    has one, in exactly the reverse of the order of creation, each acting
    on the world whether it returns or raises; and it leaves the registry
    empty.  Virtual devices are never in the registry. *)
Theorem close_devices_reverse_order (st : state) :
  reachable st ->
  exists st' : state,
    close_devices st = (Return tt, st') /\
    active_devices st' = [] /\
    (active_devices st).*1 = created (trace st) /\
    closed (trace st') = rev (closable_names (active_devices st)) /\
    (Forall (fun d => closable d.2 = true) (active_devices st) ->
     closed (trace st') = rev (created (trace st))) /\
    hw st' = close_effects (rev (active_devices st)) (hw st).
Proof.
  intros Hreach.
  destruct (reachable_invariant st Hreach) as (Hnames & Hclosed & _).
  destruct (close_devices_returns st) as (st' & Hrun & Hact & Hhw & Hcl & _).
  exists st'. split; [exact Hrun|]. split; [exact Hact|].
  split; [exact Hnames|].
  rewrite Hclosed, closable_names_rev in Hcl. simpl in Hcl.
  split; [exact Hcl|]. split; [|exact Hhw].
  intros Hall. rewrite Hcl, <- Hnames. f_equal.
  unfold closable_names. f_equal.
  clear -Hall. induction Hall as [|d devs Hd Hall IH]; [reflexivity|].
  simpl. rewrite Hd, IH. reflexivity.
Qed.

(** A virtual device is handed out as it is: [get] neither creates nor
    registers anything for it. *)
Lemma get_virtual (fuel : nat) (name : string) (dev : device world)
    (st : state) :
  virtual_devices !! name = Some dev ->
  get fuel name st = Some (Return dev, st).
Proof. intros Hv. unfold Devices.get. rewrite Hv. reflexivity. Qed.

(** *** What [get] does to the registry *)

#[local] Abbreviation _create_device :=
  (_create_device world import_class rpc_connect).
#[local] Abbreviation resolve := (resolve ddb_get).

Lemma lookup_device_app_new (name : string) (dev : device world)
    (devs : list (string * device world)) :
  lookup_device name devs = None ->
  lookup_device name (devs ++ [(name, dev)]) = Some dev.
Proof.
  unfold lookup_device. induction devs as [|[k d] devs IH]; simpl.
  - rewrite String.eqb_refl. reflexivity.
  - destruct (String.eqb k name); [discriminate|exact IH].
Qed.

(** The three ways a call of [get] ends: a handle that was there is handed
    out and nothing changes; a handle is created and put at the end of the
    registry under the requested name; or an exception is raised and the
    registry is as before. *)
Lemma get_cases (fuel : nat) (name : string) (st st' : state)
    (r : outcome (device world)) :
  get fuel name st = Some (r, st') ->
  (exists dev,
     r = Return dev /\ st' = st /\
     (virtual_devices !! name = Some dev \/
      (virtual_devices !! name = None /\
       lookup_device name (active_devices st) = Some dev)))
  \/
  (exists dev,
     r = Return dev /\ virtual_devices !! name = None /\
     lookup_device name (active_devices st) = None /\
     active_devices st' = active_devices st ++ [(name, dev)] /\
     trace st' = trace st ++ [Created name])
  \/
  (exists e,
     r = Raise e /\ virtual_devices !! name = None /\
     lookup_device name (active_devices st) = None /\
     active_devices st' = active_devices st /\ trace st' = trace st).
Proof.
  unfold Devices.get. intros Hget.
  destruct (virtual_devices !! name) as [dev|] eqn:Hv.
  { injection Hget as <- <-. left. exists dev. auto. }
  destruct (lookup_device name (active_devices st)) as [dev|] eqn:Hlook.
  { injection Hget as <- <-. left. exists dev. auto. }
  destruct (ddb_get name) as [entry|x].
  2: { injection Hget as <- <-. right. right. exists x. auto. }
  destruct (Devices.resolve ddb_get fuel entry) as [[d|x]|]; [| |discriminate].
  2: { injection Hget as <- <-. right. right. exists x. auto. }
  unfold on_world, mbind, M_bind, bind, modify, mret, M_ret, ret in Hget.
  destruct (_create_device d (hw st)) as [[dev|x] w];
    simpl in Hget; injection Hget as <- <-; simpl.
  - right. left. exists dev. auto.
  - right. right. exists x. auto.
Qed.

(** A handle is created once: after a call of [get] has returned a
    handle, every further call for the same name returns that handle and
    changes nothing: no second handle is created, the registry, the
    record of creations and the world are as they were. *)
Theorem get_is_cached (fuel fuel' : nat) (name : string) (st st' : state)
    (dev : device world) :
  get fuel name st = Some (Return dev, st') ->
  get fuel' name st' = Some (Return dev, st').
Proof.
  intros Hget.
  destruct (get_cases fuel name st st' _ Hget)
    as [(d & Hr & -> & Hwhere)|[(d & Hr & Hv & Hlook & Hact & _)
                               |(e & Hr & _)]];
    try discriminate Hr; injection Hr as <-; unfold Devices.get.
  - destruct Hwhere as [Hv|[Hv Hlook]]; rewrite Hv; [reflexivity|].
    rewrite Hlook. reflexivity.
  - rewrite Hv, Hact, (lookup_device_app_new name dev _ Hlook). reflexivity.
Qed.

(** *** Aliases *)

(** [name] leads to the description [d] through the aliases [via]. *)
Fixpoint alias_chain (name : string) (via : list string) (d : desc) : Prop :=
  match via with
  | [] => ddb_get name = Return (Desc d)
  | next :: rest =>
      ddb_get name = Return (Alias next) /\ alias_chain next rest d
  end.

Lemma resolve_chain (via : list string) :
  forall (name : string) (d : desc) (fuel : nat) (entry : ddb_entry),
  alias_chain name via d ->
  ddb_get name = Return entry ->
  (length via <= fuel)%nat ->
  resolve fuel entry = Some (Return d).
Proof.
  induction via as [|next rest IH]; intros name d fuel entry Hchain Hentry Hfuel.
  - simpl in Hchain. rewrite Hchain in Hentry. injection Hentry as <-.
    destruct fuel; reflexivity.
  - destruct Hchain as [Hname Hchain]. rewrite Hname in Hentry.
    injection Hentry as <-. destruct fuel as [|fuel]; [simpl in Hfuel; lia|].
    simpl. destruct (ddb_get next) as [entry|x] eqn:Hnext.
    + apply (IH next d fuel entry Hchain Hnext). simpl in Hfuel. lia.
    + destruct rest; simpl in Hchain; [|destruct Hchain]; congruence.
Qed.

Lemma get_through_aliases (fuel : nat) (name : string) (via : list string)
    (d : desc) (st : state) :
  virtual_devices !! name = None ->
  lookup_device name (active_devices st) = None ->
  alias_chain name via d ->
  (length via <= fuel)%nat ->
  get fuel name st =
  Some match _create_device d (hw st) with
       | (Return dev, w) =>
           (Return dev,
            mkState w (active_devices st ++ [(name, dev)])
                    (trace st ++ [Created name]))
       | (Raise e, w) => (Raise e, mkState w (active_devices st) (trace st))
       end.
Proof.
  intros Hv Hlook Hchain Hfuel. unfold Devices.get. rewrite Hv, Hlook.
  destruct (ddb_get name) as [entry|x] eqn:Hentry.
  - rewrite (resolve_chain via name d fuel entry Hchain Hentry Hfuel).
    unfold on_world, mbind, M_bind, bind, modify, mret, M_ret, ret.
    destruct (_create_device d (hw st)) as [[dev|e] w]; reflexivity.
  - destruct via; simpl in Hchain; [|destruct Hchain]; congruence.
Qed.

(** Aliases are followed to the end, here to a controller: when the
    requested name leads to a description of type ["controller"] through
    any number of aliases, [get] connects one RPC client to the host,
    port and target of that description, a [BestEffortClient] if the
    description says so, and registers it under the requested name, after
    all the others (the names on the way get no entry); when the
    connection raises, the exception comes out and nothing is
    registered. *)
Theorem get_follows_aliases (fuel : nat) (name : string) (via : list string)
    (d : desc) (st : state) :
  virtual_devices !! name = None ->
  lookup_device name (active_devices st) = None ->
  alias_chain name via d ->
  (length via <= fuel)%nat ->
  ty d = "controller" ->
  get fuel name st =
  Some match rpc_connect (best_effort d) (host d) (port d) (target_name d)
                         (hw st) with
       | (Return close_rpc, w) =>
           (Return (RpcClient (best_effort d) close_rpc),
            mkState w
                    (active_devices st ++
                     [(name, RpcClient (best_effort d) close_rpc)])
                    (trace st ++ [Created name]))
       | (Raise e, w) => (Raise e, mkState w (active_devices st) (trace st))
       end.
Proof.
  intros Hv Hlook Hchain Hfuel Hty.
  rewrite (get_through_aliases fuel name via d st Hv Hlook Hchain Hfuel).
  unfold Devices._create_device. rewrite Hty. simpl.
  unfold mbind, M_bind, bind, mret, M_ret, ret.
  destruct (rpc_connect (best_effort d) (host d) (port d) (target_name d)
                        (hw st)) as [[close_rpc|e] w]; reflexivity.
Qed.

(** A description whose type is neither ["local"] nor ["controller"] is
    refused: [get] raises a [ValueError] that names the type, no driver
    class is imported, no connection is made, and nothing about the
    manager or the world changes. *)
Theorem get_unsupported_type (fuel : nat) (name : string) (via : list string)
    (d : desc) (st : state) :
  virtual_devices !! name = None ->
  lookup_device name (active_devices st) = None ->
  alias_chain name via d ->
  (length via <= fuel)%nat ->
  ty d <> "local" -> ty d <> "controller" ->
  get fuel name st =
  Some (Raise (ValueError ("Unsupported type in device DB: " +:+ ty d)), st).
Proof.
  intros Hv Hlook Hchain Hfuel Hlocal Hcontroller.
  rewrite (get_through_aliases fuel name via d st Hv Hlook Hchain Hfuel).
  unfold Devices._create_device.
  destruct (String.eqb_spec (ty d) "local") as [Heq|_]; [contradiction|].
  destruct (String.eqb_spec (ty d) "controller") as [Heq|_]; [contradiction|].
  destruct st. reflexivity.
Qed.

(** A cycle of aliases is followed for ever: when every name of a set is
    an alias of a name of the set, no number of iterations resolves a name
    of the set, and [get] on it does not return. *)
Theorem alias_cycle_never_resolves (cycle : string -> Prop) :
  (forall n, cycle n -> exists next, cycle next /\
                                     ddb_get n = Return (Alias next)) ->
  forall (fuel : nat) (name : string) (st : state),
  cycle name ->
  virtual_devices !! name = None ->
  lookup_device name (active_devices st) = None ->
  get fuel name st = None.
Proof.
  intros Hcycle.
  assert (Hres : forall fuel n, cycle n -> resolve fuel (Alias n) = None).
  { induction fuel as [|fuel IH]; intros n Hn; [reflexivity|].
    destruct (Hcycle n Hn) as (next & Hnext & Hddb). simpl. rewrite Hddb.
    apply IH. exact Hnext. }
  intros fuel name st Hname Hv Hlook. unfold Devices.get.
  rewrite Hv, Hlook. destruct (Hcycle name Hname) as (next & Hnext & Hddb).
  rewrite Hddb, (Hres fuel next Hnext). reflexivity.
Qed.

(** *** Teardown again *)

(** [close_devices] can be called again: on the state it leaves, a second
    call invokes no close operation and changes nothing. *)
Theorem close_devices_twice (st : state) :
  exists st' : state,
    close_devices st = (Return tt, st') /\
    close_devices st' = (Return tt, st').
Proof.
  destruct (close_devices_returns st) as (st' & Hrun & Hact & _).
  exists st'. split; [exact Hrun|].
  unfold close_devices. run_monad. rewrite Hact. simpl.
  destruct st'. simpl in Hact. subst. reflexivity.
Qed.

(** The states of a manager on which [get] and [close_devices] have been
    called, any number of times and in any order. *)
Inductive in_use : state -> Prop :=
  | use_init w : in_use (init w)
  | use_get st fuel name r st' :
      in_use st -> get fuel name st = Some (r, st') -> in_use st'
  | use_close st r st' :
      in_use st -> close_devices st = (r, st') -> in_use st'.

(** A virtual device never enters the registry, however [get] and
    [close_devices] are called: so [close_devices] never closes one. *)
Theorem virtual_never_registered (st : state) (name : string) :
  in_use st ->
  is_Some (virtual_devices !! name) ->
  name ∉ (active_devices st).*1.
Proof.
  intros Huse Hv.
  induction Huse as [w|st fuel asked r st' Huse IH Hget
                    |st r st' Huse IH Hclose].
  - simpl. apply not_elem_of_nil.
  - destruct (get_cases fuel asked st st' _ Hget)
      as [(d & _ & -> & _)|[(d & _ & Hnv & _ & Hact & _)
                           |(e & _ & _ & _ & Hact & _)]].
    + exact IH.
    + rewrite Hact, fmap_app. simpl. intros Hin.
      apply elem_of_app in Hin as [Hin|Hin]; [contradiction|].
      apply list_elem_of_singleton in Hin as ->.
      rewrite Hnv in Hv. destruct Hv as [? Hv]. discriminate Hv.
    + rewrite Hact. exact IH.
  - destruct (close_devices_returns st) as (st1 & Hrun & Hact & _).
    rewrite Hrun in Hclose. injection Hclose as _ <-.
    rewrite Hact. apply not_elem_of_nil.
Qed.

End Manager.

(** *** An instance: three handles, the second of which fails to close *)

(** The world is the list of the operations the hardware has seen. *)
Definition acts (op : string) (fails : bool) : M (list string) unit :=
  fun w => (if fails then Raise (RuntimeError op) else Return tt, w ++ [op]).

Definition local_desc (cls : string) : desc :=
  mkDesc "local" "drivers" cls [] "" 0 None false.
Definition controller_desc (h : string) : desc :=
  mkDesc "controller" "" "" [] h 3250 None false.

Definition demo_ddb (name : string) : outcome ddb_entry :=
  if String.eqb name "a" then Return (Desc (local_desc "A"))
  else if String.eqb name "b" then Return (Desc (controller_desc "B"))
  else if String.eqb name "c" then Return (Alias "c_main")
  else if String.eqb name "c_main" then Return (Desc (local_desc "C"))
  else Raise (KeyError name).

Definition demo_import (m cls : string) (args : list (string * string))
    : M (list string) (device (list string)) :=
  mret (Driver (Some (acts ("close " +:+ cls) false))).

Definition demo_connect (be : bool) (h : string) (p : Z) (t : option string)
    : M (list string) (M (list string) unit) :=
  mret (acts ("close_rpc " +:+ h) true).

Definition demo_get (name : string) (st : state (list string))
    : state (list string) :=
  match get demo_ddb demo_import demo_connect ∅ 3 name st with
  | Some (_, st') => st'
  | None => st
  end.

(** [get("a")], [get("b")], [get("c")] on a new manager. *)
Definition one_device : state (list string) := demo_get "a" (init []).
Definition two_devices : state (list string) := demo_get "b" one_device.
Definition three_devices : state (list string) := demo_get "c" two_devices.

(** The three calls of [get] reach [three_devices]. *)
Lemma three_devices_reachable :
  reachable demo_ddb demo_import demo_connect ∅ three_devices.
Proof.
  eapply reach_get with (st := two_devices) (fuel := 3%nat) (name := "c");
    [|vm_compute; reflexivity].
  eapply reach_get with (st := one_device) (fuel := 3%nat) (name := "b");
    [|vm_compute; reflexivity].
  eapply reach_get with (st := init []) (fuel := 3%nat) (name := "a");
    [|vm_compute; reflexivity].
  apply reach_init.
Defined.

(** [get("scope")] where ["scope"] is a virtual device. *)
Lemma get_virtual_witness :
  get demo_ddb demo_import demo_connect {["scope" := Driver None]} 0 "scope"
      three_devices =
  Some (Return (Driver None), three_devices).
Proof.
  apply (get_virtual (list string) demo_ddb demo_import demo_connect
           {["scope" := Driver None]} 0 "scope" (Driver None) three_devices).
  reflexivity.
Defined.

(** [close_devices] after [a], [b], [c] were created: [c], [b], [a] are
    closed in this order although closing [b] raises. *)
Lemma close_devices_reverse_order_witness :
  exists st' : state (list string),
    close_devices three_devices = (Return tt, st') /\
    active_devices st' = [] /\
    created (trace three_devices) = ["a"; "b"; "c"] /\
    closed (trace st') = ["c"; "b"; "a"] /\
    hw st' = ["close C"; "close_rpc B"; "close A"].
Proof.
  destruct (close_devices_reverse_order _ demo_ddb demo_import demo_connect ∅
              three_devices three_devices_reachable)
    as (st' & Hrun & Hact & Hnames & Hcl & _ & Hhw).
  exists st'. split; [exact Hrun|]. split; [exact Hact|].
  split; [reflexivity|]. split.
  - rewrite Hcl. reflexivity.
  - rewrite Hhw. reflexivity.
Defined.

(** A second [get("a")]. *)
Lemma get_is_cached_witness :
  exists dev,
    get demo_ddb demo_import demo_connect ∅ 3 "a" (init []) =
      Some (Return dev, one_device) /\
    get demo_ddb demo_import demo_connect ∅ 0 "a" one_device =
      Some (Return dev, one_device).
Proof.
  eexists. split; [vm_compute; reflexivity|].
  apply (get_is_cached (list string) demo_ddb demo_import demo_connect ∅
           3 0 "a" (init []) one_device).
  vm_compute. reflexivity.
Defined.

(** A database whose entry ["gpib"] has the type ["serial"], reached
    through the alias ["bus"]. *)
Definition odd_ddb (name : string) : outcome ddb_entry :=
  if String.eqb name "bus" then Return (Alias "gpib")
  else if String.eqb name "gpib" then
    Return (Desc (mkDesc "serial" "" "" [] "" 0 None false))
  else Raise (KeyError name).

(** [get("bus")] on that database. *)
Lemma get_unsupported_type_witness :
  get odd_ddb demo_import demo_connect ∅ 5 "bus" three_devices =
  Some (Raise (ValueError "Unsupported type in device DB: serial"),
        three_devices).
Proof.
  apply (get_unsupported_type (list string) odd_ddb demo_import demo_connect ∅
           5 "bus" ["gpib"] (mkDesc "serial" "" "" [] "" 0 None false)
           three_devices).
  - reflexivity.
  - vm_compute. reflexivity.
  - split; reflexivity.
  - simpl. lia.
  - discriminate.
  - discriminate.
Defined.

(** A database in which ["lda"] is an alias of an alias of a controller
    that asks for a [BestEffortClient]. *)
Definition rack_ddb (name : string) : outcome ddb_entry :=
  if String.eqb name "lda" then Return (Alias "lda_rack")
  else if String.eqb name "lda_rack" then Return (Alias "lda_main")
  else if String.eqb name "lda_main" then
    Return (Desc (mkDesc "controller" "" "" [] "rack" 3253 (Some "lda") true))
  else Raise (KeyError name).

(** [get("lda")]: the client is registered under ["lda"], after the two
    handles that were there. *)
Lemma get_follows_aliases_witness :
  get rack_ddb demo_import demo_connect ∅ 2 "lda" two_devices =
  Some (Return (RpcClient true (acts "close_rpc rack" true)),
        mkState (hw two_devices)
                (active_devices two_devices ++
                 [("lda", RpcClient true (acts "close_rpc rack" true))])
                (trace two_devices ++ [Created "lda"])).
Proof.
  apply (get_follows_aliases (list string) rack_ddb demo_import demo_connect ∅
           2 "lda" ["lda_rack"; "lda_main"]
           (mkDesc "controller" "" "" [] "rack" 3253 (Some "lda") true)
           two_devices).
  - reflexivity.
  - vm_compute. reflexivity.
  - repeat split; reflexivity.
  - simpl. lia.
  - reflexivity.
Defined.

(** A device database in which ["p"] and ["q"] are aliases of each
    other. *)
Definition cyclic_ddb (name : string) : outcome ddb_entry :=
  if String.eqb name "p" then Return (Alias "q")
  else if String.eqb name "q" then Return (Alias "p")
  else Raise (KeyError name).

(** [get("p")] does not return within a thousand iterations. *)
Lemma alias_cycle_never_resolves_witness :
  get cyclic_ddb demo_import demo_connect ∅ 1000 "p" (init []) = None.
Proof.
  apply (alias_cycle_never_resolves (list string) cyclic_ddb demo_import
           demo_connect ∅ (fun n => n = "p" \/ n = "q")).
  - intros n [-> | ->].
    + exists "q". split; [right|]; reflexivity.
    + exists "p". split; [left|]; reflexivity.
  - left. reflexivity.
  - reflexivity.
  - reflexivity.
Defined.

(** With a virtual device ["scope"]: after [get("a")], [close_devices()],
    [get("scope")] and [get("b")] the registry holds ["b"] only. *)
Lemma virtual_never_registered_witness :
  exists st : state (list string),
    in_use (list string) demo_ddb demo_import demo_connect
           {["scope" := Driver None]} st /\
    (active_devices st).*1 = ["b"] /\
    "scope" ∉ (active_devices st).*1.
Proof.
  pose (st1 := one_device).
  pose (st2 := snd (close_devices st1)).
  pose (st3 := demo_get "b" st2).
  assert (Huse :
    in_use (list string) demo_ddb demo_import demo_connect
           {["scope" := Driver None]} st3).
  { eapply use_get with (st := st2) (fuel := 3%nat) (name := "b");
      [|vm_compute; reflexivity].
    eapply use_get with (st := st2) (fuel := 3%nat) (name := "scope");
      [|vm_compute; reflexivity].
    eapply use_close with (st := st1); [|vm_compute; reflexivity].
    eapply use_get with (st := init []) (fuel := 3%nat) (name := "a");
      [|vm_compute; reflexivity].
    apply use_init. }
  exists st3. split; [exact Huse|]. split; [reflexivity|].
  apply (virtual_never_registered (list string) demo_ddb demo_import
           demo_connect {["scope" := Driver None]} st3 "scope" Huse).
  rewrite lookup_singleton_eq. eauto.
Defined.

End DevicesTheory.

(** ** Text: the matcher, [int()] and [str()] *)

Module TextTheory.
Import Text.

(** The words of a regular expression. *)
Inductive matches : regex -> list ascii -> Prop :=
  | matches_eps : matches Eps []
  | matches_cls p c : p c = true -> matches (Cls p) [c]
  | matches_cat r1 r2 w1 w2 :
      matches r1 w1 -> matches r2 w2 -> matches (Cat r1 r2) (w1 ++ w2)
  | matches_alt_l r1 r2 w : matches r1 w -> matches (Alt r1 r2) w
  | matches_alt_r r1 r2 w : matches r2 w -> matches (Alt r1 r2) w
  | matches_star_nil r : matches (Star r) []
  | matches_star_app r w1 w2 :
      matches r w1 -> matches (Star r) w2 -> matches (Star r) (w1 ++ w2).

#[local] Hint Constructors matches : core.

Ltac invert_matches H := inversion H; subst; clear H.

Lemma nullable_matches (r : regex) : nullable r = true <-> matches r [].
Proof.
  induction r as [| |p|r1 IH1 r2 IH2|r1 IH1 r2 IH2|r IH]; simpl.
  - split; [discriminate|]. inversion 1.
  - split; auto.
  - split; [discriminate|]. inversion 1.
  - rewrite andb_true_iff, IH1, IH2. split.
    + intros [H1 H2]. apply (matches_cat r1 r2 [] []); assumption.
    + intros H. invert_matches H.
      match goal with
      | Hnil : _ ++ _ = [] |- _ => apply app_eq_nil in Hnil as [-> ->]
      end. auto.
  - rewrite orb_true_iff, IH1, IH2. split.
    + intros [H|H]; auto.
    + inversion 1; subst; auto.
  - split; auto.
Qed.

(** A nonempty word of a star starts with a nonempty word of the body. *)
Lemma matches_star_cons (r : regex) (c : ascii) (w : list ascii) :
  matches (Star r) (c :: w) ->
  exists w1 w2, w = w1 ++ w2 /\ matches r (c :: w1) /\ matches (Star r) w2.
Proof.
  intros H. remember (Star r) as sr eqn:Hsr. remember (c :: w) as cw eqn:Hcw.
  induction H as [| | | | | |r' w1 w2 H1 _ H2 IH2]; try discriminate.
  injection Hsr as ->.
  destruct w1 as [|c1 w1]; simpl in Hcw.
  - apply IH2; [reflexivity|exact Hcw].
  - injection Hcw as -> <-. exists w1, w2. auto.
Qed.

Lemma deriv_matches (r : regex) :
  forall c w, matches (deriv c r) w <-> matches r (c :: w).
Proof.
  induction r as [| |p|r1 IH1 r2 IH2|r1 IH1 r2 IH2|r IH]; intros c w; simpl.
  - split; inversion 1.
  - split; inversion 1.
  - destruct (p c) eqn:Hp; split; inversion 1; subst.
    + apply (matches_cls p c Hp).
    + auto.
    + congruence.
  - assert (Hcat : matches (Cat (deriv c r1) r2) w <->
                   exists w1 w2, w = w1 ++ w2 /\ matches r1 (c :: w1) /\
                                 matches r2 w2).
    { split.
      - intros H. invert_matches H.
        match goal with
        | H1 : matches (deriv c r1) ?w1, H2 : matches r2 ?w2 |- _ =>
            exists w1, w2; rewrite <- IH1; auto
        end.
      - intros (w1 & w2 & -> & H1 & H2). apply IH1 in H1. auto. }
    assert (Hsplit : matches (Cat r1 r2) (c :: w) <->
                     (exists w1 w2, w = w1 ++ w2 /\ matches r1 (c :: w1) /\
                                    matches r2 w2) \/
                     (matches r1 [] /\ matches r2 (c :: w))).
    { split.
      - intros H. inversion H as [| |? ? w1 w2 H1 H2 Hr Hw| | | |].
        subst. destruct w1 as [|c1 w1]; simpl in Hw.
        + right. subst. auto.
        + injection Hw as -> <-. left. eauto.
      - intros [(w1 & w2 & -> & H1 & H2)|[H1 H2]].
        + apply (matches_cat r1 r2 (c :: w1) w2 H1 H2).
        + apply (matches_cat r1 r2 [] (c :: w) H1 H2). }
    rewrite Hsplit, <- Hcat, <- nullable_matches, <- IH2.
    destruct (nullable r1); split.
    + inversion 1; subst; auto.
    + intros [H|[_ H]]; auto.
    + auto.
    + intros [H|[Hn _]]; [auto|discriminate].
  - split.
    + inversion 1; subst; [apply matches_alt_l, IH1|apply matches_alt_r, IH2];
        assumption.
    + inversion 1; subst; [apply matches_alt_l, IH1|apply matches_alt_r, IH2];
        assumption.
  - split.
    + intros H. invert_matches H.
      match goal with
      | H1 : matches (deriv c r) ?w1, H2 : matches (Star r) ?w2 |- _ =>
          apply IH in H1; apply (matches_star_app r (c :: w1) w2 H1 H2)
      end.
    + intros H. apply matches_star_cons in H as (w1 & w2 & -> & H1 & H2).
      apply IH in H1. auto.
Qed.

(** The matcher decides the language of the expression. *)
Lemma accepts_matches (w : list ascii) :
  forall r, accepts r w = true <-> matches r w.
Proof.
  induction w as [|c w IH]; intros r; simpl.
  - apply nullable_matches.
  - rewrite IH. apply deriv_matches.
Qed.

Lemma matches_cat_cls (p : ascii -> bool) (r : regex) (w : list ascii) :
  matches (Cat (Cls p) r) w ->
  exists c w', w = c :: w' /\ p c = true /\ matches r w'.
Proof.
  intros H. invert_matches H.
  match goal with
  | H1 : matches (Cls p) _ |- _ => invert_matches H1
  end.
  eauto.
Qed.

(** *** Characters *)

Ltac each_ascii c :=
  destruct c as [[] [] [] [] [] [] [] []].

Lemma is_digit_not_space (c : ascii) :
  is_digit c = true -> is_space c = false.
Proof. each_ascii c; vm_compute; congruence. Qed.

Lemma is_digit_not_sign (c : ascii) :
  is_digit c = true -> c <> "-"%char /\ c <> "+"%char.
Proof. each_ascii c; vm_compute; intros H; split; congruence. Qed.

Lemma digit_val_range (c : ascii) :
  is_digit c = true -> 0 <= digit_val c <= 9.
Proof.
  unfold is_digit, digit_val. intros H.
  apply andb_true_iff in H as [Hlo Hhi].
  apply N.leb_le in Hlo, Hhi. lia.
Qed.

(** *** [strip] *)

Lemma lstrip_no_space (w : list ascii) :
  Forall (fun c => is_space c = false) w -> lstrip w = w.
Proof. destruct 1 as [|c w Hc _]; simpl; [|rewrite Hc]; reflexivity. Qed.

Lemma lstrip_spaces (sp w : list ascii) :
  Forall (fun c => is_space c = true) sp -> lstrip (sp ++ w) = lstrip w.
Proof.
  induction 1 as [|c sp Hc _ IH]; simpl; [|rewrite Hc]; auto.
Qed.

(** Whitespace after a text without whitespace is stripped, and nothing
    else. *)
Lemma strip_trailing (w sp : list ascii) :
  Forall (fun c => is_space c = false) w ->
  Forall (fun c => is_space c = true) sp ->
  strip (w ++ sp) = w.
Proof.
  intros Hw Hsp. unfold strip. destruct w as [|c w].
  - simpl. rewrite <- (app_nil_r sp) at 1.
    rewrite (lstrip_spaces sp [] Hsp). reflexivity.
  - assert (Hhead : lstrip ((c :: w) ++ sp) = (c :: w) ++ sp).
    { simpl. apply Forall_cons in Hw as [Hc _]. rewrite Hc. reflexivity. }
    rewrite Hhead, rev_app_distr, lstrip_spaces.
    + rewrite lstrip_no_space; [apply rev_involutive|].
      apply Forall_rev. exact Hw.
    + apply Forall_rev. exact Hsp.
Qed.

(** *** Digits *)

(** The number a digit string denotes, read from the left. *)
Definition digits_value (acc : Z) (d : list ascii) : Z :=
  fold_left (fun a c => 10 * a + digit_val c) d acc.

Lemma parse_digits_digits (d : list ascii) :
  forall acc after_digit,
  Forall (fun c => is_digit c = true) d ->
  d <> [] \/ after_digit = true ->
  parse_digits acc after_digit d = Some (digits_value acc d).
Proof.
  induction d as [|c d IH]; intros acc after_digit Hd Hne.
  - destruct Hne as [Hne| ->]; [contradiction|reflexivity].
  - apply Forall_cons in Hd as [Hc Hd]. simpl. rewrite Hc.
    apply IH; auto.
Qed.

Lemma digits_value_bounds (d : list ascii) :
  forall acc, 0 <= acc ->
  Forall (fun c => is_digit c = true) d -> 0 <= digits_value acc d.
Proof.
  induction d as [|c d IH]; intros acc Hacc Hd; simpl; [exact Hacc|].
  apply Forall_cons in Hd as [Hc Hd]. apply IH; [|exact Hd].
  pose proof (digit_val_range c Hc). lia.
Qed.

(** The sign test of [int()] on a text that starts with a digit. *)
Lemma signed_digits_digit (c : ascii) (w : list ascii) :
  is_digit c = true ->
  signed_digits (c :: w) = parse_digits 0 false (c :: w).
Proof.
  intros Hc. destruct (is_digit_not_sign c Hc) as [Hminus Hplus].
  clear Hc. unfold signed_digits.
  each_ascii c; first [reflexivity | congruence].
Qed.

(** [int()] of a nonempty string of digits is the number they denote. *)
Lemma python_int_digits (s : string) :
  s <> "" ->
  Forall (fun c => is_digit c = true) (list_ascii_of_string s) ->
  python_int s = Return (digits_value 0 (list_ascii_of_string s)).
Proof.
  intros Hne Hd. unfold python_int.
  assert (Hstrip : strip (list_ascii_of_string s) = list_ascii_of_string s).
  { rewrite <- (app_nil_r (list_ascii_of_string s)) at 1.
    apply strip_trailing; [|constructor].
    eapply Forall_impl; [exact Hd|]. apply is_digit_not_space. }
  rewrite Hstrip. destruct s as [|c s]; [contradiction|].
  change (list_ascii_of_string (String c s))
    with (c :: list_ascii_of_string s) in *.
  assert (Hparse : parse_digits 0 false (c :: list_ascii_of_string s) =
                   Some (digits_value 0 (c :: list_ascii_of_string s))).
  { apply parse_digits_digits; [exact Hd|]. left. discriminate. }
  apply Forall_cons in Hd as [Hc _].
  rewrite (signed_digits_digit c _ Hc), Hparse. reflexivity.
Qed.

(** *** [int(str(n) + "\n")] *)

Lemma list_ascii_of_string_app (s1 s2 : string) :
  list_ascii_of_string (s1 +:+ s2) =
  list_ascii_of_string s1 ++ list_ascii_of_string s2.
Proof. induction s1 as [|c s1 IH]; simpl; [|rewrite IH]; reflexivity. Qed.

(** The characters of a decimal numeral. *)
Definition uint_chars (u : Decimal.uint) : list ascii :=
  list_ascii_of_string (NilEmpty.string_of_uint u).

Lemma uint_chars_digits (u : Decimal.uint) :
  Forall (fun c => is_digit c = true) (uint_chars u).
Proof.
  unfold uint_chars. induction u; simpl; constructor; auto.
Qed.

Lemma parse_uint_acc (u : Decimal.uint) :
  forall p : positive,
  parse_digits (Z.pos p) true (uint_chars u) =
  Some (Z.pos (Pos.of_uint_acc u p)).
Proof.
  unfold uint_chars.
  induction u as [|u IH|u IH|u IH|u IH|u IH|u IH|u IH|u IH|u IH|u IH];
    intros p; simpl; [reflexivity|..];
    match goal with
    | |- parse_digits ?a true _ = Some (Z.pos (Pos.of_uint_acc _ ?q)) =>
        replace a with (Z.pos q) by (unfold digit_val; simpl; lia)
    end; apply IH.
Qed.

Lemma parse_uint (u : Decimal.uint) :
  forall after_digit,
  u <> Decimal.Nil \/ after_digit = true ->
  parse_digits 0 after_digit (uint_chars u) = Some (Z.of_N (Pos.of_uint u)).
Proof.
  induction u as [|u IH|u IH|u IH|u IH|u IH|u IH|u IH|u IH|u IH|u IH];
    intros b Hb.
  - destruct Hb as [Hb| ->]; [contradiction|reflexivity].
  - unfold uint_chars in *. simpl. apply IH. right. reflexivity.
  - apply (parse_uint_acc u 1).
  - apply (parse_uint_acc u 2).
  - apply (parse_uint_acc u 3).
  - apply (parse_uint_acc u 4).
  - apply (parse_uint_acc u 5).
  - apply (parse_uint_acc u 6).
  - apply (parse_uint_acc u 7).
  - apply (parse_uint_acc u 8).
  - apply (parse_uint_acc u 9).
Qed.

Lemma pos_to_uint_not_nil (p : positive) : Pos.to_uint p <> Decimal.Nil.
Proof.
  intros Hnil. pose proof (DecimalPos.Unsigned.of_to p) as H.
  rewrite Hnil in H. discriminate H.
Qed.

Lemma parse_pos (p : positive) :
  parse_digits 0 false (uint_chars (Pos.to_uint p)) = Some (Z.pos p).
Proof.
  rewrite parse_uint by (left; apply pos_to_uint_not_nil).
  rewrite DecimalPos.Unsigned.of_to. reflexivity.
Qed.

Lemma nilzero_chars (p : positive) :
  list_ascii_of_string (NilZero.string_of_uint (Pos.to_uint p)) =
  uint_chars (Pos.to_uint p).
Proof.
  unfold NilZero.string_of_uint, uint_chars.
  pose proof (pos_to_uint_not_nil p) as Hne.
  destruct (Pos.to_uint p); [contradiction|reflexivity..].
Qed.

(** The characters of [str(z)]: no whitespace, and [int()] reads [z] back
    from them. *)
Lemma python_str_chars (z : Z) :
  Forall (fun c => is_space c = false) (list_ascii_of_string (python_str z))
  /\ signed_digits (list_ascii_of_string (python_str z)) = Some z.
Proof.
  unfold python_str. destruct z as [|p|p]; simpl.
  - split; [repeat constructor|reflexivity].
  - rewrite nilzero_chars. split.
    + eapply Forall_impl; [apply uint_chars_digits|]. apply is_digit_not_space.
    + pose proof (uint_chars_digits (Pos.to_uint p)) as Hd.
      pose proof (parse_pos p) as Hp.
      destruct (uint_chars (Pos.to_uint p)) as [|c w]; [discriminate Hp|].
      apply Forall_cons in Hd as [Hc _].
      rewrite (signed_digits_digit c w Hc). exact Hp.
  - rewrite nilzero_chars. split.
    + constructor; [reflexivity|].
      eapply Forall_impl; [apply uint_chars_digits|]. apply is_digit_not_space.
    + unfold signed_digits. rewrite parse_pos. reflexivity.
Qed.

(** What [_update_cache] writes is read back by [_last_rid_from_cache]. *)
Lemma python_int_str (z : Z) :
  python_int (python_str z +:+ String "010" EmptyString) = Return z.
Proof.
  unfold python_int. rewrite list_ascii_of_string_app. simpl.
  destruct (python_str_chars z) as [Hw Hparse].
  rewrite strip_trailing; [|exact Hw|repeat constructor].
  rewrite Hparse. reflexivity.
Qed.

(** Whitespace on both sides of a text without whitespace. *)
Lemma strip_both (sp1 w sp2 : list ascii) :
  Forall (fun c => is_space c = true) sp1 ->
  Forall (fun c => is_space c = false) w ->
  Forall (fun c => is_space c = true) sp2 ->
  strip (sp1 ++ w ++ sp2) = w.
Proof.
  intros H1 Hw H2. unfold strip. rewrite (lstrip_spaces sp1 _ H1).
  apply (strip_trailing w sp2 Hw H2).
Qed.

(** [int()] reads [str(z)] back through any whitespace around it. *)
Lemma python_int_str_padded (before after : string) (z : Z) :
  Forall (fun c => is_space c = true) (list_ascii_of_string before) ->
  Forall (fun c => is_space c = true) (list_ascii_of_string after) ->
  python_int (before +:+ python_str z +:+ after) = Return z.
Proof.
  intros H1 H2. unfold python_int. rewrite !list_ascii_of_string_app.
  destruct (python_str_chars z) as [Hw Hparse].
  rewrite (strip_both _ _ _ H1 Hw H2), Hparse. reflexivity.
Qed.

End TextTheory.

(** ** Decimal numerals: their length and their value *)

Module DecimalText.
Import Text TextTheory.

Lemma digits_value_lower (d : list ascii) :
  forall acc, 0 <= acc ->
  Forall (fun c => is_digit c = true) d ->
  acc * 10 ^ Z.of_nat (length d) <= digits_value acc d.
Proof.
  induction d as [|c d IH]; intros acc Hacc Hd.
  - simpl. lia.
  - apply Forall_cons in Hd as [Hc Hd].
    pose proof (digit_val_range c Hc) as Hr.
    change (digits_value acc (c :: d))
      with (digits_value (10 * acc + digit_val c) d).
    specialize (IH (10 * acc + digit_val c) ltac:(lia) Hd).
    rewrite length_cons, Nat2Z.inj_succ, Z.pow_succ_r by lia.
    assert (0 <= 10 ^ Z.of_nat (length d)) by (apply Z.pow_nonneg; lia).
    nia.
Qed.

Lemma digits_value_upper (d : list ascii) :
  forall acc, 0 <= acc ->
  Forall (fun c => is_digit c = true) d ->
  digits_value acc d < (acc + 1) * 10 ^ Z.of_nat (length d).
Proof.
  induction d as [|c d IH]; intros acc Hacc Hd.
  - simpl. lia.
  - apply Forall_cons in Hd as [Hc Hd].
    pose proof (digit_val_range c Hc) as Hr.
    change (digits_value acc (c :: d))
      with (digits_value (10 * acc + digit_val c) d).
    specialize (IH (10 * acc + digit_val c) ltac:(lia) Hd).
    rewrite length_cons, Nat2Z.inj_succ, Z.pow_succ_r by lia.
    assert (0 < 10 ^ Z.of_nat (length d)) by (apply Z.pow_pos_nonneg; lia).
    nia.
Qed.

(** Zeros in front do not change the value. *)
Lemma digits_value_zeros (n : nat) (d : list ascii) :
  digits_value 0 (repeat "0"%char n ++ d) = digits_value 0 d.
Proof. induction n as [|n IH]; [reflexivity|exact IH]. Qed.

(** The numeral of a positive number does not start with a zero. *)
Lemma to_uint_head (p : positive) :
  exists c w, uint_chars (Pos.to_uint p) = c :: w /\ 1 <= digit_val c.
Proof.
  pose proof (DecimalPos.Unsigned.to_uint_nonzero p) as Hnz.
  assert (Hnorm : Pos.to_uint p = Decimal.nzhead (Pos.to_uint p)).
  { pose proof (DecimalPos.Unsigned.to_of (Pos.to_uint p)) as Hto.
    rewrite DecimalPos.Unsigned.of_to in Hto. simpl in Hto.
    etransitivity; [exact Hto|]. apply DecimalFacts.unorm_nzhead.
    intros Hnil. apply DecimalFacts.unorm_0 in Hnil.
    rewrite <- Hto in Hnil. contradiction. }
  pose proof (DecimalFacts.nzhead_nonzero (Pos.to_uint p)) as Hhead.
  rewrite <- Hnorm in Hhead.
  pose proof (pos_to_uint_not_nil p) as Hnil.
  unfold uint_chars.
  destruct (Pos.to_uint p) as [|u|u|u|u|u|u|u|u|u|u]; simpl;
    [contradiction|exfalso; apply (Hhead u); reflexivity|..];
    eexists _, _; (split; [reflexivity|vm_compute; discriminate]).
Qed.

(** The characters of [str(z)] for [z >= 0]: digits, whose value is [z],
    with no zero in front unless [z] is 0. *)
Lemma python_str_nonneg (z : Z) :
  0 <= z ->
  exists c w,
    list_ascii_of_string (python_str z) = c :: w /\
    Forall (fun c => is_digit c = true) (c :: w) /\
    digits_value 0 (c :: w) = z /\
    (z = 0 \/ 1 <= digit_val c).
Proof.
  intros Hz. destruct z as [|p|p]; [| |lia].
  - exists "0"%char, []. split; [reflexivity|].
    split; [repeat constructor|]. split; [reflexivity|]. left. reflexivity.
  - destruct (to_uint_head p) as (c & w & Hchars & Hhead).
    exists c, w.
    assert (Hstr : list_ascii_of_string (python_str (Z.pos p)) = c :: w).
    { unfold python_str. simpl. rewrite nilzero_chars. exact Hchars. }
    pose proof (uint_chars_digits (Pos.to_uint p)) as Hd.
    rewrite Hchars in Hd.
    split; [exact Hstr|]. split; [exact Hd|]. split; [|right; exact Hhead].
    pose proof (parse_pos p) as Hparse. rewrite Hchars in Hparse.
    rewrite (parse_digits_digits (c :: w) 0 false Hd) in Hparse
      by (left; discriminate).
    injection Hparse as Hv. exact Hv.
Qed.

(** The length of [str(z)]: [k] characters exactly when
    [10^(k-1) <= z < 10^k], one character for 0. *)
Lemma python_str_length (z : Z) (k : nat) :
  0 <= z ->
  (z < 10 ^ Z.of_nat (S k) -> (String.length (python_str z) <= S k)%nat) /\
  (10 ^ Z.of_nat k <= z -> (k < String.length (python_str z))%nat).
Proof.
  intros Hz.
  destruct (python_str_nonneg z Hz) as (c & w & Hchars & Hd & Hval & Hhead).
  assert (Hlen : String.length (python_str z) = S (length w)).
  { rewrite <- (string_of_list_ascii_of_string (python_str z)), Hchars.
    simpl. f_equal. clear. induction w; simpl; auto. }
  rewrite Hlen.
  pose proof Hd as Hd'. apply Forall_cons in Hd' as [Hc Hw].
  pose proof (digit_val_range c Hc) as Hr.
  change (digits_value 0 (c :: w))
    with (digits_value (10 * 0 + digit_val c) w) in Hval.
  replace (10 * 0 + digit_val c) with (digit_val c) in Hval by lia.
  pose proof (digits_value_lower w (digit_val c) ltac:(lia) Hw) as Hlo.
  pose proof (digits_value_upper w (digit_val c) ltac:(lia) Hw) as Hup.
  rewrite Hval in Hlo, Hup.
  assert (Hpos : forall n : nat, 0 < 10 ^ Z.of_nat n)
    by (intros n; apply Z.pow_pos_nonneg; lia).
  split.
  - intros Hlt. destruct Hhead as [->|Hhead].
    + assert (digit_val c * 10 ^ Z.of_nat (length w) <= 0) by lia.
      destruct (Nat.le_gt_cases (length w) k) as [Hle|Hgt]; [lia|].
      specialize (Hpos (length w)).
      assert (digit_val c = 0) by nia.
      (* the numeral of 0 is "0" *)
      exfalso. clear -Hchars Hgt. vm_compute in Hchars.
      injection Hchars as _ <-. simpl in Hgt. lia.
    + destruct (Nat.le_gt_cases (length w) k) as [Hle|Hgt]; [lia|].
      exfalso.
      assert (10 ^ Z.of_nat (S k) <= 10 ^ Z.of_nat (length w))
        by (apply Z.pow_le_mono_r; lia).
      specialize (Hpos (length w)). nia.
  - intros Hge. destruct (Nat.le_gt_cases k (length w)) as [Hle|Hgt]; [lia|].
    exfalso.
    assert (10 ^ Z.of_nat (S (length w)) <= 10 ^ Z.of_nat k)
      by (apply Z.pow_le_mono_r; lia).
    rewrite Nat2Z.inj_succ, Z.pow_succ_r in H by lia.
    specialize (Hpos (length w)). nia.
Qed.

End DecimalText.

(** ** RIDCounter: recovery of the last id and the sequence of ids *)

Module RIDTheory.
Import MonadTheory Text TextTheory RID.

(** *** The pattern of result files *)

Lemma substring_prefix9 (c1 c2 c3 c4 c5 c6 c7 c8 c9 : ascii) (s : string) :
  substring 0 9
    (String c1 (String c2 (String c3 (String c4 (String c5 (String c6
       (String c7 (String c8 (String c9 s))))))))) =
  String c1 (String c2 (String c3 (String c4 (String c5 (String c6
    (String c7 (String c8 (String c9 EmptyString)))))))).
Proof. simpl. destruct s; reflexivity. Qed.

(** A name that matches [h5_re] starts with nine digits, and group 1 is a
    number. *)
Lemma h5_group_is_number (x : string) :
  fullmatch h5_re x = true ->
  exists n, python_int (group1 x) = Return n /\ 0 <= n.
Proof.
  unfold fullmatch. rewrite accepts_matches. unfold h5_re, seq_re. simpl.
  intros H.
  repeat match goal with
  | H : matches (Cat (Cls is_digit) _) _ |- _ =>
      apply matches_cat_cls in H as (? & ? & ? & ? & H)
  | H : matches (Cat digit _) _ |- _ =>
      apply matches_cat_cls in H as (? & ? & ? & ? & H)
  end.
  subst.
  match goal with
  | Hx : list_ascii_of_string x = _ |- _ =>
      apply (f_equal string_of_list_ascii) in Hx;
      rewrite string_of_list_ascii_of_string in Hx; simpl in Hx; subst x
  end.
  unfold group1. rewrite substring_prefix9.
  eexists. split.
  - apply python_int_digits; [discriminate|]. simpl. repeat constructor; assumption.
  - apply digits_value_bounds; [lia|]. simpl. repeat constructor; assumption.
Qed.

(** *** The scan *)

(** The three loops of the scan share one shape: the running maximum
    [r] goes through a body for each element. *)
Fixpoint for_each {A} (body : A -> Z -> outcome Z) (l : list A) (r : Z)
    : outcome Z :=
  match l with
  | [] => Return r
  | a :: l' => r' ← body a r; for_each body l' r'
  end.

(** If each body returns a maximum of the old value and of the numbers
    [P] attaches to its element, so does the loop, for all elements. *)
Lemma for_each_max {A} (body : A -> Z -> outcome Z) (P : A -> Z -> Prop) :
  (forall a r0, exists r,
     body a r0 = Return r /\ r0 <= r /\
     (forall n, P a n -> n <= r) /\ (r = r0 \/ P a r)) ->
  forall l r0, exists r,
    for_each body l r0 = Return r /\ r0 <= r /\
    (forall a n, a ∈ l -> P a n -> n <= r) /\
    (r = r0 \/ exists a, a ∈ l /\ P a r).
Proof.
  intros Hbody. induction l as [|a l IH]; intros r0.
  - exists r0. split; [reflexivity|]. split; [lia|]. split; [|auto].
    intros a n Ha. inversion Ha.
  - destruct (Hbody a r0) as (r1 & Hrun1 & Hle1 & Hub1 & Hwit1).
    destruct (IH r1) as (r & Hrun & Hle & Hub & Hwit).
    exists r. split; [simpl; rewrite Hrun1; exact Hrun|].
    split; [lia|]. split.
    + intros b n Hb HP. apply elem_of_cons in Hb as [->|Hb].
      * specialize (Hub1 n HP). lia.
      * eauto.
    + destruct Hwit as [->|(b & Hb & HP)].
      * destruct Hwit1 as [->|HP]; [auto|].
        right. exists a. split; [left|exact HP].
      * right. exists b. split; [right; exact Hb|exact HP].
Qed.

Section Scan.

Variable fs : filesys.
Variable root : string.

(** The number of a result file, for a name that matches. *)
Definition file_rid (x : string) (n : Z) : Prop :=
  fullmatch h5_re x = true /\ python_int (group1 x) = Return n.

(** The numbers found in one minute folder, and in one day folder. *)
Definition minute_rid (df mf : string) (n : Z) : Prop :=
  exists h5files x,
    listdir fs root [df; mf] = Return h5files /\ x ∈ h5files /\ file_rid x n.

Definition day_rid (df : string) (n : Z) : Prop :=
  exists minute_folders mf,
    listdir fs root [df] = Return minute_folders /\
    mf ∈ minute_folders /\ fullmatch minute_re mf = true /\
    minute_rid df mf n.

(** The numbers of the results tree: those of the files
    [<day>/<minute>/<nine digits>-<anything>.h5] in listable folders. *)
Definition tree_rid (n : Z) : Prop :=
  exists day_folders df,
    listdir fs root [] = Return day_folders /\
    df ∈ day_folders /\ fullmatch day_re df = true /\
    day_rid df n.

Definition file_body (x : string) (r : Z) : outcome Z :=
  if fullmatch h5_re x then
    rid ← python_int (group1 x); mret (if r <? rid then rid else r)
  else Return r.

Definition minute_body (df mf : string) (r : Z) : outcome Z :=
  match listdir fs root [df; mf] with
  | Raise _ => Return r
  | Return h5files => scan_h5files h5files r
  end.

Definition day_body (df : string) (r : Z) : outcome Z :=
  match listdir fs root [df] with
  | Raise _ => Return r
  | Return minute_folders =>
      scan_minute_folders fs root df
        (List.filter (fullmatch minute_re) minute_folders) r
  end.

Lemma scan_h5files_for_each (h5files : list string) :
  forall r, scan_h5files h5files r = for_each file_body h5files r.
Proof.
  induction h5files as [|x l IH]; intros r; simpl; [reflexivity|].
  unfold file_body. destruct (fullmatch h5_re x); simpl; [|apply IH].
  destruct (python_int (group1 x)); simpl; [apply IH|reflexivity].
Qed.

Lemma scan_minute_folders_for_each (df : string) (mfs : list string) :
  forall r,
  scan_minute_folders fs root df mfs r = for_each (minute_body df) mfs r.
Proof.
  induction mfs as [|mf l IH]; intros r; simpl; [reflexivity|].
  unfold minute_body. destruct (listdir fs root [df; mf]) as [h5files|e].
  - destruct (scan_h5files h5files r); simpl; [apply IH|reflexivity].
  - apply IH.
Qed.

Lemma scan_day_folders_for_each (dfs : list string) :
  forall r, scan_day_folders fs root dfs r = for_each day_body dfs r.
Proof.
  induction dfs as [|df l IH]; intros r; simpl; [reflexivity|].
  unfold day_body. destruct (listdir fs root [df]) as [mfs|e].
  - destruct (scan_minute_folders fs root df _ r); simpl;
      [apply IH|reflexivity].
  - apply IH.
Qed.

Lemma file_body_max (x : string) (r0 : Z) :
  exists r,
    file_body x r0 = Return r /\ r0 <= r /\
    (forall n, file_rid x n -> n <= r) /\ (r = r0 \/ file_rid x r).
Proof.
  unfold file_body, file_rid.
  destruct (fullmatch h5_re x) eqn:Hm.
  - destruct (h5_group_is_number x Hm) as (n & Hn & _). rewrite Hn. simpl.
    destruct (Z.ltb_spec r0 n).
    + exists n. split; [reflexivity|]. split; [lia|]. split; [|auto].
      intros k [_ Hk]. injection Hk as ->. lia.
    + exists r0. split; [reflexivity|]. split; [lia|]. split; [|auto].
      intros k [_ Hk]. injection Hk as ->. lia.
  - exists r0. split; [reflexivity|]. split; [lia|]. split; [|auto].
    intros k [Hk _]. discriminate Hk.
Qed.

Lemma minute_body_max (df mf : string) (r0 : Z) :
  exists r,
    minute_body df mf r0 = Return r /\ r0 <= r /\
    (forall n, minute_rid df mf n -> n <= r) /\
    (r = r0 \/ minute_rid df mf r).
Proof.
  unfold minute_body, minute_rid.
  destruct (listdir fs root [df; mf]) as [h5files|e].
  - rewrite scan_h5files_for_each.
    destruct (for_each_max file_body file_rid file_body_max h5files r0)
      as (r & Hrun & Hle & Hub & Hwit).
    exists r. split; [exact Hrun|]. split; [exact Hle|]. split.
    + intros n (l & x & Hl & Hx & Hn). injection Hl as <-. eauto.
    + destruct Hwit as [->|(x & Hx & Hn)]; [auto|]. right. eauto.
  - exists r0. split; [reflexivity|]. split; [lia|]. split; [|auto].
    intros n (l & x & Hl & _). discriminate Hl.
Qed.

Lemma day_body_max (df : string) (r0 : Z) :
  exists r,
    day_body df r0 = Return r /\ r0 <= r /\
    (forall n, day_rid df n -> n <= r) /\ (r = r0 \/ day_rid df r).
Proof.
  unfold day_body, day_rid.
  destruct (listdir fs root [df]) as [mfs|e].
  - rewrite scan_minute_folders_for_each.
    destruct (for_each_max (minute_body df) (minute_rid df)
                (minute_body_max df)
                (List.filter (fullmatch minute_re) mfs) r0)
      as (r & Hrun & Hle & Hub & Hwit).
    exists r. split; [exact Hrun|]. split; [exact Hle|]. split.
    + intros n (l & mf & Hl & Hmf & Hmatch & Hn). injection Hl as <-.
      apply (Hub mf n); [|exact Hn].
      apply list_elem_of_In, filter_In. split; [|exact Hmatch].
      apply list_elem_of_In. exact Hmf.
    + destruct Hwit as [->|(mf & Hmf & Hn)]; [auto|]. right.
      apply list_elem_of_In, filter_In in Hmf as [Hmf Hmatch].
      apply list_elem_of_In in Hmf. eauto 10.
  - exists r0. split; [reflexivity|]. split; [lia|]. split; [|auto].
    intros n (l & mf & Hl & _). discriminate Hl.
Qed.

(** The scan never raises; its result is [-1] or the number of a file of
    the tree, and no file of the tree has a greater number. *)
Lemma last_rid_from_results_max (self : RIDCounter) :
  results_dir self = root ->
  exists r,
    _last_rid_from_results self fs = (Return r, fs) /\
    -1 <= r /\
    (forall n, tree_rid n -> n <= r) /\
    (r = -1 \/ tree_rid r).
Proof.
  intros Hroot. unfold _last_rid_from_results, lift, tree_rid.
  rewrite Hroot. destruct (listdir fs root []) as [dfs|e].
  - rewrite scan_day_folders_for_each.
    destruct (for_each_max day_body day_rid day_body_max
                (List.filter (fullmatch day_re) dfs) (-1))
      as (r & Hrun & Hle & Hub & Hwit).
    exists r. rewrite Hrun. split; [reflexivity|]. split; [exact Hle|]. split.
    + intros n (l & df & Hl & Hdf & Hmatch & Hn). injection Hl as <-.
      apply (Hub df n); [|exact Hn].
      apply list_elem_of_In, filter_In. split; [|exact Hmatch].
      apply list_elem_of_In. exact Hdf.
    + destruct Hwit as [->|(df & Hdf & Hn)]; [auto|]. right.
      apply list_elem_of_In, filter_In in Hdf as [Hdf Hmatch].
      apply list_elem_of_In in Hdf. eauto 10.
  - exists (-1). split; [reflexivity|]. split; [lia|]. split; [|auto].
    intros n (l & df & Hl & _). discriminate Hl.
Qed.

End Scan.

(** The recovered id depends on the numbered result files only: two
    results trees with the same numbers give the same id, in whatever
    order their folders are listed and whatever else they hold. *)
Theorem scan_depends_on_numbers_only (fs1 fs2 : filesys)
    (self1 self2 : RIDCounter) :
  (forall n, tree_rid fs1 (results_dir self1) n <->
             tree_rid fs2 (results_dir self2) n) ->
  fst (_last_rid_from_results self1 fs1) =
  fst (_last_rid_from_results self2 fs2).
Proof.
  intros Hsame.
  destruct (last_rid_from_results_max fs1 _ self1 eq_refl)
    as (r1 & Hrun1 & Hlo1 & Hub1 & Hwit1).
  destruct (last_rid_from_results_max fs2 _ self2 eq_refl)
    as (r2 & Hrun2 & Hlo2 & Hub2 & Hwit2).
  rewrite Hrun1, Hrun2. simpl. f_equal.
  assert (Hle : r1 <= r2).
  { destruct Hwit1 as [->|Hin]; [exact Hlo2|]. apply Hub2, Hsame, Hin. }
  assert (Hge : r2 <= r1).
  { destruct Hwit2 as [->|Hin]; [exact Hlo1|]. apply Hub1, Hsame, Hin. }
  lia.
Qed.

(** *** The cache file and the sequence of ids *)

Section Counter.

Variable mktemp : gmap string string -> string.

#[local] Abbreviation _update_cache := (_update_cache mktemp).
#[local] Abbreviation _last_rid := (_last_rid mktemp).
#[local] Abbreviation init := (init mktemp).
#[local] Abbreviation get := (get mktemp).
#[local] Abbreviation gets := (gets mktemp).

Definition newline : string := String "010" EmptyString.

(** The cache file [cache] exists and [int()] reads [z] from it. *)
Definition cache_holds (fs : filesys) (cache : string) (z : Z) : Prop :=
  exists contents,
    files fs !! cache = Some contents /\ python_int contents = Return z.

(** [_update_cache] leaves [str(rid) + "\n"] in the cache file, whatever
    name the temporary file gets, and does not touch the results. *)
Lemma update_cache_writes (self : RIDCounter) (rid : Z) (fs : filesys) :
  exists fs',
    _update_cache self rid fs = (Return tt, fs') /\
    files fs' !! cache_filename self = Some (python_str rid +:+ newline) /\
    dirs fs' = dirs fs.
Proof.
  unfold RID._update_cache, os_replace. run_monad.
  rewrite lookup_insert_eq. eexists. split; [reflexivity|]. simpl.
  split; [apply lookup_insert_eq|reflexivity].
Qed.

Lemma update_cache_holds (self : RIDCounter) (rid : Z) (fs : filesys) :
  exists fs',
    _update_cache self rid fs = (Return tt, fs') /\
    cache_holds fs' (cache_filename self) rid /\
    dirs fs' = dirs fs.
Proof.
  destruct (update_cache_writes self rid fs) as (fs' & Hrun & Hfile & Hdirs).
  exists fs'. split; [exact Hrun|]. split; [|exact Hdirs].
  exists (python_str rid +:+ newline). split; [exact Hfile|].
  apply python_int_str.
Qed.

(** Construction when the cache file is there. *)
Lemma init_from_cache (cache root : string) (fs : filesys) (z : Z) :
  cache_holds fs cache z ->
  init cache root fs = (Return (mkRIDCounter cache root (z + 1)), fs).
Proof.
  intros (contents & Hfile & Hint).
  unfold RID.init.
  rewrite (run_bind _ _ fs fs z); [reflexivity|].
  unfold RID._last_rid. apply run_try_return.
  unfold _last_rid_from_cache, lift. cbn [cache_filename].
  rewrite Hfile, Hint. reflexivity.
Qed.

(** Construction when the cache file is absent: the results are scanned
    and the result is written to the cache. *)
Lemma init_from_results (cache root : string) (fs : filesys) :
  files fs !! cache = None ->
  exists r fs',
    _last_rid_from_results (mkRIDCounter cache root 0) fs = (Return r, fs) /\
    -1 <= r /\
    (forall n, tree_rid fs root n -> n <= r) /\
    (r = -1 \/ tree_rid fs root r) /\
    init cache root fs = (Return (mkRIDCounter cache root (r + 1)), fs') /\
    cache_holds fs' cache r /\
    dirs fs' = dirs fs.
Proof.
  intros Hfile.
  destruct (last_rid_from_results_max fs root (mkRIDCounter cache root 0)
              eq_refl) as (r & Hscan & Hlo & Hub & Hwit).
  destruct (update_cache_holds (mkRIDCounter cache root 0) r fs)
    as (fs' & Hupd & Hcache & Hdirs).
  exists r, fs'. repeat (split; [assumption|]). split; [|auto].
  unfold RID.init.
  rewrite (run_bind _ _ fs fs' r); [reflexivity|].
  unfold RID._last_rid.
  rewrite (run_try_raise _ _ fs fs FileNotFoundError).
  - rewrite (run_bind _ _ fs fs r Hscan).
    rewrite (run_bind _ _ fs fs' tt Hupd). reflexivity.
  - unfold _last_rid_from_cache, lift. cbn [cache_filename].
    rewrite Hfile. reflexivity.
Qed.

(** One allocation. *)
Lemma get_next (self : RIDCounter) (fs : filesys) :
  exists fs',
    get self fs =
      (Return (_next_rid self,
               mkRIDCounter (cache_filename self) (results_dir self)
                            (_next_rid self + 1)), fs') /\
    cache_holds fs' (cache_filename self) (_next_rid self) /\
    dirs fs' = dirs fs.
Proof.
  destruct (update_cache_holds
              (mkRIDCounter (cache_filename self) (results_dir self)
                            (_next_rid self + 1)) (_next_rid self) fs)
    as (fs' & Hupd & Hcache & Hdirs).
  exists fs'. split; [|auto].
  unfold RID.get. rewrite (run_bind _ _ fs fs' tt Hupd). reflexivity.
Qed.

(** [n] allocations return the next [n] numbers, and the cache follows. *)
Lemma gets_consecutive (n : nat) :
  forall (self : RIDCounter) (fs : filesys),
  exists fs',
    gets n self fs =
      (Return (seqZ (_next_rid self) (Z.of_nat n),
               mkRIDCounter (cache_filename self) (results_dir self)
                            (_next_rid self + Z.of_nat n)), fs') /\
    (cache_holds fs (cache_filename self) (_next_rid self - 1) ->
     cache_holds fs' (cache_filename self)
                 (_next_rid self + Z.of_nat n - 1)) /\
    dirs fs' = dirs fs.
Proof.
  induction n as [|n IH]; intros self fs.
  - exists fs. simpl. rewrite Z.add_0_r. destruct self. simpl.
    split; [reflexivity|]. split; [|reflexivity].
    intros H. replace (_next_rid0 + 0 - 1) with (_next_rid0 - 1) by lia.
    exact H.
  - destruct (get_next self fs) as (fs1 & Hget & Hcache1 & Hdirs1).
    destruct (IH (mkRIDCounter (cache_filename self) (results_dir self)
                               (_next_rid self + 1)) fs1)
      as (fs2 & Hgets & Hcache2 & Hdirs2).
    simpl in Hgets, Hcache2.
    exists fs2. split; [|split].
    + cbn [RID.gets]. rewrite (run_bind _ _ _ _ _ Hget).
      rewrite (run_bind _ _ _ _ _ Hgets). unfold mret, M_ret, ret.
      rewrite (seqZ_cons (_next_rid self) (Z.of_nat (S n))) by lia.
      replace (Z.succ (_next_rid self)) with (_next_rid self + 1) by lia.
      replace (Z.pred (Z.of_nat (S n))) with (Z.of_nat n) by lia.
      replace (_next_rid self + 1 + Z.of_nat n)
        with (_next_rid self + Z.of_nat (S n)) by lia.
      reflexivity.
    + intros _.
      replace (_next_rid self + Z.of_nat (S n) - 1)
        with (_next_rid self + 1 + Z.of_nat n - 1) by lia.
      apply Hcache2.
      replace (_next_rid self + 1 - 1) with (_next_rid self) by lia.
      exact Hcache1.
    + congruence.
Qed.

(** After construction the cache holds the last id, one below the next. *)
Lemma init_cache_holds (cache root : string) (fs fs' : filesys)
    (self : RIDCounter) :
  init cache root fs = (Return self, fs') ->
  cache_filename self = cache /\
  cache_holds fs' cache (_next_rid self - 1).
Proof.
  intros Hinit. destruct (files fs !! cache) as [contents|] eqn:Hfile.
  - destruct (python_int contents) as [z|e] eqn:Hint.
    + rewrite (init_from_cache cache root fs z) in Hinit
        by (exists contents; auto).
      injection Hinit as <- <-. simpl. split; [reflexivity|].
      exists contents. split; [exact Hfile|].
      replace (z + 1 - 1) with z by lia. exact Hint.
    + unfold RID.init in Hinit.
      rewrite (run_bind_raise _ _ fs fs e) in Hinit; [discriminate Hinit|].
      unfold RID._last_rid.
      rewrite (run_try_raise _ _ fs fs e).
      * unfold python_int in Hint.
        destruct (signed_digits _); [discriminate Hint|].
        injection Hint as <-. reflexivity.
      * unfold _last_rid_from_cache, lift. cbn [cache_filename].
        rewrite Hfile. unfold python_int in *. destruct (signed_digits _); congruence.
  - destruct (init_from_results cache root fs Hfile)
      as (r & fs1 & _ & _ & _ & _ & Hinit' & Hcache & _).
    rewrite Hinit' in Hinit. injection Hinit as <- <-. simpl.
    split; [reflexivity|].
    replace (r + 1 - 1) with r by lia. exact Hcache.
Qed.

(** The cache file is a faithful record: what [_update_cache] writes for
    an id, [_last_rid_from_cache] reads back as that id, for every id
    and every name of the temporary file. *)
Lemma cache_round_trip (self : RIDCounter) (rid : Z) (fs : filesys) :
  exists fs',
    _update_cache self rid fs = (Return tt, fs') /\
    _last_rid_from_cache self fs' = (Return rid, fs').
Proof.
  destruct (update_cache_holds self rid fs)
    as (fs' & Hrun & (contents & Hfile & Hint) & _).
  exists fs'. split; [exact Hrun|].
  unfold _last_rid_from_cache, lift. rewrite Hfile, Hint. reflexivity.
Qed.

(** C2: a counter constructed where there is neither a cache file nor a
    results directory returns 0, 1, 2, ... from its successive [get]
    calls; and whatever the files were when a counter was constructed,
    after it has returned at least one id its ids were consecutive and a
    counter constructed anew on the cache file it left returns, first, the
    successor of the last of them. *)
Theorem rid_sequence_and_restart (cache root : string) (fs : filesys) :
  (files fs !! cache = None ->
   dirs fs !! root = None ->
   forall n : nat, exists self fs1 self' fs2,
     init cache root fs = (Return self, fs1) /\
     gets n self fs1 = (Return (seqZ 0 (Z.of_nat n), self'), fs2))
  /\
  (forall self fs1 (n : nat) rids self' fs2,
     init cache root fs = (Return self, fs1) ->
     gets (S n) self fs1 = (Return (rids, self'), fs2) ->
     rids = seqZ (_next_rid self) (Z.of_nat (S n)) /\
     forall root', exists rid again again' fs3,
       last rids = Some rid /\
       init cache root' fs2 = (Return again, fs2) /\
       get again fs2 = (Return (rid + 1, again'), fs3)).
Proof.
  split.
  - intros Hfile Hdir n.
    destruct (init_from_results cache root fs Hfile)
      as (r & fs1 & Hscan & _ & _ & Hwit & Hinit & _).
    assert (Hr : r = -1).
    { destruct Hwit as [Hr|(dfs & df & Hl & _)]; [exact Hr|].
      unfold listdir in Hl. rewrite Hdir in Hl. discriminate Hl. }
    subst r.
    destruct (gets_consecutive n (mkRIDCounter cache root (-1 + 1)) fs1)
      as (fs2 & Hgets & _).
    eexists _, fs1, _, fs2. split; [exact Hinit|]. exact Hgets.
  - intros self fs1 n rids self' fs2 Hinit Hgets.
    destruct (init_cache_holds cache root fs fs1 self Hinit)
      as [Hname Hcache].
    destruct (gets_consecutive (S n) self fs1) as (fs2' & Hgets' & Hkeep & _).
    rewrite Hgets' in Hgets. injection Hgets as <- <- <-.
    split; [reflexivity|]. intros root'.
    rewrite Hname in Hkeep. specialize (Hkeep Hcache).
    pose proof (init_from_cache cache root' fs2'
                  (_next_rid self + Z.of_nat (S n) - 1) Hkeep) as Hagain.
    destruct (get_next (mkRIDCounter cache root'
                          (_next_rid self + Z.of_nat (S n) - 1 + 1)) fs2')
      as (fs3 & Hget & _).
    cbn [_next_rid cache_filename results_dir] in Hget.
    eexists (_next_rid self + Z.of_nat (S n) - 1), _, _, fs3.
    split; [|split; [exact Hagain|exact Hget]].
    rewrite seqZ_S, last_snoc. f_equal. lia.
Qed.

(** C3 (as amended): without a cache file, the last id is recovered as the
    greatest number carried by a file
    [<day>/<minute>/<nine digits>-<anything>.h5] of the results tree,
    where [<day>] matches [dddd-dd-dd], [<minute>] matches [dd-dd] and
    both folders can be listed; entries that do not match count for
    nothing; [-1] is recovered when there is no such file.  The first id
    allocated is the successor of the recovered one. *)
Theorem last_rid_recovered_from_results (cache root : string) (fs : filesys) :
  files fs !! cache = None ->
  exists r self fs1 self' fs2,
    (forall n, tree_rid fs root n -> n <= r) /\
    (r = -1 \/ tree_rid fs root r) /\
    init cache root fs = (Return self, fs1) /\
    _next_rid self = r + 1 /\
    get self fs1 = (Return (r + 1, self'), fs2).
Proof.
  intros Hfile.
  destruct (init_from_results cache root fs Hfile)
    as (r & fs1 & _ & _ & Hub & Hwit & Hinit & _).
  destruct (get_next (mkRIDCounter cache root (r + 1)) fs1)
    as (fs2 & Hget & _).
  eexists r, _, fs1, _, fs2. split; [exact Hub|]. split; [exact Hwit|].
  split; [exact Hinit|]. split; [reflexivity|exact Hget].
Qed.

(** C4: without a cache file, construction never raises, whatever the
    results tree holds, and a folder that cannot be listed does not end
    the scan: the scan returns [r], the greatest number of a matching
    file in the folders that can be listed, wherever the other folders
    stand ([-1] when there is no such file), and the next id is [r + 1].
    When the results directory itself is missing or cannot be listed the
    last id is [-1] and the first id allocated is 0. *)
Theorem recovery_never_raises (cache root : string) (fs : filesys) :
  files fs !! cache = None ->
  (exists r self fs1,
     _last_rid_from_results (mkRIDCounter cache root 0) fs = (Return r, fs) /\
     init cache root fs = (Return self, fs1) /\
     _next_rid self = r + 1 /\
     0 <= _next_rid self /\
     (forall n, tree_rid fs root n -> n < _next_rid self) /\
     (r = -1 \/ tree_rid fs root r))
  /\
  ((exists e, listdir fs root [] = Raise e) ->
   exists self fs1 self' fs2,
     _last_rid_from_results (mkRIDCounter cache root 0) fs = (Return (-1), fs) /\
     init cache root fs = (Return self, fs1) /\
     _next_rid self = 0 /\
     get self fs1 = (Return (0, self'), fs2)).
Proof.
  intros Hfile.
  destruct (init_from_results cache root fs Hfile)
    as (r & fs1 & Hscan & Hlo & Hub & Hwit & Hinit & _).
  split.
  - exists r, (mkRIDCounter cache root (r + 1)), fs1.
    split; [exact Hscan|]. split; [exact Hinit|]. simpl.
    split; [reflexivity|]. split; [lia|]. split; [|exact Hwit].
    intros n Hn. specialize (Hub n Hn). lia.
  - intros [e He].
    assert (Hr : r = -1).
    { destruct Hwit as [Hr|(dfs & df & Hl & _)]; [exact Hr|].
      rewrite He in Hl. discriminate Hl. }
    subst r.
    destruct (get_next (mkRIDCounter cache root (-1 + 1)) fs1)
      as (fs2 & Hget & _).
    eexists _, fs1, _, fs2. split; [exact Hscan|]. split; [exact Hinit|].
    split; [reflexivity|exact Hget].
Qed.

(** *** More on the cache file *)

(** A cache file that does not hold an integer is fatal: construction
    raises the [ValueError] of [int()], whose message quotes the contents
    of the file; the results are not scanned as a fallback, and no file
    is touched. *)
Theorem corrupt_cache_is_fatal (cache root contents : string) (fs : filesys)
    (e : pyexn) :
  files fs !! cache = Some contents ->
  python_int contents = Raise e ->
  init cache root fs = (Raise e, fs) /\
  e = invalid_literal contents.
Proof.
  intros Hfile Hint.
  assert (He : e = invalid_literal contents).
  { unfold python_int in Hint. destruct (signed_digits _); congruence. }
  split; [|exact He]. unfold RID.init.
  rewrite (run_bind_raise _ _ fs fs e); [reflexivity|].
  unfold RID._last_rid. rewrite (run_try_raise _ _ fs fs e).
  - rewrite He. reflexivity.
  - unfold _last_rid_from_cache, lift. cbn [cache_filename].
    rewrite Hfile, Hint. reflexivity.
Qed.

(** The cache file wins over the results: when it holds an integer [z],
    surrounded by any whitespace or none, the counter starts at [z + 1]
    without a scan and without a write, whatever the results directory
    holds (result files with greater numbers included). *)
Theorem cache_takes_precedence (cache root before after : string)
    (fs : filesys) (z : Z) :
  Forall (fun c => is_space c = true) (list_ascii_of_string before) ->
  Forall (fun c => is_space c = true) (list_ascii_of_string after) ->
  files fs !! cache = Some (before +:+ python_str z +:+ after) ->
  init cache root fs = (Return (mkRIDCounter cache root (z + 1)), fs).
Proof.
  intros H1 H2 Hfile. apply init_from_cache.
  exists (before +:+ python_str z +:+ after). split; [exact Hfile|].
  apply python_int_str_padded; assumption.
Qed.

(** A recovery is remembered: after a construction without a cache file,
    the cache file is there, and every later construction on it starts
    at the same id without looking at any results directory. *)
Theorem recovery_is_persisted (cache root : string) (fs : filesys) :
  files fs !! cache = None ->
  exists self fs1,
    init cache root fs = (Return self, fs1) /\
    is_Some (files fs1 !! cache) /\
    forall root',
      init cache root' fs1 =
      (Return (mkRIDCounter cache root' (_next_rid self)), fs1).
Proof.
  intros Hfile.
  destruct (init_from_results cache root fs Hfile)
    as (r & fs1 & _ & _ & _ & _ & Hinit & Hcache & _).
  eexists _, fs1. split; [exact Hinit|]. split.
  - destruct Hcache as (contents & Hc & _). rewrite Hc. eauto.
  - intros root'. apply init_from_cache. exact Hcache.
Qed.

(** When the temporary file gets a name that is not in use, as
    [NamedTemporaryFile] guarantees, [_update_cache] changes the cache
    file and nothing else: no temporary file is left behind, every other
    file and the results are as before. *)
Theorem update_cache_frame (self : RIDCounter) (rid : Z) (fs : filesys) :
  files fs !! mktemp (files fs) = None ->
  _update_cache self rid fs =
  (Return tt,
   mkFs (<[cache_filename self := python_str rid +:+ newline]> (files fs))
        (dirs fs)).
Proof.
  intros Hfresh. unfold RID._update_cache, os_replace. run_monad.
  rewrite lookup_insert_eq, (delete_insert_id _ _ _ Hfresh). reflexivity.
Qed.

End Counter.

(** The cases of a membership in a listing, and a listing evaluated. *)
Ltac names_cases H :=
  repeat (apply elem_of_cons in H as [->|H]); [..|inversion H].

Ltac listed H :=
  vm_compute in H; first [discriminate H | injection H as <-].

(** *** Instances *)

Definition tmp (dir : gmap string string) : string := "tmpq3x9a0".

(** A results tree with one day folder that holds result files, a minute
    folder and a day folder that cannot be listed, and entries that do
    not match the patterns. *)
Definition demo_tree : node :=
  Dir [("2016-01-02",
        Dir [("12-30", Dir [("000000003-bar.h5", File);
                            ("000000007-foo.h5", File);
                            ("notes.txt", File)]);
             ("23-59", Denied);
             ("misc", Dir [("000000099-x.h5", File)])]);
       ("2016-01-03", Denied);
       ("archive", Dir [("12-30", Dir [("000000050-y.h5", File)])])].

Definition demo_fs : filesys := mkFs ∅ {["results" := demo_tree]}.

(** A results tree whose only file has another extension. *)
Definition txt_fs : filesys :=
  mkFs ∅ {["results" :=
             Dir [("2016-01-02",
                   Dir [("12-30", Dir [("000000009-foo.txt", File)])])]]}.

Definition empty_fs : filesys := mkFs ∅ ∅.
Definition denied_fs : filesys := mkFs ∅ {["results" := Denied]}.

(** The layout [<nine digits>-<name>.<ext>] with any extension. *)
Definition layout_re : regex :=
  seq_re [digit; digit; digit; digit; digit; digit; digit; digit; digit;
          chr "-"; Star dot; chr "."; Star dot].

(** The numbers of the files of the tree that match [layout_re]. *)
Definition layout_rid (fs : filesys) (root : string) (n : Z) : Prop :=
  exists day_folders df minute_folders mf h5files x,
    listdir fs root [] = Return day_folders /\
    df ∈ day_folders /\ fullmatch day_re df = true /\
    listdir fs root [df] = Return minute_folders /\
    mf ∈ minute_folders /\ fullmatch minute_re mf = true /\
    listdir fs root [df; mf] = Return h5files /\
    x ∈ h5files /\ fullmatch layout_re x = true /\
    python_int (group1 x) = Return n.

(** C3 as stated (every entry [<nine digits>-<name>.<ext>] counts) fails:
    a file with an extension other than [h5] is passed over. *)
Lemma scan_skips_other_extensions :
  ~ (forall (fs : filesys) cache root n,
       files fs !! cache = None ->
       layout_rid fs root n ->
       exists self fs1,
         init tmp cache root fs = (Return self, fs1) /\ n < _next_rid self).
Proof.
  intros H.
  destruct (H txt_fs "last_rid.pyon" "results" 9 eq_refl)
    as (self & fs1 & Hinit & Hlt).
  - exists ["2016-01-02"], "2016-01-02", ["12-30"], "12-30",
      ["000000009-foo.txt"], "000000009-foo.txt".
    repeat (split; [first [reflexivity | left]|]). reflexivity.
  - vm_compute in Hinit. injection Hinit as <- _. simpl in Hlt. lia.
Qed.

(** [2016-01-02/12-30/000000007-foo.h5] is a file of [demo_tree]. *)
Lemma demo_tree_rid_7 : tree_rid demo_fs "results" 7.
Proof.
  exists ["2016-01-02"; "2016-01-03"; "archive"], "2016-01-02".
  split; [reflexivity|]. split; [left|]. split; [reflexivity|].
  exists ["12-30"; "23-59"; "misc"], "12-30".
  split; [reflexivity|]. split; [left|]. split; [reflexivity|].
  exists ["000000003-bar.h5"; "000000007-foo.h5"; "notes.txt"],
    "000000007-foo.h5".
  split; [reflexivity|]. split; [right; left|]. split; reflexivity.
Defined.

(** Three ids from a new counter on [empty_fs], then a fourth from a
    counter constructed on the files the first one left. *)
Lemma rid_sequence_and_restart_witness :
  exists self fs1 self' fs2 again again' fs3,
    init tmp "last_rid.pyon" "results" empty_fs = (Return self, fs1) /\
    gets tmp 3 self fs1 = (Return ([0; 1; 2], self'), fs2) /\
    init tmp "last_rid.pyon" "results" fs2 = (Return again, fs2) /\
    get tmp again fs2 = (Return (3, again'), fs3).
Proof.
  destruct (rid_sequence_and_restart tmp "last_rid.pyon" "results" empty_fs)
    as [Hfresh Hrestart].
  destruct (Hfresh eq_refl eq_refl 3%nat)
    as (self & fs1 & self' & fs2 & Hinit & Hgets).
  destruct (Hrestart self fs1 2%nat _ self' fs2 Hinit Hgets) as [_ Hagain].
  destruct (Hagain "results")
    as (rid & again & again' & fs3 & Hlast & Hinit2 & Hget).
  injection Hlast as <-.
  exists self, fs1, self', fs2, again, again', fs3.
  split; [exact Hinit|]. split; [exact Hgets|].
  split; [exact Hinit2|exact Hget].
Defined.

(** On [demo_fs] the greatest result file is number 7 and the first id
    is 8. *)
Lemma last_rid_recovered_from_results_witness :
  exists self fs1 self' fs2,
    tree_rid demo_fs "results" 7 /\
    init tmp "last_rid.pyon" "results" demo_fs = (Return self, fs1) /\
    get tmp self fs1 = (Return (8, self'), fs2).
Proof.
  destruct (last_rid_recovered_from_results tmp "last_rid.pyon" "results"
              demo_fs eq_refl)
    as (r & self & fs1 & self' & fs2 & Hub & Hwit & Hinit & Hnext & Hget).
  assert (Hr : r = 7).
  { pose proof (Hub 7 demo_tree_rid_7) as Hge.
    assert (Hnext8 : _next_rid self = 8).
    { vm_compute in Hinit. injection Hinit as <- _. reflexivity. }
    lia. }
  subst r.
  exists self, fs1, self', fs2.
  split; [exact demo_tree_rid_7|]. split; [exact Hinit|exact Hget].
Defined.

(** A results tree in which the folders that cannot be listed come
    first: a day folder, and a minute folder of the next day folder; the
    result files number 3 and 7 are in the minute folder after them. *)
Definition blocked_tree : node :=
  Dir [("2016-01-01", Denied);
       ("2016-01-02",
        Dir [("00-00", Denied);
             ("12-30", Dir [("000000003-bar.h5", File);
                            ("000000007-foo.h5", File)])])].

Definition blocked_fs : filesys := mkFs ∅ {["results" := blocked_tree]}.

Lemma blocked_tree_rid (n : Z) :
  tree_rid blocked_fs "results" n -> n = 3 \/ n = 7.
Proof.
  intros (dfs & df & Hl0 & Hdf & Hdm & mfs & mf & Hl1 & Hmf & Hmm &
          xs & x & Hl2 & Hx & Hmatch & Hint).
  listed Hl0. names_cases Hdf; [vm_compute in Hl1; discriminate Hl1|].
  listed Hl1. names_cases Hmf; [vm_compute in Hl2; discriminate Hl2|].
  listed Hl2. names_cases Hx.
  - vm_compute in Hint. injection Hint as <-. left. reflexivity.
  - vm_compute in Hint. injection Hint as <-. right. reflexivity.
Qed.

(** On [denied_fs] the first id is 0; on [blocked_fs] the scan passes the
    folders that cannot be listed and recovers 7, so that the next id is
    exactly 8. *)
Lemma recovery_never_raises_witness :
  (exists self fs1 self' fs2,
     init tmp "last_rid.pyon" "results" denied_fs = (Return self, fs1) /\
     get tmp self fs1 = (Return (0, self'), fs2)) /\
  (exists self fs1,
     _last_rid_from_results (mkRIDCounter "last_rid.pyon" "results" 0)
       blocked_fs = (Return 7, blocked_fs) /\
     init tmp "last_rid.pyon" "results" blocked_fs = (Return self, fs1) /\
     _next_rid self = 8).
Proof.
  split.
  - destruct (proj2 (recovery_never_raises tmp "last_rid.pyon" "results"
                       denied_fs eq_refl))
      as (self & fs1 & self' & fs2 & _ & Hinit & _ & Hget).
    + exists OSError. reflexivity.
    + exists self, fs1, self', fs2. split; [exact Hinit|exact Hget].
  - destruct (proj1 (recovery_never_raises tmp "last_rid.pyon" "results"
                       blocked_fs eq_refl))
      as (r & self & fs1 & Hscan & Hinit & Hnext & _ & Hub & Hwit).
    assert (Hr : r = 7).
    { apply (f_equal fst) in Hscan.
      destruct Hwit as [->|Hwit].
      - vm_compute in Hscan. discriminate Hscan.
      - destruct (blocked_tree_rid r Hwit) as [->| ->]; [|reflexivity].
        vm_compute in Hscan. discriminate Hscan. }
    subst r. exists self, fs1. split; [exact Hscan|].
    split; [exact Hinit|exact Hnext].
Defined.

(** Cache files that are no number, beside the results of [demo_tree]:
    the text [7a], and the text [3] after the separator U+001C, which
    [int()] does not strip. *)
Definition corrupt_fs : filesys :=
  mkFs {["last_rid.pyon" := "7a"]} {["results" := demo_tree]}.

Definition separator_fs : filesys :=
  mkFs {["last_rid.pyon" := String "028" ("3" +:+ newline)]}
       {["results" := demo_tree]}.

(** A cache file that holds 3, beside the results of [demo_tree]. *)
Definition stale_fs : filesys :=
  mkFs {["last_rid.pyon" := " 3" +:+ newline]} {["results" := demo_tree]}.

(** Construction on [corrupt_fs] and on [separator_fs]. *)
Lemma corrupt_cache_is_fatal_witness :
  init tmp "last_rid.pyon" "results" corrupt_fs =
    (Raise (ValueError "invalid literal for int() with base 10: '7a'"),
     corrupt_fs) /\
  init tmp "last_rid.pyon" "results" separator_fs =
    (Raise (ValueError "invalid literal for int() with base 10: '\x1c3\n'"),
     separator_fs).
Proof.
  split.
  - apply (corrupt_cache_is_fatal tmp "last_rid.pyon" "results" "7a"
             corrupt_fs); reflexivity.
  - apply (corrupt_cache_is_fatal tmp "last_rid.pyon" "results"
             (String "028" ("3" +:+ newline)) separator_fs); reflexivity.
Defined.

(** Construction on [stale_fs]: the next id is 4, although the results
    hold a file number 7. *)
Lemma cache_takes_precedence_witness :
  init tmp "last_rid.pyon" "results" stale_fs =
    (Return (mkRIDCounter "last_rid.pyon" "results" 4), stale_fs) /\
  tree_rid stale_fs "results" 7.
Proof.
  split; [|exact demo_tree_rid_7].
  apply (cache_takes_precedence tmp "last_rid.pyon" "results" " " newline
           stale_fs 3).
  - repeat constructor.
  - repeat constructor.
  - reflexivity.
Defined.

(** After the recovery on [demo_fs], a counter for another results
    directory starts at the same id. *)
Lemma recovery_is_persisted_witness :
  exists self fs1,
    init tmp "last_rid.pyon" "results" demo_fs = (Return self, fs1) /\
    init tmp "last_rid.pyon" "elsewhere" fs1 =
      (Return (mkRIDCounter "last_rid.pyon" "elsewhere" (_next_rid self)),
       fs1).
Proof.
  destruct (recovery_is_persisted tmp "last_rid.pyon" "results" demo_fs
              eq_refl) as (self & fs1 & Hinit & _ & Hagain).
  exists self, fs1. split; [exact Hinit|apply Hagain].
Defined.

(** [_update_cache(5)] beside another file. *)
Lemma update_cache_frame_witness :
  _update_cache tmp (mkRIDCounter "last_rid.pyon" "results" 6) 5
    (mkFs {["notes.txt" := "keep"]} ∅) =
  (Return tt,
   mkFs (<["last_rid.pyon" := "5" +:+ newline]> {["notes.txt" := "keep"]}) ∅).
Proof.
  exact (update_cache_frame tmp (mkRIDCounter "last_rid.pyon" "results" 6) 5
           (mkFs {["notes.txt" := "keep"]} ∅) eq_refl).
Defined.

(** Two results trees with the files number 3 and 7: listed in one order,
    and listed in the other order among entries that do not count. *)
Definition plain_fs : filesys :=
  mkFs ∅ {["results" :=
    Dir [("2016-01-02",
          Dir [("12-30", Dir [("000000003-a.h5", File);
                              ("000000007-b.h5", File)])])]]}.

Definition mixed_fs : filesys :=
  mkFs ∅ {["results" :=
    Dir [("lost+found", Dir []);
         ("2016-01-02",
          Dir [("23-59", Denied);
               ("12-30", Dir [("README", File);
                              ("000000007-b.h5", File);
                              ("000000003-a.h5", File)])])]]}.

Lemma plain_fs_numbers (n : Z) :
  tree_rid plain_fs "results" n <-> n = 3 \/ n = 7.
Proof.
  split.
  - intros (dfs & df & Hl0 & Hdf & Hdm & mfs & mf & Hl1 & Hmf & Hmm &
            xs & x & Hl2 & Hx & Hmatch & Hint).
    listed Hl0. names_cases Hdf.
    listed Hl1. names_cases Hmf.
    listed Hl2. names_cases Hx.
    + vm_compute in Hint. injection Hint as <-. left. reflexivity.
    + vm_compute in Hint. injection Hint as <-. right. reflexivity.
  - intros [-> | ->].
    + exists ["2016-01-02"], "2016-01-02".
      split; [reflexivity|]. split; [left|]. split; [reflexivity|].
      exists ["12-30"], "12-30".
      split; [reflexivity|]. split; [left|]. split; [reflexivity|].
      exists ["000000003-a.h5"; "000000007-b.h5"], "000000003-a.h5".
      split; [reflexivity|]. split; [left|]. split; reflexivity.
    + exists ["2016-01-02"], "2016-01-02".
      split; [reflexivity|]. split; [left|]. split; [reflexivity|].
      exists ["12-30"], "12-30".
      split; [reflexivity|]. split; [left|]. split; [reflexivity|].
      exists ["000000003-a.h5"; "000000007-b.h5"], "000000007-b.h5".
      split; [reflexivity|]. split; [right; left|]. split; reflexivity.
Qed.

Lemma mixed_fs_numbers (n : Z) :
  tree_rid mixed_fs "results" n <-> n = 3 \/ n = 7.
Proof.
  split.
  - intros (dfs & df & Hl0 & Hdf & Hdm & mfs & mf & Hl1 & Hmf & Hmm &
            xs & x & Hl2 & Hx & Hmatch & Hint).
    listed Hl0. names_cases Hdf; [vm_compute in Hdm; discriminate Hdm|].
    listed Hl1. names_cases Hmf; [vm_compute in Hl2; discriminate Hl2|].
    listed Hl2. names_cases Hx.
    + vm_compute in Hmatch. discriminate Hmatch.
    + vm_compute in Hint. injection Hint as <-. right. reflexivity.
    + vm_compute in Hint. injection Hint as <-. left. reflexivity.
  - intros [-> | ->].
    + exists ["lost+found"; "2016-01-02"], "2016-01-02".
      split; [reflexivity|]. split; [right; left|]. split; [reflexivity|].
      exists ["23-59"; "12-30"], "12-30".
      split; [reflexivity|]. split; [right; left|]. split; [reflexivity|].
      exists ["README"; "000000007-b.h5"; "000000003-a.h5"], "000000003-a.h5".
      split; [reflexivity|]. split; [right; right; left|]. split; reflexivity.
    + exists ["lost+found"; "2016-01-02"], "2016-01-02".
      split; [reflexivity|]. split; [right; left|]. split; [reflexivity|].
      exists ["23-59"; "12-30"], "12-30".
      split; [reflexivity|]. split; [right; left|]. split; [reflexivity|].
      exists ["README"; "000000007-b.h5"; "000000003-a.h5"], "000000007-b.h5".
      split; [reflexivity|]. split; [right; left|]. split; reflexivity.
Qed.

(** The scans of [plain_fs] and [mixed_fs] agree. *)
Lemma scan_depends_on_numbers_only_witness :
  fst (_last_rid_from_results
         (mkRIDCounter "last_rid.pyon" "results" 0) plain_fs) =
  fst (_last_rid_from_results
         (mkRIDCounter "last_rid.pyon" "results" 0) mixed_fs).
Proof.
  apply (scan_depends_on_numbers_only plain_fs mixed_fs
           (mkRIDCounter "last_rid.pyon" "results" 0)
           (mkRIDCounter "last_rid.pyon" "results" 0)).
  intros n. simpl. rewrite plain_fs_numbers, mixed_fs_numbers. reflexivity.
Defined.

End RIDTheory.

(** ** get_hdf5_output and the recovery scan *)

Module OutputTheory.
Import MonadTheory Text TextTheory DecimalText RID RIDTheory Output.

#[local] Hint Constructors matches : core.

(** *** Words of the patterns *)

Lemma matches_cls_cons (p : ascii -> bool) (c : ascii) (r : regex)
    (w : list ascii) :
  p c = true -> matches r w -> matches (Cat (Cls p) r) (c :: w).
Proof. intros Hc Hw. apply (matches_cat (Cls p) r [c] w); auto. Qed.

Lemma matches_star_cls (p : ascii -> bool) (w : list ascii) :
  matches (Star (Cls p)) w <-> Forall (fun c => p c = true) w.
Proof.
  split.
  - intros H. remember (Star (Cls p)) as r eqn:Hr.
    induction H as [| | | | | |r' w1 w2 H1 _ H2 IH2]; try discriminate.
    + constructor.
    + injection Hr as ->. inversion H1; subst.
      constructor; [assumption|]. apply IH2. reflexivity.
  - induction 1 as [|c w Hc _ IH]; [auto|].
    apply (matches_star_app (Cls p) [c] w); auto.
Qed.

Lemma matches_eps_nil (w : list ascii) : matches Eps w -> w = [].
Proof. inversion 1. reflexivity. Qed.

Lemma chr_eq (c x : ascii) : Ascii.eqb c x = true -> x = c.
Proof. intros H. apply Ascii.eqb_eq in H. congruence. Qed.

Definition not_newline (c : ascii) : bool := negb (Ascii.eqb c "010").

(** The words of [h5_re]: nine digits, a dash, a text without line feed,
    and [.h5]. *)
Lemma h5_re_words (w : list ascii) :
  matches h5_re w <->
  exists d name,
    w = d ++ "-"%char :: name ++ ["."; "h"; "5"]%char /\
    length d = 9%nat /\
    Forall (fun c => is_digit c = true) d /\
    Forall (fun c => not_newline c = true) name.
Proof.
  unfold h5_re, seq_re. simpl. split.
  - intros H.
    do 9 (apply matches_cat_cls in H as (? & ? & -> & ? & H)).
    apply matches_cat_cls in H as (dash & w1 & -> & Hdash & H).
    apply chr_eq in Hdash. subst dash.
    inversion H as [| |? ? name tail Hname Htail Hr Hw| | | |]; subst.
    apply matches_star_cls in Hname.
    do 3 (apply matches_cat_cls in Htail as (? & ? & -> & ?%chr_eq & Htail)).
    apply matches_eps_nil in Htail. subst.
    eexists [_; _; _; _; _; _; _; _; _], name.
    split; [reflexivity|]. split; [reflexivity|].
    split; [repeat constructor; assumption|exact Hname].
  - intros (d & name & -> & Hlen & Hd & Hname).
    do 10 (destruct d as [|? d]; try discriminate Hlen).
    repeat match goal with
           | H : Forall _ (_ :: _) |- _ => apply Forall_cons in H as [? H]
           end.
    simpl.
    do 9 (apply matches_cls_cons; [assumption|]).
    apply matches_cls_cons; [reflexivity|].
    apply (matches_cat (Star dot) _ name ["."; "h"; "5"]%char).
    + apply matches_star_cls. exact Hname.
    + do 3 (apply matches_cls_cons; [reflexivity|]). auto.
Qed.

(** *** The characters of a file name *)

Lemma digit_char_digit (d : Z) :
  0 <= d <= 9 ->
  is_digit (digit_char d) = true /\ digit_val (digit_char d) = d.
Proof.
  intros Hd.
  assert (Hcases : d = 0 \/ d = 1 \/ d = 2 \/ d = 3 \/ d = 4 \/ d = 5 \/
                   d = 6 \/ d = 7 \/ d = 8 \/ d = 9) by lia.
  repeat destruct Hcases as [->|Hcases]; try subst d; split; reflexivity.
Qed.

Lemma zeros_chars (n : nat) :
  list_ascii_of_string (zeros n) = repeat "0"%char n.
Proof. induction n as [|n IH]; simpl; [|rewrite IH]; reflexivity. Qed.

Lemma string_length_chars (s : string) :
  String.length s = length (list_ascii_of_string s).
Proof. induction s as [|c s IH]; simpl; [|rewrite IH]; reflexivity. Qed.

(** The characters of [format(rid, "09")] for [rid >= 0]: digits, nine
    or more, nine exactly when [rid] has at most nine digits, with [rid]
    as their value. *)
Lemma format_09_nonneg (rid : Z) :
  0 <= rid ->
  let w := list_ascii_of_string (format_09 rid) in
  Forall (fun c => is_digit c = true) w /\
  (9 <= length w)%nat /\
  (length w = 9%nat <-> rid < 10 ^ 9) /\
  digits_value 0 w = rid.
Proof.
  intros Hrid w. subst w. unfold format_09.
  rewrite (proj2 (Z.ltb_ge rid 0)) by lia. rewrite Z.abs_eq by lia.
  change (String.length "") with 0%nat. rewrite Nat.sub_0_r.
  rewrite !list_ascii_of_string_app.
  change (list_ascii_of_string "") with (@nil ascii).
  rewrite app_nil_l, zeros_chars.
  destruct (python_str_nonneg rid Hrid) as (c & d & Hchars & Hd & Hval & _).
  pose proof (python_str_length rid 8 Hrid) as [Hshort _].
  pose proof (python_str_length rid 9 Hrid) as [_ Hlong].
  rewrite string_length_chars, Hchars in *.
  rewrite length_app, repeat_length, digits_value_zeros.
  change (10 ^ Z.of_nat 9) with 1000000000 in Hshort.
  change (10 ^ Z.of_nat 9) with 1000000000 in Hlong.
  change (10 ^ 9) with 1000000000.
  remember (length (c :: d)) as n eqn:Hn. clear Hn.
  split.
  { apply Forall_app. split; [|exact Hd].
    apply Forall_forall. intros x Hx. apply list_elem_of_In in Hx.
    apply repeat_spec in Hx. subst. reflexivity. }
  split; [lia|]. split; [|exact Hval].
  split.
  - intros Hlen.
    destruct (Z.lt_ge_cases rid 1000000000) as [Hlt|Hge]; [exact Hlt|].
    specialize (Hlong ltac:(lia)). lia.
  - intros Hlt. specialize (Hshort Hlt). lia.
Qed.

Lemma format_09_negative (rid : Z) :
  rid < 0 ->
  exists w, list_ascii_of_string (format_09 rid) = "-"%char :: w.
Proof.
  intros Hneg. unfold format_09. apply Z.ltb_lt in Hneg. rewrite Hneg.
  eexists. reflexivity.
Qed.

Lemma h5_filename_chars (rid : Z) (name : string) :
  list_ascii_of_string (h5_filename rid name) =
  list_ascii_of_string (format_09 rid) ++
  "-"%char :: list_ascii_of_string name ++ ["."; "h"; "5"]%char.
Proof.
  unfold h5_filename. rewrite !list_ascii_of_string_app. reflexivity.
Qed.

Lemma substring_prefix (s1 s2 : string) :
  substring 0 (String.length s1) (s1 +:+ s2) = s1.
Proof.
  induction s1 as [|c s1 IH]; simpl.
  - destruct s2; reflexivity.
  - rewrite IH. reflexivity.
Qed.

(** *** File names and the pattern of the scan *)

Lemma h5_filename_match (rid : Z) (name : string) :
  (fullmatch h5_re (h5_filename rid name) = true <->
   0 <= rid < 10 ^ 9 /\
   Forall (fun c => not_newline c = true) (list_ascii_of_string name)) /\
  (0 <= rid < 10 ^ 9 ->
   python_int (group1 (h5_filename rid name)) = Return rid).
Proof.
  split.
  - unfold fullmatch. rewrite accepts_matches, h5_re_words, h5_filename_chars.
    split.
    + intros (d & name' & Heq & Hlen & Hd & Hname').
      destruct (Z.lt_ge_cases rid 0) as [Hneg|Hpos].
      { destruct (format_09_negative rid Hneg) as (w & Hw).
        rewrite Hw in Heq. destruct d as [|c d]; [discriminate Hlen|].
        injection Heq as <- _. apply Forall_cons in Hd as [Hc _].
        discriminate Hc. }
      destruct (format_09_nonneg rid Hpos) as (Hdigits & Hlong & Hnine & _).
      set (F := list_ascii_of_string (format_09 rid)) in *.
      rewrite <- (take_drop 9 F), <- app_assoc in Heq.
      apply app_inj_1 in Heq as [Hd9 Hrest];
        [|rewrite length_take; lia].
      destruct (drop 9 F) as [|c rest] eqn:Hdrop.
      * simpl in Hrest. injection Hrest as Hrest.
        apply app_inv_tail in Hrest. subst name'.
        split; [|exact Hname']. split; [exact Hpos|]. apply Hnine.
        rewrite <- (take_drop 9 F), Hdrop, app_nil_r, length_take. lia.
      * simpl in Hrest. injection Hrest as -> _.
        assert (Hin : "-"%char ∈ F).
        { rewrite <- (take_drop 9 F), Hdrop. apply elem_of_app. right. left. }
        rewrite Forall_forall in Hdigits. specialize (Hdigits _ Hin).
        discriminate Hdigits.
    + intros [[Hpos Hlt] Hname].
      destruct (format_09_nonneg rid Hpos) as (Hdigits & _ & Hnine & _).
      exists (list_ascii_of_string (format_09 rid)), (list_ascii_of_string name).
      split; [reflexivity|]. split; [apply Hnine; exact Hlt|].
      split; assumption.
  - intros [Hpos Hlt].
    destruct (format_09_nonneg rid Hpos) as (Hdigits & _ & Hnine & Hval).
    apply Hnine in Hlt. rewrite <- string_length_chars in Hlt.
    unfold group1, h5_filename. rewrite <- Hlt, substring_prefix.
    rewrite python_int_digits, Hval; [reflexivity| |exact Hdigits].
    intros Hempty. rewrite Hempty in Hlt. discriminate Hlt.
Qed.

Lemma day_re_length (w : list ascii) :
  matches day_re w -> length w = 10%nat.
Proof.
  unfold day_re, seq_re. simpl. intros H.
  do 10 (apply matches_cat_cls in H as (? & ? & -> & _ & H)).
  apply matches_eps_nil in H. subst. reflexivity.
Qed.

Lemma two_digits_chars (n : Z) :
  0 <= n <= 99 ->
  exists c1 c2,
    list_ascii_of_string (two_digits n) = [c1; c2] /\
    is_digit c1 = true /\ is_digit c2 = true.
Proof.
  intros Hn. unfold two_digits.
  exists (digit_char (n / 10)), (digit_char (n mod 10)).
  split; [reflexivity|]. split; apply digit_char_digit.
  - split; [apply Z.div_pos; lia|].
    apply Z.lt_succ_r. apply Z.div_lt_upper_bound; lia.
  - pose proof (Z.mod_pos_bound n 10 ltac:(lia)). lia.
Qed.

Lemma fits_int_range (z : Z) :
  - 2 ^ 31 <= z < 2 ^ 31 -> fits_int z = true.
Proof.
  intros [Hlo Hhi]. unfold fits_int.
  rewrite (proj2 (Z.leb_le _ _) Hlo), (proj2 (Z.ltb_lt _ _) Hhi). reflexivity.
Qed.

Lemma checked_fields (t : struct_time) :
  0 <= tm_year t < 2 ^ 31 ->
  0 <= tm_mon t <= 12 -> 0 <= tm_mday t <= 31 ->
  0 <= tm_hour t <= 23 -> 0 <= tm_min t <= 59 ->
  exists t',
    checked t = Return t' /\ tm_year t' = tm_year t /\
    1 <= tm_mon t' <= 12 /\ 1 <= tm_mday t' <= 31 /\
    tm_hour t' = tm_hour t /\ tm_min t' = tm_min t.
Proof.
  intros Hyear Hmon Hday Hhour Hmin. unfold checked.
  rewrite !fits_int_range by lia.
  repeat match goal with
         | |- context [?a <=? ?b] =>
             rewrite (proj2 (Z.leb_le a b)) by lia
         end.
  simpl. eexists. split; [reflexivity|]. simpl.
  destruct (Z.eqb_spec (tm_mon t) 0), (Z.eqb_spec (tm_mday t) 0); lia.
Qed.

(** A field that does not fit a C integer: the year 2 ** 31. *)
Lemma checked_overflow (t : struct_time) :
  2 ^ 31 <= tm_year t -> checked t = Raise OverflowError.
Proof.
  intros Hyear. unfold checked, fits_int.
  rewrite (proj2 (Z.ltb_ge (tm_year t) (2 ^ 31)) Hyear).
  rewrite andb_false_r. reflexivity.
Qed.

Lemma strftime_names_match (t : struct_time) :
  0 <= tm_year t < 2 ^ 31 ->
  0 <= tm_mon t <= 12 -> 0 <= tm_mday t <= 31 ->
  0 <= tm_hour t <= 23 -> 0 <= tm_min t <= 59 ->
  exists day minute,
    strftime_day t = Return day /\
    strftime_minute t = Return minute /\
    fullmatch minute_re minute = true /\
    (fullmatch day_re day = true <-> 1000 <= tm_year t <= 9999).
Proof.
  intros [Hyear Hyear_hi] Hmon Hday Hhour Hmin.
  destruct (checked_fields t (conj Hyear Hyear_hi) Hmon Hday Hhour Hmin)
    as (t' & Hchecked & Hy & Hm & Hd & Hh & Hmi).
  unfold strftime_day, strftime_minute. rewrite Hchecked. simpl.
  eexists _, _. split; [reflexivity|]. split; [reflexivity|].
  destruct (two_digits_chars (tm_mon t') ltac:(lia))
    as (m1 & m2 & Hmon' & Hm1 & Hm2).
  destruct (two_digits_chars (tm_mday t') ltac:(lia))
    as (d1 & d2 & Hday' & Hd1 & Hd2).
  destruct (two_digits_chars (tm_hour t') ltac:(lia))
    as (h1 & h2 & Hhour' & Hh1 & Hh2).
  destruct (two_digits_chars (tm_min t') ltac:(lia))
    as (n1 & n2 & Hmin' & Hn1 & Hn2).
  unfold fullmatch. rewrite !accepts_matches, !list_ascii_of_string_app.
  rewrite Hmon', Hday', Hhour', Hmin', Hy.
  split.
  - unfold minute_re, seq_re. simpl.
    repeat (apply matches_cls_cons; [first [assumption|reflexivity]|]).
    auto.
  - destruct (python_str_nonneg (tm_year t) Hyear)
      as (c & w & Hchars & Hdigits & _ & _).
    pose proof (python_str_length (tm_year t) 3 Hyear) as [Hshort4 Hlong3].
    pose proof (python_str_length (tm_year t) 2 Hyear) as [Hshort3 _].
    pose proof (python_str_length (tm_year t) 4 Hyear) as [_ Hlong4].
    rewrite string_length_chars, Hchars in *.
    change (10 ^ Z.of_nat 4) with 10000 in *.
    change (10 ^ Z.of_nat 3) with 1000 in *.
    unfold day_re, seq_re. simpl. split.
    + intros H. apply day_re_length in H.
      simpl in H. rewrite length_app in H. simpl in H.
      change (10 ^ Z.of_nat 2) with 100 in *.
      destruct (Z.lt_ge_cases (tm_year t) 1000) as [Hlt|Hge].
      { specialize (Hshort3 ltac:(lia)). simpl in Hshort3. lia. }
      destruct (Z.lt_ge_cases (tm_year t) 10000) as [Hlt|Hge'];
        [lia|].
      specialize (Hlong4 Hge'). simpl in Hlong4. lia.
    + intros [Hlo Hhi].
      specialize (Hshort4 ltac:(lia)). specialize (Hlong3 ltac:(lia)).
      destruct w as [|y2 [|y3 [|y4 [|y5 w]]]]; simpl in Hshort4, Hlong3;
        try lia.
      repeat (apply Forall_cons in Hdigits as [? Hdigits]).
      simpl.
      repeat (apply matches_cls_cons; [first [assumption|reflexivity]|]).
      auto.
Qed.

(** The file name that [get_hdf5_output] makes for a run is recognised by
    the recovery scan exactly when the run id has at most nine digits
    (and is not negative) and the name holds no line feed; the scan then
    reads the run id back from it.  From run 1000000000 on, the number
    takes ten digits and the scan passes the file over. *)
Theorem h5_filename_recognised (rid : Z) (name : string) :
  (fullmatch h5_re (h5_filename rid name) = true <->
   0 <= rid < 10 ^ 9 /\
   Forall (fun c => not_newline c = true) (list_ascii_of_string name)) /\
  (0 <= rid < 10 ^ 9 ->
   python_int (group1 (h5_filename rid name)) = Return rid).
Proof. exact (h5_filename_match rid name). Qed.

(** The folders that [get_hdf5_output] makes are the folders the scan
    enters: for a time with valid fields and a year of four digits, the
    day folder matches the day pattern and the minute folder the minute
    pattern.  With a year of more or fewer digits (not negative, and
    within a C integer) the day folder does not match.  From the year
    2 ** 31 on, neither name is made: both formats raise
    [OverflowError]. *)
Theorem strftime_names_recognised (t : struct_time) :
  0 <= tm_mon t <= 12 -> 0 <= tm_mday t <= 31 ->
  0 <= tm_hour t <= 23 -> 0 <= tm_min t <= 59 ->
  (0 <= tm_year t < 2 ^ 31 ->
   exists day minute,
     strftime_day t = Return day /\
     strftime_minute t = Return minute /\
     fullmatch minute_re minute = true /\
     (fullmatch day_re day = true <-> 1000 <= tm_year t <= 9999)) /\
  (2 ^ 31 <= tm_year t ->
   strftime_day t = Raise OverflowError /\
   strftime_minute t = Raise OverflowError).
Proof.
  intros Hmon Hday Hhour Hmin. split.
  - intros Hyear. exact (strftime_names_match t Hyear Hmon Hday Hhour Hmin).
  - intros Hyear. unfold strftime_day, strftime_minute.
    rewrite (checked_overflow t Hyear). split; reflexivity.
Qed.

(** *** The results tree after a write *)















(** *** Instances *)

Definition march_9 : struct_time := mkTime 2016 3 9 7 5.

(** The folders of 9 March 2016, 07:05, and the same time in the year
    2 ** 31. *)
Lemma strftime_names_recognised_witness :
  (exists day minute,
     strftime_day march_9 = Return day /\
     strftime_minute march_9 = Return minute /\
     fullmatch minute_re minute = true /\
     fullmatch day_re day = true) /\
  strftime_minute (mkTime (2 ^ 31) 3 9 7 5) = Raise OverflowError.
Proof.
  split.
  - destruct (strftime_names_recognised march_9) as [Hnames _];
      simpl; try lia.
    destruct Hnames as (day & minute & Hday & Hminute & Hmm & Hdm);
      [simpl; lia|].
    exists day, minute. split; [exact Hday|]. split; [exact Hminute|].
    split; [exact Hmm|]. apply Hdm. simpl. lia.
  - destruct (strftime_names_recognised (mkTime (2 ^ 31) 3 9 7 5))
      as [_ Hover]; simpl; try lia.
    apply Hover. simpl. lia.
Defined.


End OutputTheory.
